(** * CAMPS: the audio conversion pipeline of camps_mt.py and camps_legacy.py

    A shallow embedding of the two scripts.  The Python code talks to the
    file system, to mutagen, to pydub and to a Slack webhook; here those
    collaborators are an explicit world (a finite map from paths to files,
    a call counter and an event log) and an environment that decides, call
    by call, which external operation raises.  Every function of the
    scripts becomes a computation in a state-and-exception monad over that
    world, written statement by statement after the source.

    What the model fixes about the collaborators:
    - paths and tag values are byte strings; [os.path] is posixpath and
      the file system tells names apart by their bytes;
    - an external call either takes effect entirely or raises without
      effect;
    - tags are one mapping from field name to a list of values, whatever
      the container format, and the truth value of a loaded mutagen object
      is left to the environment;
    - [print] raises [UnicodeEncodeError] exactly when the text it is given
      holds a file name that stdout cannot encode (under a strict UTF-8
      stdout, a name that is not valid UTF-8); which names those are is left
      to the environment, and a text without a file name is always printed;
    - the elapsed time, the interpolated exception texts and the MB
      formatting of the printed lines are left out. *)

From Stdlib Require Import ZArith String Ascii List Bool Lia.
From stdpp Require Import base option gmap strings list fin_maps.

Local Open Scope string_scope.
Local Open Scope list_scope.
Local Open Scope Z_scope.

(** ** Python strings and [os.path] (posixpath) *)

Module Py.

(** [s[n:]] and [s[:n]] for [0 <= n]. *)
Fixpoint drop (n : nat) (s : string) : string :=
  match n, s with
  | O, _ => s
  | S n', String _ s' => drop n' s'
  | S _, EmptyString => EmptyString
  end.

Fixpoint take (n : nat) (s : string) : string :=
  match n, s with
  | O, _ => EmptyString
  | S n', String c s' => String c (take n' s')
  | S _, EmptyString => EmptyString
  end.

(** [s.rfind(c)] for a one-character [c]: the highest index holding [c],
    or [-1].  [i] is the index of the head of [s]. *)
Fixpoint rfind_from (c : ascii) (s : string) (i : Z) (last : Z) : Z :=
  match s with
  | EmptyString => last
  | String d s' =>
      rfind_from c s' (i + 1) (if Ascii.eqb c d then i else last)
  end.

Definition rfind (c : ascii) (s : string) : Z := rfind_from c s 0 (-1).

(** [str.lower()] on the ASCII letters; other bytes are left alone. *)
Definition lower_ascii (c : ascii) : ascii :=
  let n := nat_of_ascii c in
  if (Nat.leb 65 n && Nat.leb n 90)%bool then ascii_of_nat (n + 32) else c.

Fixpoint lower (s : string) : string :=
  match s with
  | EmptyString => EmptyString
  | String c s' => String (lower_ascii c) (lower s')
  end.

(** [s.startswith(t)] and [s.endswith("/")]. *)
Fixpoint startswith (t s : string) : bool :=
  match t, s with
  | EmptyString, _ => true
  | String a t', String b s' => Ascii.eqb a b && startswith t' s'
  | String _ _, EmptyString => false
  end.

Fixpoint ends_with_sep (s : string) : bool :=
  match s with
  | EmptyString => false
  | String c EmptyString => Ascii.eqb c "/"
  | String _ s' => ends_with_sep s'
  end.

(** The loop of [genericpath._splitext]: is there a character other than
    the dot in [p[lo:hi]]? [s] is [p[lo:]] and [n] is [hi - lo]. *)
Fixpoint has_non_dot (s : string) (n : nat) : bool :=
  match n, s with
  | O, _ => false
  | S _, EmptyString => false
  | S n', String c s' =>
      if Ascii.eqb c "." then has_non_dot s' n' else true
  end.

(** [os.path.splitext(p)]: the extension starts at the last dot of the
    last component, leading dots of that component not counting. *)
Definition splitext (p : string) : string * string :=
  let sepIndex := rfind "/" p in
  let dotIndex := rfind "." p in
  if (sepIndex <? dotIndex)%Z &&
     has_non_dot (drop (Z.to_nat (sepIndex + 1)) p)
                 (Z.to_nat (dotIndex - (sepIndex + 1)))
  then (take (Z.to_nat dotIndex) p, drop (Z.to_nat dotIndex) p)
  else (p, EmptyString).

(** [os.path.basename(p)]. *)
Definition basename (p : string) : string :=
  drop (Z.to_nat (rfind "/" p + 1)) p.

(** [os.path.join(a, b)]. *)
Definition join (a b : string) : string :=
  if startswith "/" b then b
  else if (String.eqb a "" || ends_with_sep a)%bool then a +:+ b
  else a +:+ "/" +:+ b.

(** [s.find(sep)] as an option: the index of the first occurrence. *)
Fixpoint find (sep s : string) : option nat :=
  if startswith sep s then Some O
  else match s with
       | EmptyString => None
       | String _ s' => S <$> find sep s'
       end.

(** [sep in s]. *)
Definition contains (sep s : string) : bool :=
  match find sep s with Some _ => true | None => false end.

(** [s.split(sep, 1)] when [sep in s]: the text before the first
    occurrence and the text after it.  Without an occurrence Python gives
    a one-element list, which the callers never unpack. *)
Definition split1 (sep s : string) : option (string * string) :=
  match find sep s with
  | Some i => Some (take i s, drop (i + String.length sep) s)
  | None => None
  end.

(** Truth value of a Python string. *)
Definition truthy (s : string) : bool := negb (String.eqb s "").

End Py.

(** ** The world the scripts run in *)

(** What mutagen sees in a file it recognises: [info.bitrate] in bits per
    second (absent when the format's info object has no such attribute)
    and the tag set, a mapping from field name to a list of values. *)
Record MediaInfo := mkMediaInfo {
  mi_bitrate : option Z;
  mi_tags : gmap string (list string)
}.

(** A regular file: size in bytes, permission bits, owner and group, the
    audio it decodes to ([None] when no decoder accepts it) and mutagen's
    view of it ([None] when [mutagen.File] does not recognise the type). *)
Record File := mkFile {
  f_size : Z;
  f_mode : Z;
  f_uid : Z;
  f_gid : Z;
  f_audio : option nat;
  f_media : option MediaInfo
}.

(** The external calls, as the environment sees them. *)
Inductive Op :=
| OpFromFile (p : string)
| OpStat (p : string)
| OpGetSize (p : string)
| OpMkTemp
| OpExport (p : string)
| OpMutagenFile (p : string) (easy : bool)
| OpUpdate (p : string)
| OpSetItem (p key : string)
| OpSave (p : string)
| OpMove (src dst : string)
| OpChmod (p : string)
| OpChown (p : string)
| OpRemove (p : string)
| OpPost.

Inductive Exn :=
| FileNotFoundError
| FileExistsError
| CouldntDecodeError
| AttributeError
| IndexError
| TypeError
| UnboundLocalError
| UnicodeEncodeError
| ExternalError (op : Op).

(** Texts that are printed or posted to the webhook.  The interpolated
    exception text, the elapsed time and the MB formatting are left out. *)
Inductive Msg :=
| MBitrateError (p : string)
| MSkippingMetadata (p : string)
| MEstimated (p artist title : string)
| MCouldNotEstimate (p : string)
| MConverted (new_path : string)
| MErrorConverting (p : string)
| MLowerBitrate (file : string) (bitrate : Z)
| MSlackSent
| MSlackFailed (status_code : Z)
| MSlackError
| MAudioConversionCompleted (converted_count total_space_saved : Z)
| MConversionCompleted (converted_count total_space_saved : Z)
| MConversionAndRenamingCompleted (total_space_saved : Z).

(** Mutations of the file system. *)
Inductive FsOp :=
| FsMkTemp (p : string)
| FsExport (p : string)
| FsSaveTags (p : string)
| FsMove (src dst : string)
| FsChmod (p : string) (mode : Z)
| FsChown (p : string) (uid gid : Z)
| FsRemove (p : string).

(** The log: what was printed, what was posted, and every mutation of the
    file system together with the file system right after it. *)
Inductive Event :=
| EPrint (m : Msg)
| EPost (url : string) (m : Msg)
| EFs (op : FsOp) (after : gmap string File).

(** The module globals read from the environment, and the behaviour of
    the collaborators: [fault n op] says whether the [n]-th external call,
    being [op], raises; [stdout_encodes name] says whether [sys.stdout] can
    encode the file name [name]. *)
Record Env := mkEnv {
  input_dir : string;
  slack_webhook_url : string;
  desired_bitrate : Z;
  fault : nat -> Op -> bool;
  tmp_name : nat -> string;
  proc_uid : Z;
  proc_gid : Z;
  enc_size : nat -> Z;
  enc_tags : nat -> gmap string (list string);
  saved_size : nat -> Z -> Z;
  post_status : nat -> Z;
  tags_truth : gmap string (list string) -> bool;
  os_walk : gmap string File -> string -> list (string * list string);
  stdout_encodes : string -> bool
}.

(** [log] is newest first. *)
Record World := mkWorld {
  fs : gmap string File;
  clock : nat;
  log : list Event
}.

Inductive Res (A : Type) :=
| Ok (a : A)
| Raise (e : Exn).
Arguments Ok {A} a.
Arguments Raise {A} e.

(** Computations: state passing with exceptions. *)
Definition M (A : Type) : Type := World -> Res A * World.

#[global] Instance M_ret : MRet M := fun A a w => (Ok a, w).

#[global] Instance M_bind : MBind M := fun A B k m w =>
  match m w with
  | (Ok a, w') => k a w'
  | (Raise e, w') => (Raise e, w')
  end.

Definition raise {A} (e : Exn) : M A := fun w => (Raise e, w).

(** [try: body except Exception as e: handler e]. *)
Definition try_except {A} (body : M A) (handler : Exn -> M A) : M A :=
  fun w =>
    match body w with
    | (Ok a, w') => (Ok a, w')
    | (Raise e, w') => handler e w'
    end.

(** [try: x = body except Exception: handler] followed by [rest x], where
    [rest] is outside the protected block. *)
Definition try_then {A B} (body : M A) (rest : A -> M B)
    (handler : Exn -> M B) : M B :=
  fun w =>
    match body w with
    | (Ok a, w') => rest a w'
    | (Raise e, w') => handler e w'
    end.

Definition emit (ev : Event) : M unit := fun w =>
  (Ok tt, mkWorld (fs w) (clock w) (ev :: log w)).

(** The file names a text interpolates. *)
Definition names_of (m : Msg) : list string :=
  match m with
  | MBitrateError p => [p]
  | MSkippingMetadata p => [p]
  | MEstimated p artist title => [p; artist; title]
  | MCouldNotEstimate p => [p]
  | MConverted new_path => [new_path]
  | MErrorConverting p => [p]
  | MLowerBitrate file _ => [file]
  | MSlackSent => []
  | MSlackFailed _ => []
  | MSlackError => []
  | MAudioConversionCompleted _ _ => []
  | MConversionCompleted _ _ => []
  | MConversionAndRenamingCompleted _ => []
  end.

(** [print(text)]: the line is written, unless the text holds a file name
    that stdout cannot encode; then [print] raises and writes nothing. *)
Definition print (E : Env) (m : Msg) : M unit :=
  if forallb (stdout_encodes E) (names_of m) then emit (EPrint m)
  else raise UnicodeEncodeError.

Definition set_fs (op : FsOp) (fs' : gmap string File) : M unit := fun w =>
  (Ok tt, mkWorld fs' (clock w) (EFs op fs' :: log w)).

Definition get_fs : M (gmap string File) := fun w => (Ok (fs w), w).

Definition lookup_file (p : string) : M File := fun w =>
  match fs w !! p with
  | Some f => (Ok f, w)
  | None => (Raise FileNotFoundError, w)
  end.

(** A local variable of a Python function. *)
Inductive Var (A : Type) :=
| Unbound
| Bound (v : A).
Arguments Unbound {A}.
Arguments Bound {A} v.

(** A loaded mutagen object: the path it was read from and saves to, and
    the in-memory tag set. *)
Record MObj := mkMObj {
  o_path : string;
  o_bitrate : option Z;
  o_tags : gmap string (list string)
}.

Record Stat := mkStat {
  st_mode : Z;
  st_uid : Z;
  st_gid : Z
}.

Section Collaborators.

Context (E : Env).

(** One external call: it advances the clock and raises when the
    environment says so. *)
Definition call (op : Op) : M nat := fun w =>
  let w' := mkWorld (fs w) (S (clock w)) (log w) in
  if fault E (clock w) op then (Raise (ExternalError op), w')
  else (Ok (clock w), w').

(** [AudioSegment.from_file(p)]: the decoded audio. *)
Definition AudioSegment_from_file (p : string) : M nat :=
  call (OpFromFile p);;
  f ← lookup_file p;
  match f_audio f with
  | Some a => mret a
  | None => raise CouldntDecodeError
  end.

(** [os.stat(p)] and [os.path.getsize(p)]. *)
Definition os_stat (p : string) : M Stat :=
  call (OpStat p);;
  f ← lookup_file p;
  mret (mkStat (f_mode f) (f_uid f) (f_gid f)).

Definition getsize (p : string) : M Z :=
  call (OpGetSize p);;
  f ← lookup_file p;
  mret (f_size f).

(** [tempfile.NamedTemporaryFile(suffix=".mp3", delete=False)]: an empty
    file under a name that did not exist (exclusive creation). *)
Definition NamedTemporaryFile : M string :=
  n ← call OpMkTemp;
  m ← get_fs;
  let t := tmp_name E n in
  match m !! t with
  | Some _ => raise FileExistsError
  | None =>
      set_fs (FsMkTemp t)
        (<[t := mkFile 0 384 (proc_uid E) (proc_gid E) None None]> m);;
      mret t
  end.

(** [audio.export(p, format="mp3", bitrate=...)]: the file at [p] now
    holds the encoding of [audio] at the desired bitrate. *)
Definition audio_export (audio : nat) (p : string) : M unit :=
  n ← call (OpExport p);
  m ← get_fs;
  let media := mkMediaInfo (Some (desired_bitrate E * 1000)) (enc_tags E n) in
  let f :=
    match m !! p with
    | Some old =>
        mkFile (enc_size E n) (f_mode old) (f_uid old) (f_gid old)
               (Some audio) (Some media)
    | None =>
        mkFile (enc_size E n) 420 (proc_uid E) (proc_gid E)
               (Some audio) (Some media)
    end in
  set_fs (FsExport p) (<[p := f]> m).

(** [mutagen.File(p)] and [mutagen.File(p, easy=True)]: an object, or
    [None] for a type mutagen does not recognise. *)
Definition mutagen_File (p : string) (easy : bool) : M (option MObj) :=
  call (OpMutagenFile p easy);;
  f ← lookup_file p;
  mret (match f_media f with
        | Some mi => Some (mkMObj p (mi_bitrate mi) (mi_tags mi))
        | None => None
        end).

(** Truth value of [mutagen.File]'s result: [None] is false; for an
    object Python asks the object, and the answer is left to the
    environment as a function of the tag set. *)
Definition truth (o : option MObj) : bool :=
  match o with
  | Some obj => tags_truth E (o_tags obj)
  | None => false
  end.

(** [new.update(original)]: every field of [original] is copied over
    [new]; a failing merge is taken to leave [new] as it was.  With
    [original = None] mutagen's [update] copies nothing. *)
Definition obj_update (new : option MObj) (original : option MObj)
    : M (option MObj) :=
  match new with
  | None => raise AttributeError
  | Some n =>
      call (OpUpdate (o_path n));;
      mret (Some (mkMObj (o_path n) (o_bitrate n)
                    (match original with
                     | Some o => o_tags o ∪ o_tags n
                     | None => o_tags n
                     end)))
  end.

(** [obj[key] = value], on a local variable holding [mutagen.File]'s
    result. *)
Definition obj_setitem (v : Var (option MObj)) (key value : string)
    : M (Var (option MObj)) :=
  match v with
  | Unbound => raise UnboundLocalError
  | Bound None => raise TypeError
  | Bound (Some o) =>
      call (OpSetItem (o_path o) key);;
      mret (Bound (Some (mkMObj (o_path o) (o_bitrate o)
                           (<[key := [value]]> (o_tags o)))))
  end.

(** [obj.save()]: the in-memory tag set is written to the file. *)
Definition obj_save (v : Var (option MObj)) : M unit :=
  match v with
  | Unbound => raise UnboundLocalError
  | Bound None => raise AttributeError
  | Bound (Some o) =>
      n ← call (OpSave (o_path o));
      f ← lookup_file (o_path o);
      m ← get_fs;
      set_fs (FsSaveTags (o_path o))
        (<[o_path o :=
             mkFile (saved_size E n (f_size f)) (f_mode f) (f_uid f)
                    (f_gid f) (f_audio f)
                    (Some (mkMediaInfo (o_bitrate o) (o_tags o)))]> m)
  end.

(** [shutil.move(src, dst)] for a destination that is a file path. *)
Definition shutil_move (src dst : string) : M unit :=
  call (OpMove src dst);;
  f ← lookup_file src;
  m ← get_fs;
  set_fs (FsMove src dst) (<[dst := f]> (delete src m)).

Definition os_chmod (p : string) (mode : Z) : M unit :=
  call (OpChmod p);;
  f ← lookup_file p;
  m ← get_fs;
  set_fs (FsChmod p mode)
    (<[p := mkFile (f_size f) mode (f_uid f) (f_gid f) (f_audio f)
              (f_media f)]> m).

Definition os_chown (p : string) (uid gid : Z) : M unit :=
  call (OpChown p);;
  f ← lookup_file p;
  m ← get_fs;
  set_fs (FsChown p uid gid)
    (<[p := mkFile (f_size f) (f_mode f) uid gid (f_audio f)
              (f_media f)]> m).

Definition os_remove (p : string) : M unit :=
  call (OpRemove p);;
  _ ← lookup_file p;
  m ← get_fs;
  set_fs (FsRemove p) (delete p m).

(** [requests.post(slack_webhook_url, json={"text": text})]: the status
    code of the response. *)
Definition requests_post (text : Msg) : M Z :=
  emit (EPost (slack_webhook_url E) text);;
  n ← call OpPost;
  mret (post_status E n).

(** [os.walk(input_dir)] flattened: every [(root, file)] in the order the
    walk yields them. *)
Definition walk_files (root_dir : string) (m : gmap string File)
    : list (string * string) :=
  flat_map (fun rf => map (fun file => (fst rf, file)) (snd rf))
           (os_walk E m root_dir).

End Collaborators.

(** Supported audio file extensions *)
Definition SUPPORTED_EXTENSIONS : list string :=
  [".wav"; ".flac"; ".ogg"; ".aac"; ".m4a"; ".wma"; ".alac"; ".aiff"; ".mp3"].

(** [ext in SUPPORTED_EXTENSIONS] *)
Definition supported (ext : string) : bool :=
  existsb (String.eqb ext) SUPPORTED_EXTENSIONS.

(** [int(x / 1000)] for an integer [x]: truncation towards zero. *)
Definition kbps (bitrate : Z) : Z := Z.quot bitrate 1000.

(** ** camps_mt.py *)

Module Mt.
Section MtScript.

Context (E : Env).

(** Send a Slack notification *)
Definition send_slack_message (message : Msg) : M unit :=
  try_except
    (status_code ← requests_post E message;
     if status_code =? 200 then print E MSlackSent
     else print E (MSlackFailed status_code))
    (fun e => print E MSlackError).

(** Send a Slack notification with the conversion summary. *)
Definition send_slack_notification (converted_count total_space_saved : Z)
    : M unit :=
  send_slack_message
    (MAudioConversionCompleted converted_count total_space_saved).

(** Get the bitrate of an MP3 file *)
Definition get_mp3_bitrate (file_path : string) : M (option Z) :=
  try_except
    (audio ← mutagen_File E file_path false;
     match audio with
     | None => raise AttributeError
     | Some o =>
         match o_bitrate o with
         | None => raise AttributeError
         | Some b => mret (Some (kbps b))
         end
     end)
    (fun e => print E (MBitrateError file_path);; mret None).

(** The handler of the inner [try] of [convert_to_mp3] (lines 71-94):
    estimate artist and title from the file name.  [new_metadata] is the
    local variable as the protected block left it. *)
Definition estimate_from_filename (input_path : string)
    (new_metadata : Var (option MObj)) : M unit :=
  print E (MSkippingMetadata input_path);;
  let filename := Py.basename input_path in
  let name := fst (Py.splitext filename) in
  match Py.split1 " - " name with
  | Some (artist, title) =>
      nm ← obj_setitem E new_metadata "artist" artist;
      nm ← obj_setitem E nm "title" title;
      obj_save E nm;;
      print E (MEstimated input_path artist title);;
      send_slack_message (MEstimated input_path artist title)
  | None =>
      print E (MCouldNotEstimate input_path);;
      send_slack_message (MCouldNotEstimate input_path)
  end.

(** The inner [try] of [convert_to_mp3] (lines 65-94).  An exception
    leaves the protected block at the statement that raised it, with
    [new_metadata] unbound, bound, or bound and already updated. *)
Definition copy_metadata (input_path temp_output_path : string) : M unit :=
  try_then
    (original_metadata ← mutagen_File E input_path false;
     new_metadata ← mutagen_File E temp_output_path false;
     mret (original_metadata, new_metadata))
    (fun '(original_metadata, new_metadata) =>
       if truth E original_metadata && truth E new_metadata then
         try_then
           (obj_update E new_metadata original_metadata)
           (fun new_metadata =>
              try_except
                (obj_save E (Bound new_metadata))
                (fun e =>
                   estimate_from_filename input_path (Bound new_metadata)))
           (fun e => estimate_from_filename input_path (Bound new_metadata))
       else mret tt)
    (fun e => estimate_from_filename input_path Unbound).

Definition convert_to_mp3 (input_path : string) : M Z :=
  try_except
    (audio ← AudioSegment_from_file E input_path;
     original_stat ← os_stat E input_path;
     temp_output_path ← NamedTemporaryFile E;
     audio_export E audio temp_output_path;;
     let new_path := fst (Py.splitext input_path) +:+ ".mp3" in
     st ← os_stat E input_path;
     let original_permissions := st_mode st in
     original_size ← getsize E input_path;
     new_size ← getsize E temp_output_path;
     copy_metadata input_path temp_output_path;;
     shutil_move E temp_output_path new_path;;
     os_chmod E new_path original_permissions;;
     os_chown E new_path (st_uid original_stat) (st_gid original_stat);;
     (if String.eqb input_path new_path then mret tt
      else os_remove E input_path);;
     print E (MConverted new_path);;
     mret (original_size - new_size))
    (fun e =>
       print E (MErrorConverting input_path);;
       send_slack_message (MErrorConverting input_path);;
       mret 0).

(** [audio_file.get(key, [""])[0]] *)
Definition first_value (audio_file : option MObj) (key : string) : M string :=
  match audio_file with
  | None => raise AttributeError
  | Some o =>
      match default [""] (o_tags o !! key) with
      | v :: _ => mret v
      | [] => raise IndexError
      end
  end.

(** [bitrate == desired_bitrate or (bitrate and bitrate < desired_bitrate)],
    as a truth value; [bitrate] is [None] or an integer. *)
Definition no_conversion_needed (bitrate : option Z) : bool :=
  match bitrate with
  | None => false
  | Some b =>
      (b =? desired_bitrate E)
      || (negb (b =? 0) && (b <? desired_bitrate E))
  end.

(** Lines 122-149 of [process_file]: check if metadata is missing and
    estimate from filename. *)
Definition estimate_missing_metadata (file_path : string) : M unit :=
  audio_file ← mutagen_File E file_path true;
  artist ← first_value audio_file "artist";
  title ← first_value audio_file "title";
  if negb (Py.truthy artist) || negb (Py.truthy title) then
    let filename := Py.basename file_path in
    let name := fst (Py.splitext filename) in
    match Py.split1 " - " name with
    | Some (estimated_artist, estimated_title) =>
        af ← (if negb (Py.truthy artist)
              then obj_setitem E (Bound audio_file) "artist" estimated_artist
              else mret (Bound audio_file));
        af ← (if negb (Py.truthy title)
              then obj_setitem E af "title" estimated_title
              else mret af);
        obj_save E af;;
        print E (MEstimated file_path estimated_artist estimated_title);;
        send_slack_message
          (MEstimated file_path estimated_artist estimated_title)
    | None =>
        print E (MCouldNotEstimate file_path);;
        send_slack_message (MCouldNotEstimate file_path)
    end
  else mret tt.

(** Process a single file for conversion or metadata update. *)
Definition process_file (file_path : string) : M Z :=
  let ext := Py.lower (snd (Py.splitext file_path)) in
  if supported ext then
    skip ←
      (if String.eqb ext ".mp3" then
         bitrate ← get_mp3_bitrate file_path;
         estimate_missing_metadata file_path;;
         mret (no_conversion_needed bitrate)
       else mret false);
    if (skip : bool) then mret 0 else convert_to_mp3 file_path
  else mret 0.

(** [list(executor.map(process_file, files))]: the results in the order
    of the files; the first exception a task raised is re-raised when its
    result is collected.  The pool is run as one schedule among those it
    allows: the tasks one after the other, in order, none started after
    the one that raised. *)
Fixpoint executor_map (files : list string) : M (list Z) :=
  match files with
  | [] => mret []
  | file :: rest =>
      r ← process_file file;
      rs ← executor_map rest;
      mret (r :: rs)
  end.

(** The loop of lines 175-178 over the collected results. *)
Fixpoint tally (results : list Z) (converted_count total_space_saved : Z)
    : Z * Z :=
  match results with
  | [] => (converted_count, total_space_saved)
  | space_saved :: rest =>
      if 0 <? space_saved
      then tally rest (converted_count + 1) (total_space_saved + space_saved)
      else tally rest converted_count total_space_saved
  end.

(** Process all audio files in a directory using multiple cores. *)
Definition process_directory (input_dir : string) : M unit :=
  m ← get_fs;
  let files_to_process :=
    map (fun rf => Py.join (fst rf) (snd rf)) (walk_files E input_dir m) in
  results ← executor_map files_to_process;
  let '(converted_count, total_space_saved) := tally results 0 0 in
  (if 0 <? converted_count
   then send_slack_notification converted_count total_space_saved
   else mret tt);;
  print E (MConversionCompleted converted_count total_space_saved).

Definition main : M unit := process_directory (input_dir E).

End MtScript.
End Mt.

(** ** camps_legacy.py *)

Module Legacy.
Section LegacyScript.

Context (E : Env).

(** The webhook call that [convert_to_mp3] and [send_slack_notification]
    both spell out (lines 100-109 and 165-174). *)
Definition post_and_report (message : Msg) : M unit :=
  try_except
    (status_code ← requests_post E message;
     if status_code =? 200 then print E MSlackSent
     else print E (MSlackFailed status_code))
    (fun e => print E MSlackError).

(** Send a Slack notification with the number of files converted, the
    duration, and the total space saved. *)
Definition send_slack_notification (converted_count total_space_saved : Z)
    : M unit :=
  post_and_report
    (MAudioConversionCompleted converted_count total_space_saved).

(** Get the bitrate of an MP3 file *)
Definition get_mp3_bitrate (file_path : string) : M (option Z) :=
  try_except
    (audio ← mutagen_File E file_path false;
     match audio with
     | None => raise AttributeError
     | Some o =>
         match o_bitrate o with
         | None => raise AttributeError
         | Some b => mret (Some (kbps b))
         end
     end)
    (fun e => print E (MBitrateError file_path);; mret None).

(** Convert an audio file to MP3 format while preserving metadata *)
Definition convert_to_mp3 (input_path : string) : M Z :=
  try_except
    (audio ← AudioSegment_from_file E input_path;
     original_stat ← os_stat E input_path;
     temp_output_path ← NamedTemporaryFile E;
     audio_export E audio temp_output_path;;
     let new_path := fst (Py.splitext input_path) +:+ ".mp3" in
     st ← os_stat E input_path;
     let original_permissions := st_mode st in
     original_size ← getsize E input_path;
     new_size ← getsize E temp_output_path;
     original_metadata ← mutagen_File E input_path false;
     new_metadata ← mutagen_File E temp_output_path false;
     new_metadata ← obj_update E new_metadata original_metadata;
     obj_save E (Bound new_metadata);;
     shutil_move E temp_output_path new_path;;
     os_chmod E new_path original_permissions;;
     os_chown E new_path (st_uid original_stat) (st_gid original_stat);;
     (if String.eqb input_path new_path then mret tt
      else os_remove E input_path);;
     print E (MConverted new_path);;
     mret (original_size - new_size))
    (fun e =>
       print E (MErrorConverting input_path);;
       post_and_report (MErrorConverting input_path);;
       mret 0).

(** One iteration of the inner loop of [process_directory] (lines
    123-143) on the counters [(converted_count, total_space_saved)]. *)
Definition process_entry (root file : string) (acc : Z * Z) : M (Z * Z) :=
  let '(converted_count, total_space_saved) := acc in
  let ext := Py.lower (snd (Py.splitext file)) in
  if supported ext then
    let input_path := Py.join root file in
    skip ←
      (if String.eqb ext ".mp3" then
         bitrate ← get_mp3_bitrate input_path;
         match bitrate with
         | Some b =>
             if b =? desired_bitrate E then mret true
             else if negb (b =? 0) && (b <? desired_bitrate E)
             then print E (MLowerBitrate file b);; mret true
             else mret false
         | None => mret false
         end
       else mret false);
    if (skip : bool) then mret acc
    else
      space_saved ← convert_to_mp3 input_path;
      if 0 <? space_saved
      then mret (converted_count + 1, total_space_saved + space_saved)
      else mret acc
  else mret acc.

Fixpoint for_each (entries : list (string * string)) (acc : Z * Z)
    : M (Z * Z) :=
  match entries with
  | [] => mret acc
  | (root, file) :: rest =>
      acc' ← process_entry root file acc;
      for_each rest acc'
  end.

(** Process all audio files in a directory.  The walk is taken up front:
    the entries are those of the tree as it is when the run starts. *)
Definition process_directory (input_dir : string) : M unit :=
  m ← get_fs;
  '(converted_count, total_space_saved) ←
    for_each (walk_files E input_dir m) (0, 0);
  (if negb (converted_count =? 0)
   then send_slack_notification converted_count total_space_saved
   else mret tt);;
  print E (MConversionAndRenamingCompleted total_space_saved).

Definition main : M unit := process_directory (input_dir E).

End LegacyScript.
End Legacy.

(** ** Reading a run *)

(** The events a run from [w] to [w'] appended, oldest first. *)
Definition events_since (w w' : World) : list Event :=
  rev (take (length (log w') - length (log w)) (log w')).

(** The file system mutations among some events, each with the file
    system it left behind. *)
Fixpoint fs_events (evs : list Event) : list (FsOp * gmap string File) :=
  match evs with
  | [] => []
  | EFs op after :: rest => (op, after) :: fs_events rest
  | _ :: rest => fs_events rest
  end.

Definition fs_ops (evs : list Event) : list FsOp := map fst (fs_events evs).

Definition snapshots (evs : list Event) : list (gmap string File) :=
  map snd (fs_events evs).

(** A task is converted when it reaches line 103 and reports
    "Converted and renamed". *)
Definition is_converted_report (ev : Event) : bool :=
  match ev with
  | EPrint (MConverted _) => true
  | _ => false
  end.

Definition converted_tasks (evs : list Event) : Z :=
  Z.of_nat (length (filter (fun ev => is_converted_report ev = true) evs)).

(** The count and the total of the final summary line, when a run
    printed one. *)
Fixpoint reported_summary (evs : list Event) : option (Z * Z) :=
  match evs with
  | [] => None
  | EPrint (MConversionCompleted c t) :: _ => Some (c, t)
  | _ :: rest => reported_summary rest
  end.

(** An event that neither changes the file system nor reports a
    conversion. *)
Definition is_note (ev : Event) : Prop :=
  match ev with
  | EFs _ _ => False
  | EPrint (MConverted _) => False
  | _ => True
  end.

(** A run that changes no file and reports no conversion. *)
Definition quiet (w w' : World) : Prop :=
  fs w' = fs w ∧ ∃ new, log w' = new ++ log w ∧ Forall is_note new.

(** Two files that differ at most in size and tags. *)
Definition same_but_tags (f g : File) : Prop :=
  f_mode g = f_mode f ∧ f_uid g = f_uid f ∧ f_gid g = f_gid f
  ∧ f_audio g = f_audio f.

(** Two file systems that differ at most in the size and the tags of the
    file at [t]. *)
Definition retagged (t : string) (m m' : gmap string File) : Prop :=
  (∀ q, q ≠ t → m' !! q = m !! q)
  ∧ match m !! t, m' !! t with
    | Some f, Some g => same_but_tags f g
    | None, None => True
    | _, _ => False
    end.

Definition retag_event (t : string) (m : gmap string File) (ev : Event)
    : Prop :=
  match ev with
  | EFs op after => op = FsSaveTags t ∧ retagged t m after
  | EPrint (MConverted _) => False
  | _ => True
  end.

(** A run whose only mutations are tag saves into the file at [t]. *)
Definition retag (t : string) (w w' : World) : Prop :=
  retagged t (fs w) (fs w')
  ∧ ∃ new, log w' = new ++ log w ∧ Forall (retag_event t (fs w)) new.

(** [m] runs within the relation [R], and its results satisfy [Q]. *)
Definition sat {A} (R : World -> World -> Prop) (Q : A -> Prop) (m : M A)
    : Prop :=
  ∀ w, R w (snd (m w)) ∧ ∀ a, fst (m w) = Ok a → Q a.

(** What a local variable may hold for its [save] to write to [t]. *)
Definition saves_to (t : string) (v : Var (option MObj)) : Prop :=
  match v with
  | Bound (Some o) => o_path o = t
  | _ => True
  end.

(** Operations on the scratch file [t]. *)
Definition scratch_op (t : string) (op : FsOp) : Prop :=
  op = FsMkTemp t ∨ op = FsExport t ∨ op = FsSaveTags t.

(** The commit step of [convert_to_mp3] (lines 96-101; legacy 84-92),
    complete. *)
Definition commit_ops (t new_path input_path : string) (mode uid gid : Z)
    : list FsOp :=
  [FsMove t new_path; FsChmod new_path mode; FsChown new_path uid gid]
  ++ (if String.eqb input_path new_path then [] else [FsRemove input_path]).

(** The file at [p] decodes to the audio [a]. *)
Definition holds_audio (m : gmap string File) (p : string) (a : nat) : Prop :=
  ∃ f, m !! p = Some f ∧ f_audio f = Some a.

(** The body both scripts give [convert_to_mp3], with the metadata block
    and the webhook call left open. *)
Definition convert_skeleton (E : Env) (metadata : string -> string -> M unit)
    (report : Msg -> M unit) (input_path : string) : M Z :=
  try_except
    (audio ← AudioSegment_from_file E input_path;
     original_stat ← os_stat E input_path;
     temp_output_path ← NamedTemporaryFile E;
     audio_export E audio temp_output_path;;
     let new_path := fst (Py.splitext input_path) +:+ ".mp3" in
     st ← os_stat E input_path;
     let original_permissions := st_mode st in
     original_size ← getsize E input_path;
     new_size ← getsize E temp_output_path;
     metadata input_path temp_output_path;;
     shutil_move E temp_output_path new_path;;
     os_chmod E new_path original_permissions;;
     os_chown E new_path (st_uid original_stat) (st_gid original_stat);;
     (if String.eqb input_path new_path then mret tt
      else os_remove E input_path);;
     print E (MConverted new_path);;
     mret (original_size - new_size))
    (fun e =>
       print E (MErrorConverting input_path);;
       report (MErrorConverting input_path);;
       mret 0).

(** The metadata block of the legacy script (lines 78-81). *)
Definition legacy_metadata (E : Env) (input_path temp_output_path : string)
    : M unit :=
  original_metadata ← mutagen_File E input_path false;
  new_metadata ← mutagen_File E temp_output_path false;
  new_metadata ← obj_update E new_metadata original_metadata;
  obj_save E (Bound new_metadata).

(** An attribute of the source file as it is when the run starts. *)
Definition source_attr (w : World) (p : string) (g : File -> Z) : Z :=
  from_option g 0 (fs w !! p).

(** The audio of the source is still at the source path or already at
    the new path. *)
Definition keeps_copy (w : World) (p new_path : string)
    (after : gmap string File) : Prop :=
  ∃ a, holds_audio (fs w) p a
       ∧ (holds_audio after p a ∨ holds_audio after new_path a).

(** The mutations of a run of [convert_to_mp3] on [p], newest first in
    [new]: operations [pre] on the scratch file, then the first [k] steps
    of the commit, every state in between keeping a copy of the audio. *)
Definition orderly (E : Env) (p : string) (w : World) (new : list Event)
    (pre : list FsOp) (k : nat) : Prop :=
  let new_path := fst (Py.splitext p) +:+ ".mp3" in
  let t := tmp_name E (2 + clock w) in
  fs_ops (rev new)
  = pre ++ take k (commit_ops t new_path p (source_attr w p f_mode)
                     (source_attr w p f_uid) (source_attr w p f_gid))
  ∧ Forall (scratch_op t) pre
  ∧ (pre ≠ [] → fs w !! t = None)
  ∧ Forall (keeps_copy w p new_path) (snapshots (rev new)).

(** What a run of [convert_to_mp3] on [p] from [w] can be: its mutations
    are orderly, and either it reports the conversion after the whole
    commit and returns the size difference, or it reports no conversion
    and returns 0, unless the error line of its handler cannot be printed:
    then it raises. *)
Definition ConvertRun (E : Env) (p : string) (w : World) (r : Res Z)
    (w' : World) : Prop :=
  let new_path := fst (Py.splitext p) +:+ ".mp3" in
  ∃ new pre k,
    log w' = new ++ log w ∧ orderly E p w new pre k
    ∧ ((head new = Some (EPrint (MConverted new_path)) ∧ k = 4%nat
        ∧ ∃ f, fs w !! p = Some f
               ∧ r = Ok (f_size f - enc_size E (3 + clock w)))
       ∨ (Forall (fun ev => is_converted_report ev = false) new
          ∧ (r = Ok 0
             ∨ (r = Raise UnicodeEncodeError ∧ stdout_encodes E p = false)))).

(** No conversion reported among the events [new]. *)
Definition unreported (new : list Event) : Prop :=
  Forall (fun ev => is_converted_report ev = false) new.

(** ** Worlds and files that the runs produce *)

Definition tick (w : World) : World := mkWorld (fs w) (S (clock w)) (log w).

(** The file [NamedTemporaryFile] creates. *)
Definition empty_file (E : Env) : File :=
  mkFile 0 384 (proc_uid E) (proc_gid E) None None.

(** The file [audio.export] leaves, at the [n]-th call, where [old] was. *)
Definition encoded (E : Env) (n : nat) (a : nat) (old : option File) : File :=
  mkFile (enc_size E n) (from_option f_mode 420 old)
    (from_option f_uid (proc_uid E) old) (from_option f_gid (proc_gid E) old)
    (Some a)
    (Some (mkMediaInfo (Some (desired_bitrate E * 1000)) (enc_tags E n))).

Definition with_mode (mode : Z) (f : File) : File :=
  mkFile (f_size f) mode (f_uid f) (f_gid f) (f_audio f) (f_media f).

Definition with_owner (uid gid : Z) (f : File) : File :=
  mkFile (f_size f) (f_mode f) uid gid (f_audio f) (f_media f).

(** The file [save] leaves, at the [n]-th call, where [f] was. *)
Definition with_tags (E : Env) (n : nat) (o : MObj) (f : File) : File :=
  mkFile (saved_size E n (f_size f)) (f_mode f) (f_uid f) (f_gid f)
    (f_audio f) (Some (mkMediaInfo (o_bitrate o) (o_tags o))).

(** What the webhook call prints, at the [n]-th call. *)
Definition slack_report (E : Env) (n : nat) : Msg :=
  if fault E n OpPost then MSlackError
  else if post_status E n =? 200 then MSlackSent
  else MSlackFailed (post_status E n).

(** ** The two scripts side by side *)

Inductive Script :=
| CampsMt
| CampsLegacy.

Definition convert_to_mp3_of (s : Script) : Env -> string -> M Z :=
  match s with
  | CampsMt => Mt.convert_to_mp3
  | CampsLegacy => Legacy.convert_to_mp3
  end.

(** [new_path] of [convert_to_mp3] (line 60; legacy line 68). *)
Definition new_path_of (input_path : string) : string :=
  fst (Py.splitext input_path) +:+ ".mp3".

(** Did a run report "Converted and renamed: [new_path]"? *)
Definition reports_conversion (new_path : string) (evs : list Event) : bool :=
  existsb (fun ev =>
             match ev with
             | EPrint (MConverted q) => String.eqb q new_path
             | _ => false
             end) evs.

(** The discipline of the commit step, for a run of [convert_to_mp3] on
    [p] from [w] to [w']: the mutations are operations [pre] on the
    scratch file, which did not exist before, followed by the first [k]
    steps of move, chmod, chown and (when the new path is not the source)
    removal of the source; and every file system in between holds the
    audio of the source at the source path or at the new path. *)
Definition commit_discipline (E : Env) (p : string) (w w' : World) : Prop :=
  let t := tmp_name E (2 + clock w) in
  ∃ pre k,
    fs_ops (events_since w w')
    = pre ++ take k (commit_ops t (new_path_of p) p (source_attr w p f_mode)
                       (source_attr w p f_uid) (source_attr w p f_gid))
    ∧ Forall (scratch_op t) pre
    ∧ (pre ≠ [] → fs w !! t = None)
    ∧ Forall (keeps_copy w p (new_path_of p))
        (snapshots (events_since w w')).

(** The number of strictly positive results, and their sum. *)
Definition count_positive (results : list Z) : Z :=
  Z.of_nat (length (filter (fun r => 0 < r) results)).

Definition sum_positive (results : list Z) : Z :=
  foldr Z.add 0 (map (Z.max 0) results).

(** The file at [p] carries a non-empty first artist and a non-empty
    first title. *)
Definition has_artist_and_title (m : gmap string File) (p : string) : Prop :=
  ∃ f mi artist artists title titles,
    m !! p = Some f ∧ f_media f = Some mi
    ∧ mi_tags mi !! "artist" = Some (artist :: artists) ∧ artist ≠ ""
    ∧ mi_tags mi !! "title" = Some (title :: titles) ∧ title ≠ "".

(** The name [process_file] looks for the separator in. *)
Definition stem (file_path : string) : string :=
  fst (Py.splitext (Py.basename file_path)).

(** The values of the tag [key] of the file at [p]. *)
Definition tag_of (m : gmap string File) (p key : string)
    : option (list string) :=
  f ← m !! p; mi ← f_media f; mi_tags mi !! key.

(** ** The legacy loop without its counters *)

(** One entry of the legacy loop, told apart from the counters: the value
    line 140 binds to [space_saved], or [None] when the entry does not
    reach that line. *)
Definition legacy_entry (E : Env) (root file : string) : M (option Z) :=
  let ext := Py.lower (snd (Py.splitext file)) in
  if supported ext then
    let input_path := Py.join root file in
    skip ←
      (if String.eqb ext ".mp3" then
         bitrate ← Legacy.get_mp3_bitrate E input_path;
         match bitrate with
         | Some b =>
             if b =? desired_bitrate E then mret true
             else if negb (b =? 0) && (b <? desired_bitrate E)
             then print E (MLowerBitrate file b);; mret true
             else mret false
         | None => mret false
         end
       else mret false);
    if (skip : bool) then mret None
    else
      space_saved ← Legacy.convert_to_mp3 E input_path;
      mret (Some space_saved)
  else mret None.

(** The values of [space_saved] of a whole walk, in order. *)
Fixpoint legacy_space_saved (E : Env) (entries : list (string * string))
    : M (list Z) :=
  match entries with
  | [] => mret []
  | (root, file) :: rest =>
      r ← legacy_entry E root file;
      rs ← legacy_space_saved E rest;
      mret (option_list r ++ rs)
  end.

(** ** Concrete worlds *)

Module Studio.

(** Truth of a mutagen object as mutagen defines it: it has tags. *)
Definition has_tags (tags : gmap string (list string)) : bool :=
  negb (bool_decide (tags = ∅)).

(** An environment with target 256 kbps: [faults] says which calls
    raise, the encoder writes [enc] bytes, the walk of any root yields
    [listing], and stdout encodes every name. *)
Definition env (faults : nat -> Op -> bool) (enc : Z)
    (listing : list (string * list string)) : Env :=
  mkEnv "/m" "https://hooks.slack.example/services/T" 256 faults
    (fun _ => "/tmp/tmpk3v9.mp3") 0 0 (fun _ => enc)
    (fun _ => {[ "encoder" := ["Lavf"] ]}) (fun _ size => size + 128)
    (fun _ => 200) has_tags (fun _ _ => listing) (fun _ => true).

Definition no_faults : nat -> Op -> bool := fun _ _ => false.

(** A stdout with the ASCII codec and the strict error handler: it
    encodes the names whose bytes are all below 128. *)
Definition ascii_stdout (name : string) : bool :=
  forallb (fun c => Nat.ltb (nat_of_ascii c) 128) (list_ascii_of_string name).

(** [env] with that stdout. *)
Definition ascii_env (faults : nat -> Op -> bool) (enc : Z)
    (listing : list (string * list string)) : Env :=
  mkEnv "/m" "https://hooks.slack.example/services/T" 256 faults
    (fun _ => "/tmp/tmpk3v9.mp3") 0 0 (fun _ => enc)
    (fun _ => {[ "encoder" := ["Lavf"] ]}) (fun _ size => size + 128)
    (fun _ => 200) has_tags (fun _ _ => listing) ascii_stdout.

Definition flac (size : Z) (tags : gmap string (list string)) : File :=
  mkFile size 420 1000 1000 (Some 1%nat)
    (Some (mkMediaInfo (Some 900000) tags)).

Definition mp3 (size bitrate : Z) (tags : gmap string (list string)) : File :=
  mkFile size 420 1000 1000 (Some 2%nat)
    (Some (mkMediaInfo (Some bitrate) tags)).

Definition world (files : gmap string File) : World := mkWorld files 0 [].

Definition tagged (artist title : string) : gmap string (list string) :=
  {[ "artist" := [artist]; "title" := [title] ]}.

(** A FLAC file of 100 bytes. *)
Definition one_flac : World := world {[ "/m/a.flac" := flac 100 ∅ ]}.

(** An MP3 file at the target bitrate, without tags, under a name with
    the separator. *)
Definition untagged_mp3 : World :=
  world {[ "/m/A - B.mp3" := mp3 5000 256000 ∅ ]}.

(** An MP3 file at the target bitrate with both tags. *)
Definition tagged_mp3 : World :=
  world {[ "/m/A - B.mp3" := mp3 5000 256000 (tagged "A" "B") ]}.

(** An MP3 file whose [info.bitrate] is 999 bits per second. *)
Definition slow_mp3 : World :=
  world {[ "/m/low.mp3" := mp3 5000 999 (tagged "A" "B") ]}.

(** A tagged FLAC file whose name suggests other tags. *)
Definition renamed_flac : World :=
  world {[ "/m/New - Name.flac" := flac 9000 (tagged "Old" "Kept") ]}.

(** The eleventh external call, the first [save] of the artifact's tags,
    raises. *)
Definition first_save_fails : nat -> Op -> bool :=
  fun n op =>
    match op with
    | OpSave _ => Nat.eqb n 10
    | _ => false
    end.

(** Reading the tags of [path] makes mutagen raise. *)
Definition unreadable_tags (path : string) : nat -> Op -> bool :=
  fun _ op =>
    match op with
    | OpMutagenFile p _ => String.eqb p path
    | _ => false
    end.

Definition torn_flac : World := world {[ "/m/A - B.flac" := flac 9000 ∅ ]}.

Definition torn_plain_flac : World := world {[ "/m/AB.flac" := flac 9000 ∅ ]}.

(** An MP3 file at the target bitrate with an artist and no title, whose
    name suggests another artist. *)
Definition half_tagged_mp3 : World :=
  world {[ "/m/New - Name.mp3" := mp3 5000 256000 {[ "artist" := ["Old"] ]} ]}.

(** A file named [.mp3] that mutagen does not recognise, next to a FLAC
    file. *)
Definition junk_mp3 : World :=
  world {[ "/m/x.mp3" := mkFile 10 420 1000 1000 None None;
           "/m/y.flac" := flac 9000 (tagged "A" "B") ]}.

Definition junk_listing : list (string * list string) :=
  [("/m", ["x.mp3"; "y.flac"])].

(** A FLAC file of 100 bytes whose name has a letter outside ASCII: "Caf",
    the two bytes 195 and 169 of an e with an acute accent in UTF-8, and
    the extension. *)
Definition accented_name : string :=
  "/m/Caf" +:+ String "195"%char (String "169"%char ".flac").

Definition accented_flac : World := world {[ accented_name := flac 100 ∅ ]}.

(** A cover image. *)
Definition cover : World :=
  world {[ "/m/cover.jpg" := mkFile 700 420 1000 1000 None None ]}.

End Studio.

(** ** What a run of [convert_to_mp3] leaves behind *)

(** The file system after a run of [convert_to_mp3] on [p] from [w] to
    [w'] with result [r].  No path other than the source, the new path
    and the scratch file is touched.  Either the conversion is reported
    last: the new path then holds a file with the audio, permission bits,
    owner and group of the source, the source is gone unless it is the new
    path, the scratch file is gone, and [r] is the size difference.  Or no
    conversion is reported: [r] is 0, or the run raises because the error
    line cannot be printed; and a source that is not the new path is as it
    was, provided stdout can print the new path (the report of line 103
    comes after the removal of line 101). *)
Definition ConvertOutcome (E : Env) (p : string) (w : World) (r : Res Z)
    (w' : World) : Prop :=
  let t := tmp_name E (2 + clock w) in
  (∀ q, q ≠ p → q ≠ new_path_of p → q ≠ t → fs w' !! q = fs w !! q)
  ∧ ((∃ new f g,
        log w' = EPrint (MConverted (new_path_of p)) :: new ++ log w
        ∧ unreported new
        ∧ fs w !! p = Some f
        ∧ fs w' !! new_path_of p = Some g
        ∧ r = Ok (f_size f - enc_size E (3 + clock w))
        ∧ same_but_tags f g
        ∧ (p ≠ new_path_of p → fs w' !! p = None)
        ∧ (t ≠ new_path_of p → fs w' !! t = None))
     ∨ (∃ new,
          log w' = new ++ log w
          ∧ unreported new
          ∧ (r = Ok 0
             ∨ (r = Raise UnicodeEncodeError ∧ stdout_encodes E p = false))
          ∧ (stdout_encodes E (new_path_of p) = true →
             p ≠ new_path_of p → fs w' !! p = fs w !! p))).

(** ** Reading the bitrate *)

(** What [get_mp3_bitrate] reads from the file at [p]: [info.bitrate] in
    whole kbps, when the file is there, mutagen recognises it and its info
    has a bitrate. *)
Definition bitrate_of (m : gmap string File) (p : string) : option Z :=
  f ← m !! p; mi ← f_media f; b ← mi_bitrate mi; Some (kbps b).

(** ** The paths a batch may write to *)

(** An entry [(root, file)] of the walk lays claim to [q] when one of
    the scripts takes it for a supported file and [q] is its path or the
    new path of its conversion. *)
Definition claims_path (rf : string * string) (q : string) : bool :=
  let p := Py.join (fst rf) (snd rf) in
  (supported (Py.lower (snd (Py.splitext p)))
   || supported (Py.lower (snd (Py.splitext (snd rf)))))
  && (String.eqb q p || String.eqb q (new_path_of p)).


(** ** [os.path] on examples *)

Example splitext_1 : Py.splitext "/m/a.b/Song.FLAC" = ("/m/a.b/Song", ".FLAC").
Proof. reflexivity. Qed.
Example splitext_2 : Py.splitext "/m/a.b/.hidden" = ("/m/a.b/.hidden", "").
Proof. reflexivity. Qed.
Example splitext_3 : Py.splitext "/m/a.b/song" = ("/m/a.b/song", "").
Proof. reflexivity. Qed.
Example splitext_4 : Py.splitext "..x.mp3" = ("..x", ".mp3").
Proof. reflexivity. Qed.
Example split1_1 : Py.split1 " - " "A - B - C" = Some ("A", "B - C").
Proof. reflexivity. Qed.
Example basename_1 : Py.basename "/m/A - B.flac" = "A - B.flac".
Proof. reflexivity. Qed.
Example join_1 : Py.join "/m" "x.mp3" = "/m/x.mp3".
Proof. reflexivity. Qed.
Example lower_1 : Py.lower ".Mp3" = ".mp3".
Proof. reflexivity. Qed.

(** ** Runs of the monad *)

Lemma bind_run {A B} (m : M A) (k : A -> M B) (w : World) :
  (m ≫= k) w =
  match m w with
  | (Ok a, w') => k a w'
  | (Raise e, w') => (Raise e, w')
  end.
Proof. reflexivity. Qed.

Lemma try_except_bind {A B} (m : M A) (k : A -> M B) (h : Exn -> M B) w :
  try_except (m ≫= k) h w =
  match m w with
  | (Ok a, w') => try_except (k a) h w'
  | (Raise e, w') => h e w'
  end.
Proof.
  unfold try_except. rewrite bind_run. destruct (m w) as [[a|e] w']; reflexivity.
Qed.

Lemma try_except_ret {A} (a : A) (h : Exn -> M A) w :
  try_except (mret a) h w = (Ok a, w).
Proof. reflexivity. Qed.

Lemma print_run E m w :
  print E m w
  = if forallb (stdout_encodes E) (names_of m)
    then (Ok tt, mkWorld (fs w) (clock w) (EPrint m :: log w))
    else (Raise UnicodeEncodeError, w).
Proof. unfold print. destruct (forallb _ _); reflexivity. Qed.

Ltac unfold_run :=
  cbv beta iota zeta delta
    [mbind M_bind mret M_ret raise try_except try_then emit print set_fs
     get_fs lookup_file call];
  cbn [fs clock log names_of forallb].

Ltac case_run :=
  repeat (cbn [fs clock log];
          match goal with
          | |- context [if fault ?E ?n ?op then _ else _] =>
              destruct (fault E n op)
          | |- context [match ?m !! ?p with _ => _ end] =>
              destruct (m !! p)
          | |- context [match f_audio ?f with _ => _ end] =>
              destruct (f_audio f)
          end);
  try reflexivity.
Section Runs.
Context (E : Env).

Lemma from_file_run p w :
  AudioSegment_from_file E p w =
  if fault E (clock w) (OpFromFile p)
  then (Raise (ExternalError (OpFromFile p)), tick w)
  else match fs w !! p with
       | Some f =>
           match f_audio f with
           | Some a => (Ok a, tick w)
           | None => (Raise CouldntDecodeError, tick w)
           end
       | None => (Raise FileNotFoundError, tick w)
       end.
Proof.
  unfold AudioSegment_from_file, tick. unfold_run. case_run.
Qed.

Lemma os_stat_run p w :
  os_stat E p w =
  if fault E (clock w) (OpStat p)
  then (Raise (ExternalError (OpStat p)), tick w)
  else match fs w !! p with
       | Some f => (Ok (mkStat (f_mode f) (f_uid f) (f_gid f)), tick w)
       | None => (Raise FileNotFoundError, tick w)
       end.
Proof.
  unfold os_stat, tick. unfold_run. case_run.
Qed.

Lemma getsize_run p w :
  getsize E p w =
  if fault E (clock w) (OpGetSize p)
  then (Raise (ExternalError (OpGetSize p)), tick w)
  else match fs w !! p with
       | Some f => (Ok (f_size f), tick w)
       | None => (Raise FileNotFoundError, tick w)
       end.
Proof.
  unfold getsize, tick. unfold_run. case_run.
Qed.

Lemma NamedTemporaryFile_run w :
  NamedTemporaryFile E w =
  if fault E (clock w) OpMkTemp
  then (Raise (ExternalError OpMkTemp), tick w)
  else match fs w !! tmp_name E (clock w) with
       | Some _ => (Raise FileExistsError, tick w)
       | None =>
           let m := <[tmp_name E (clock w) := empty_file E]> (fs w) in
           (Ok (tmp_name E (clock w)),
            mkWorld m (S (clock w))
              (EFs (FsMkTemp (tmp_name E (clock w))) m :: log w))
       end.
Proof.
  unfold NamedTemporaryFile, tick, empty_file. unfold_run. case_run.
Qed.

Lemma audio_export_run a p w :
  audio_export E a p w =
  if fault E (clock w) (OpExport p)
  then (Raise (ExternalError (OpExport p)), tick w)
  else
    let m := <[p := encoded E (clock w) a (fs w !! p)]> (fs w) in
    (Ok tt, mkWorld m (S (clock w)) (EFs (FsExport p) m :: log w)).
Proof.
  unfold audio_export, tick, encoded. unfold_run. case_run.
Qed.

Lemma shutil_move_run s d w :
  shutil_move E s d w =
  if fault E (clock w) (OpMove s d)
  then (Raise (ExternalError (OpMove s d)), tick w)
  else match fs w !! s with
       | Some f =>
           let m := <[d := f]> (delete s (fs w)) in
           (Ok tt, mkWorld m (S (clock w)) (EFs (FsMove s d) m :: log w))
       | None => (Raise FileNotFoundError, tick w)
       end.
Proof.
  unfold shutil_move, tick. unfold_run. case_run.
Qed.

Lemma os_chmod_run p mode w :
  os_chmod E p mode w =
  if fault E (clock w) (OpChmod p)
  then (Raise (ExternalError (OpChmod p)), tick w)
  else match fs w !! p with
       | Some f =>
           let m := <[p := with_mode mode f]> (fs w) in
           (Ok tt, mkWorld m (S (clock w)) (EFs (FsChmod p mode) m :: log w))
       | None => (Raise FileNotFoundError, tick w)
       end.
Proof.
  unfold os_chmod, tick. unfold_run. case_run.
Qed.

Lemma os_chown_run p uid gid w :
  os_chown E p uid gid w =
  if fault E (clock w) (OpChown p)
  then (Raise (ExternalError (OpChown p)), tick w)
  else match fs w !! p with
       | Some f =>
           let m := <[p := with_owner uid gid f]> (fs w) in
           (Ok tt,
            mkWorld m (S (clock w)) (EFs (FsChown p uid gid) m :: log w))
       | None => (Raise FileNotFoundError, tick w)
       end.
Proof.
  unfold os_chown, tick. unfold_run. case_run.
Qed.

Lemma os_remove_run p w :
  os_remove E p w =
  if fault E (clock w) (OpRemove p)
  then (Raise (ExternalError (OpRemove p)), tick w)
  else match fs w !! p with
       | Some _ =>
           let m := delete p (fs w) in
           (Ok tt, mkWorld m (S (clock w)) (EFs (FsRemove p) m :: log w))
       | None => (Raise FileNotFoundError, tick w)
       end.
Proof.
  unfold os_remove, tick. unfold_run. case_run.
Qed.

End Runs.

(** ** The mutations of a run, in order *)

Lemma fs_events_app l1 l2 : fs_events (l1 ++ l2) = fs_events l1 ++ fs_events l2.
Proof.
  induction l1 as [|[m|u m|op after] l1 IH]; cbn; [reflexivity|exact IH|exact IH|].
  rewrite IH. reflexivity.
Qed.

Lemma fs_ops_app l1 l2 : fs_ops (l1 ++ l2) = fs_ops l1 ++ fs_ops l2.
Proof. unfold fs_ops. rewrite fs_events_app. apply map_app. Qed.

Lemma snapshots_app l1 l2 : snapshots (l1 ++ l2) = snapshots l1 ++ snapshots l2.
Proof. unfold snapshots. rewrite fs_events_app. apply map_app. Qed.

Section Order.
Context (E : Env) (p : string) (w : World).

Let new_path := fst (Py.splitext p) +:+ ".mp3".
Let t := tmp_name E (2 + clock w).

Lemma orderly_nil : orderly E p w [] [] 0.
Proof.
  unfold orderly. cbn. repeat split; try constructor. intros H. congruence.
Qed.

Lemma orderly_cons_print new pre k m :
  orderly E p w new pre k → orderly E p w (EPrint m :: new) pre k.
Proof.
  unfold orderly. cbn [rev]. rewrite fs_ops_app, snapshots_app. cbn.
  rewrite !app_nil_r. tauto.
Qed.

Lemma orderly_cons_post new pre k u m :
  orderly E p w new pre k → orderly E p w (EPost u m :: new) pre k.
Proof.
  unfold orderly. cbn [rev]. rewrite fs_ops_app, snapshots_app. cbn.
  rewrite !app_nil_r. tauto.
Qed.

Lemma orderly_cons_scratch new pre op after :
  orderly E p w new pre 0 → scratch_op t op → fs w !! t = None →
  keeps_copy w p new_path after →
  orderly E p w (EFs op after :: new) (pre ++ [op]) 0.
Proof.
  unfold orderly. cbn [rev]. rewrite fs_ops_app, snapshots_app. cbn.
  rewrite !app_nil_r. intros (Hops & Hpre & Hfresh & Hkeep) Hop Ht Hafter.
  rewrite Hops. repeat split.
  - apply Forall_app. split; [exact Hpre|]. constructor; [exact Hop|constructor].
  - intros _. exact Ht.
  - apply Forall_app. split; [exact Hkeep|]. constructor; [exact Hafter|constructor].
Qed.

Lemma orderly_cons_commit new pre k op after :
  orderly E p w new pre k →
  commit_ops t new_path p (source_attr w p f_mode) (source_attr w p f_uid)
    (source_attr w p f_gid) !! k = Some op →
  keeps_copy w p new_path after →
  orderly E p w (EFs op after :: new) pre (S k).
Proof.
  unfold t, new_path in *. unfold orderly. cbn [rev]. rewrite fs_ops_app, snapshots_app.
  change (fs_ops [EFs op after]) with [op].
  change (snapshots [EFs op after]) with [after].
  intros (Hops & Hpre & Hfresh & Hkeep) Hk Hafter.
  rewrite Hops. repeat split; try assumption.
  - rewrite (take_S_r _ _ _ Hk). rewrite app_assoc. reflexivity.
  - apply Forall_app. split; [exact Hkeep|]. constructor; [exact Hafter|constructor].
Qed.

Lemma orderly_app_retag new pre m newm :
  orderly E p w new pre 0 → fs w !! t = None →
  Forall (retag_event t m) newm →
  (∀ after, retagged t m after → keeps_copy w p new_path after) →
  orderly E p w (newm ++ new) (pre ++ fs_ops (rev newm)) 0.
Proof.
  unfold orderly. rewrite rev_app_distr, fs_ops_app, snapshots_app. cbn.
  rewrite !app_nil_r. intros (Hops & Hpre & Hfresh & Hkeep) Ht Hnew Hm.
  rewrite Hops. repeat split.
  - apply Forall_app. split; [exact Hpre|].
    unfold fs_ops. apply Forall_rev in Hnew. induction Hnew as [|ev l Hev _ IH]; cbn; [constructor|].
    destruct ev as [?|? ?|op after]; cbn; try exact IH.
    destruct Hev as [-> _]. constructor; [|exact IH]. right. right. reflexivity.
  - intros _. exact Ht.
  - apply Forall_app. split; [exact Hkeep|].
    unfold snapshots. apply Forall_rev in Hnew. induction Hnew as [|ev l Hev _ IH]; cbn; [constructor|].
    destruct ev as [?|? ?|op after]; cbn; try exact IH.
    destruct Hev as [_ Hr]. constructor; [|exact IH]. apply Hm, Hr.
Qed.

End Order.

(** ** The skeleton of [convert_to_mp3] *)

Section Skeleton.
Context (E : Env) (metadata : string -> string -> M unit) (report : Msg -> M unit).
Hypothesis metadata_retags : ∀ p t w, retag t w (snd (metadata p t w)).
Hypothesis report_quiet :
  ∀ m w, fst (report m w) = Ok tt ∧ quiet w (snd (report m w)).

Lemma note_unreported ev : is_note ev → is_converted_report ev = false.
Proof. destruct ev as [[]| |]; cbn; intros; try reflexivity; contradiction. Qed.

Lemma orderly_app_notes p w notes new pre k :
  Forall is_note notes → orderly E p w new pre k →
  orderly E p w (notes ++ new) pre k.
Proof.
  intros Hn Ho. induction Hn as [|ev l Hev _ IH]; [exact Ho|].
  destruct ev as [m|u m|op after]; cbn.
  - apply orderly_cons_print, IH.
  - apply orderly_cons_post, IH.
  - destruct Hev.
Qed.

Lemma skeleton_exit p w wi new pre k :
  log wi = new ++ log w → orderly E p w new pre k → unreported new →
  ConvertRun E p w
    (fst ((print E (MErrorConverting p);;
           report (MErrorConverting p);; mret 0) wi))
    (snd ((print E (MErrorConverting p);;
           report (MErrorConverting p);; mret 0) wi)).
Proof.
  intros Hlog Ho Hu.
  rewrite bind_run, print_run. cbn [names_of forallb]. rewrite andb_true_r.
  destruct (stdout_encodes E p) eqn:Henc.
  2:{ cbn [fst snd]. exists new, pre, k. split; [exact Hlog|].
      split; [exact Ho|]. right. split; [exact Hu|]. right.
      split; [reflexivity|exact Henc]. }
  set (w1 := mkWorld (fs wi) (clock wi) (EPrint (MErrorConverting p) :: log wi)).
  rewrite (bind_run (report _) _ w1).
  destruct (report_quiet (MErrorConverting p) w1) as [Hr [_ (notes & Hl & Hn)]].
  destruct (report (MErrorConverting p) w1) as [r w2]. cbn in Hr, Hl. subst r.
  cbn. exists (notes ++ EPrint (MErrorConverting p) :: new), pre, k.
  split; [|split].
  - rewrite Hl. unfold w1. cbn. rewrite Hlog. rewrite <- app_assoc. reflexivity.
  - apply orderly_app_notes; [exact Hn|]. apply orderly_cons_print, Ho.
  - right. split; [|left; reflexivity]. apply Forall_app. split.
    + eapply Forall_impl; [exact Hn|]. apply note_unreported.
    + constructor; [reflexivity|exact Hu].
Qed.

Ltac prefix_of lst base :=
  lazymatch lst with
  | base => constr:(@nil Event)
  | ?a ++ base => constr:(a)
  | ?x :: ?r => let r' := prefix_of r base in constr:(x :: r')
  end.

Ltac exit_with Post Hexit l HO HU :=
  cbv beta iota; unfold tick; cbn [fs clock log];
  lazymatch goal with
  | |- Post (_ (mkWorld ?m' ?c' ?lst)) =>
      let n := prefix_of lst l in
      exact (Hexit m' c' n _ _ HO HU)
  end.

Lemma skeleton_run p w :
  ConvertRun E p w (fst (convert_skeleton E metadata report p w))
    (snd (convert_skeleton E metadata report p w)).
Proof.
  set (Post := fun x : Res Z * World => ConvertRun E p w (fst x) (snd x)).
  change (Post (convert_skeleton E metadata report p w)).
  assert (Hexit : ∀ m c new pre k,
             orderly E p w new pre k → unreported new →
             Post ((print E (MErrorConverting p);;
                    report (MErrorConverting p);; mret 0)
                     (mkWorld m c (new ++ log w)))).
  { intros m c new pre k Ho Hu. unfold Post.
    eapply skeleton_exit; [reflexivity|exact Ho|exact Hu]. }
  pose proof (orderly_nil E p w) as HO0.
  assert (HU0 : unreported []) by constructor.
  unfold convert_skeleton.
  set (m := fs w). set (c := clock w). set (l := log w) in *.
  set (np := fst (Py.splitext p) +:+ ".mp3") in *.
  set (h := fun _ : Exn => _).
  (* AudioSegment.from_file *)
  rewrite try_except_bind, from_file_run. unfold tick; cbn [fs clock log]. fold m c l.
  destruct (fault E c (OpFromFile p)); [exit_with Post Hexit l HO0 HU0|].
  destruct (m !! p) as [f|] eqn:Hp; [|exit_with Post Hexit l HO0 HU0].
  destruct (f_audio f) as [a|] eqn:Ha; [|exit_with Post Hexit l HO0 HU0].
  (* os.stat *)
  rewrite try_except_bind, os_stat_run. unfold tick; cbn [fs clock log]. rewrite Hp.
  destruct (fault E (S c) (OpStat p)); [exit_with Post Hexit l HO0 HU0|].
  (* NamedTemporaryFile *)
  rewrite try_except_bind, NamedTemporaryFile_run. unfold tick; cbn [fs clock log].
  destruct (fault E (S (S c)) OpMkTemp); [exit_with Post Hexit l HO0 HU0|].
  set (t := tmp_name E (S (S c))) in *.
  destruct (m !! t) as [?|] eqn:Ht; [exit_with Post Hexit l HO0 HU0|].
  cbv beta iota zeta.
  assert (Htp : t ≠ p) by (intros ->; congruence).
  assert (Kp : ∀ after, after !! p = Some f → keeps_copy w p np after).
  { intros after H. exists a. split; [exists f; auto|]. left. exists f. auto. }
  assert (Knp : ∀ after g, after !! np = Some g → f_audio g = Some a →
                keeps_copy w p np after).
  { intros after g H Hg. exists a. split; [exists f; auto|]. right. exists g. auto. }
  set (m1 := <[t:=empty_file E]> m).
  assert (H1p : m1 !! p = Some f) by (unfold m1; rewrite lookup_insert_ne; done).
  pose proof (orderly_cons_scratch E p w [] [] (FsMkTemp t) m1 HO0
                (or_introl eq_refl) Ht (Kp _ H1p)) as HO1.
  assert (HU1 : unreported [EFs (FsMkTemp t) m1]) by (repeat constructor).
  cbn [app] in HO1.
  (* audio.export *)
  rewrite try_except_bind, audio_export_run. unfold tick; cbn [fs clock log].
  destruct (fault E (S (S (S c))) (OpExport t)); [exit_with Post Hexit l HO1 HU1|].
  cbv beta iota zeta.
  set (g := encoded E (S (S (S c))) a (m1 !! t)).
  set (m2 := <[t:=g]> m1).
  assert (H2p : m2 !! p = Some f) by (unfold m2; rewrite lookup_insert_ne; done).
  assert (H2t : m2 !! t = Some g) by (unfold m2; apply lookup_insert_eq).
  pose proof (orderly_cons_scratch E p w _ _ (FsExport t) m2 HO1
                (or_intror (or_introl eq_refl)) Ht (Kp _ H2p)) as HO2.
  assert (HU2 : unreported [EFs (FsExport t) m2; EFs (FsMkTemp t) m1])
    by (repeat constructor).
  cbn [app] in HO2.
  (* os.stat, getsize, getsize *)
  rewrite try_except_bind, os_stat_run. unfold tick; cbn [fs clock log].
  rewrite H2p.
  destruct (fault E _ (OpStat p)); [exit_with Post Hexit l HO2 HU2|].
  cbv beta iota zeta.
  rewrite try_except_bind, getsize_run. unfold tick; cbn [fs clock log].
  rewrite H2p.
  destruct (fault E _ (OpGetSize p)); [exit_with Post Hexit l HO2 HU2|].
  cbv beta iota zeta.
  rewrite try_except_bind, getsize_run. unfold tick; cbn [fs clock log].
  rewrite H2t.
  destruct (fault E _ (OpGetSize t)); [exit_with Post Hexit l HO2 HU2|].
  cbv beta iota zeta. cbn [st_mode st_uid st_gid].
  (* the metadata block *)
  rewrite try_except_bind.
  match goal with |- context [metadata p t ?w7] =>
    pose proof (metadata_retags p t w7) as Hm;
    destruct (metadata p t w7) as [r8 [m8 c8 l8]]
  end.
  destruct Hm as [[Hout Hat] (newm & Hl8 & Hnewm)]. cbn [snd fs clock log] in *.
  rewrite H2t in Hat.
  change (l8 = newm ++ ([EFs (FsExport t) m2; EFs (FsMkTemp t) m1] ++ l)) in Hl8.
  rewrite app_assoc in Hl8. subst l8.
  assert (H8p : m8 !! p = Some f) by (rewrite Hout; done).
  pose proof (orderly_app_retag E p w _ _ m2 newm HO2 Ht Hnewm) as HO3.
  assert (HU3 : unreported (newm ++ [EFs (FsExport t) m2; EFs (FsMkTemp t) m1])).
  { apply Forall_app. split; [|exact HU2].
    eapply Forall_impl; [exact Hnewm|]. intros [[]| |]; cbn; try reflexivity; tauto. }
  lapply HO3; [clear HO3; intros HO3|].
  2:{ intros after [Hq _]. apply Kp. rewrite Hq; done. }
  destruct r8 as [[]|e8]; [|exit_with Post Hexit l HO3 HU3].
  (* shutil.move *)
  rewrite try_except_bind, shutil_move_run. unfold tick; cbn [fs clock log].
  destruct (fault E c8 (OpMove t np)); [exit_with Post Hexit l HO3 HU3|].
  destruct (m8 !! t) as [g8|] eqn:H8t; [|exit_with Post Hexit l HO3 HU3].
  assert (Ha8 : f_audio g8 = Some a) by (destruct Hat as (_ & _ & _ & ->); reflexivity).
  cbv beta iota zeta.
  set (m9 := <[np:=g8]> (delete t m8)).
  assert (H9 : m9 !! np = Some g8) by apply lookup_insert_eq.
  assert (Hsrc : source_attr w p f_mode = f_mode f ∧ source_attr w p f_uid = f_uid f
                 ∧ source_attr w p f_gid = f_gid f).
  { unfold source_attr. fold m. rewrite Hp. auto. }
  destruct Hsrc as (Hmode & Huid & Hgid).
  pose proof (orderly_cons_commit E p w _ _ 0 (FsMove t np) m9 HO3 eq_refl
                (Knp _ _ H9 Ha8)) as HO4.
  assert (HU4 : ∀ op after new, unreported new → unreported (EFs op after :: new)).
  { intros. constructor; [reflexivity|assumption]. }
  (* os.chmod *)
  rewrite try_except_bind, os_chmod_run. unfold tick; cbn [fs clock log].
  rewrite H9.
  destruct (fault E _ (OpChmod np)); [exit_with Post Hexit l HO4 (HU4 (FsMove t np) m9 _ HU3)|].
  cbv beta iota zeta.
  set (m10 := <[np:=with_mode (f_mode f) g8]> m9).
  assert (H10 : m10 !! np = Some (with_mode (f_mode f) g8)) by apply lookup_insert_eq.
  assert (Hc1 : commit_ops t np p (source_attr w p f_mode) (source_attr w p f_uid) (source_attr w p f_gid) !! 1%nat = Some (FsChmod np (f_mode f)))
    by (rewrite Hmode; reflexivity).
  pose proof (orderly_cons_commit E p w _ _ 1 _ m10 HO4 Hc1
                (Knp _ _ H10 Ha8)) as HO5.
  pose proof (HU4 (FsMove t np) m9 _ HU3) as HU5.
  pose proof (HU4 (FsChmod np (f_mode f)) m10 _ HU5) as HU6.
  (* os.chown *)
  rewrite try_except_bind, os_chown_run. unfold tick; cbn [fs clock log].
  rewrite H10.
  destruct (fault E _ (OpChown np)); [exit_with Post Hexit l HO5 HU6|].
  cbv beta iota zeta.
  set (g11 := with_owner (f_uid f) (f_gid f) (with_mode (f_mode f) g8)).
  set (m11 := <[np:=g11]> m10).
  assert (H11 : m11 !! np = Some g11) by apply lookup_insert_eq.
  assert (Hc2 : commit_ops t np p (source_attr w p f_mode) (source_attr w p f_uid) (source_attr w p f_gid) !! 2%nat = Some (FsChown np (f_uid f) (f_gid f)))
    by (rewrite Huid, Hgid; reflexivity).
  pose proof (orderly_cons_commit E p w _ _ 2 _ m11 HO5 Hc2
                (Knp _ _ H11 Ha8)) as HO6.
  pose proof (HU4 (FsChown np (f_uid f) (f_gid f)) m11 _ HU6) as HU7.
  (* os.remove, unless the source already has the new name *)
  rewrite try_except_bind.
  destruct (String.eqb p np) eqn:Hpn.
  - cbv beta iota delta [mret M_ret].
    rewrite try_except_bind, print_run. cbn [names_of forallb fs clock log].
    rewrite andb_true_r.
    destruct (stdout_encodes E np); [|exit_with Post Hexit l HO6 HU7].
    unfold try_except. cbv beta iota.
    exists (EPrint (MConverted np) :: EFs (FsChown np (f_uid f) (f_gid f)) m11
            :: EFs (FsChmod np (f_mode f)) m10 :: EFs (FsMove t np) m9
            :: newm ++ [EFs (FsExport t) m2; EFs (FsMkTemp t) m1]),
      ([FsMkTemp t; FsExport t] ++ fs_ops (rev newm)), 4%nat.
    split; [reflexivity|]. split.
    + apply orderly_cons_print.
      destruct HO6 as (Hops & Hrest). split; [|exact Hrest].
      rewrite Hops. unfold commit_ops. fold np t. rewrite Hpn. reflexivity.
    + left. split; [reflexivity|]. split; [reflexivity|].
      exists f. split; [exact Hp|]. reflexivity.
  - rewrite os_remove_run. unfold tick; cbn [fs clock log].
    destruct (fault E _ (OpRemove p)); [exit_with Post Hexit l HO6 HU7|].
    destruct (m11 !! p) as [?|] eqn:H11p; [|exit_with Post Hexit l HO6 HU7].
    cbv beta iota zeta.
    set (m12 := delete p m11).
    assert (Hne : p ≠ np) by (apply String.eqb_neq; exact Hpn).
    assert (H12 : m12 !! np = Some g11).
    { unfold m12. rewrite lookup_delete_ne by done. exact H11. }
    assert (Hc3 : commit_ops t np p (source_attr w p f_mode) (source_attr w p f_uid) (source_attr w p f_gid) !! 3%nat = Some (FsRemove p))
      by (unfold commit_ops; rewrite Hpn; reflexivity).
    pose proof (orderly_cons_commit E p w _ _ 3 _ m12 HO6 Hc3
                  (Knp _ _ H12 Ha8)) as HO7.
    pose proof (HU4 (FsRemove p) m12 _ HU7) as HU8.
    rewrite try_except_bind, print_run. cbn [names_of forallb fs clock log].
    rewrite andb_true_r.
    destruct (stdout_encodes E np); [|exit_with Post Hexit l HO7 HU8].
    unfold try_except. cbv beta iota.
    exists (EPrint (MConverted np) :: EFs (FsRemove p) m12
            :: EFs (FsChown np (f_uid f) (f_gid f)) m11
            :: EFs (FsChmod np (f_mode f)) m10 :: EFs (FsMove t np) m9
            :: newm ++ [EFs (FsExport t) m2; EFs (FsMkTemp t) m1]),
      ([FsMkTemp t; FsExport t] ++ fs_ops (rev newm)), 4%nat.
    split; [reflexivity|]. split.
    + apply orderly_cons_print. exact HO7.
    + left. split; [reflexivity|]. split; [reflexivity|].
      exists f. split; [exact Hp|]. reflexivity.
Qed.
End Skeleton.

(** ** Runs that only save tags *)

Lemma same_but_tags_refl f : same_but_tags f f.
Proof. repeat split. Qed.

Lemma same_but_tags_trans f g h :
  same_but_tags f g → same_but_tags g h → same_but_tags f h.
Proof.
  intros (A1 & A2 & A3 & A4) (B1 & B2 & B3 & B4).
  repeat split; congruence.
Qed.

Lemma retagged_refl t m : retagged t m m.
Proof.
  split; [reflexivity|]. destruct (m !! t); [apply same_but_tags_refl|exact I].
Qed.

Lemma retagged_trans t m1 m2 m3 :
  retagged t m1 m2 → retagged t m2 m3 → retagged t m1 m3.
Proof.
  intros [H1 A] [H2 B]. split.
  - intros q Hq. rewrite H2, H1; done.
  - destruct (m1 !! t), (m2 !! t), (m3 !! t); try contradiction; try exact I.
    eapply same_but_tags_trans; eassumption.
Qed.

Lemma retag_event_weaken t m1 m2 ev :
  retagged t m1 m2 → retag_event t m2 ev → retag_event t m1 ev.
Proof.
  intros H12. destruct ev as [[]| |op after]; cbn; try tauto.
  intros [-> H]. split; [reflexivity|]. eapply retagged_trans; eassumption.
Qed.

Lemma retag_refl t w : retag t w w.
Proof. split; [apply retagged_refl|]. exists []. split; [reflexivity|constructor]. Qed.

Lemma retag_trans t w1 w2 w3 : retag t w1 w2 → retag t w2 w3 → retag t w1 w3.
Proof.
  intros [H12 (n1 & L1 & F1)] [H23 (n2 & L2 & F2)]. split.
  - eapply retagged_trans; eassumption.
  - exists (n2 ++ n1). split.
    + rewrite L2, L1. apply app_assoc.
    + apply Forall_app. split; [|exact F1].
      eapply Forall_impl; [exact F2|]. intros ev. apply retag_event_weaken, H12.
Qed.

Lemma note_retag_event t m ev : is_note ev → retag_event t m ev.
Proof. destruct ev as [[]| |]; cbn; tauto. Qed.

Lemma quiet_retag t w w' : quiet w w' → retag t w w'.
Proof.
  intros [Hfs (new & Hl & Hn)]. split.
  - rewrite Hfs. apply retagged_refl.
  - exists new. split; [exact Hl|].
    eapply Forall_impl; [exact Hn|]. intros ev. apply note_retag_event.
Qed.

Lemma quiet_refl w : quiet w w.
Proof. split; [reflexivity|]. exists []. split; [reflexivity|constructor]. Qed.

Lemma quiet_trans w1 w2 w3 : quiet w1 w2 → quiet w2 w3 → quiet w1 w3.
Proof.
  intros [H12 (n1 & L1 & F1)] [H23 (n2 & L2 & F2)]. split; [congruence|].
  exists (n2 ++ n1). split.
  - rewrite L2, L1. apply app_assoc.
  - apply Forall_app. split; assumption.
Qed.

Lemma quiet_tick w : quiet w (tick w).
Proof. split; [reflexivity|]. exists []. split; [reflexivity|constructor]. Qed.

Lemma quiet_note w ev :
  is_note ev → quiet w (mkWorld (fs w) (clock w) (ev :: log w)).
Proof.
  intros H. split; [reflexivity|]. exists [ev]. split; [reflexivity|].
  constructor; [exact H|constructor].
Qed.

(** The rules of [sat], for a reflexive and transitive relation. *)
Section Sat.
Context (R : World -> World -> Prop).
Hypothesis R_refl : ∀ w, R w w.
Hypothesis R_trans : ∀ w1 w2 w3, R w1 w2 → R w2 w3 → R w1 w3.

Lemma sat_ret {A} (Q : A -> Prop) a : Q a → sat R Q (mret a).
Proof. intros H w. split; [apply R_refl|]. cbn. intros b [= <-]. exact H. Qed.

Lemma sat_raise {A} (Q : A -> Prop) e : sat R Q (raise e).
Proof. intros w. split; [apply R_refl|]. cbn. discriminate. Qed.

Lemma sat_bind {A B} (P : A -> Prop) (Q : B -> Prop) m k :
  sat R P m → (∀ a, P a → sat R Q (k a)) → sat R Q (m ≫= k).
Proof.
  intros Hm Hk w. rewrite bind_run. destruct (Hm w) as [H1 H2].
  destruct (m w) as [[a|e] w1]; cbn in *.
  - destruct (Hk a (H2 a eq_refl) w1) as [H3 H4]. split; [|exact H4].
    eapply R_trans; eassumption.
  - split; [exact H1|discriminate].
Qed.

Lemma sat_try_then {A B} (P : A -> Prop) (Q : B -> Prop) body rest h :
  sat R P body → (∀ a, P a → sat R Q (rest a)) → (∀ e, sat R Q (h e)) →
  sat R Q (try_then body rest h).
Proof.
  intros Hm Hk Hh w. unfold try_then. destruct (Hm w) as [H1 H2].
  destruct (body w) as [[a|e] w1]; cbn in *.
  - destruct (Hk a (H2 a eq_refl) w1) as [H3 H4]. split; [|exact H4].
    eapply R_trans; eassumption.
  - destruct (Hh e w1) as [H3 H4]. split; [|exact H4].
    eapply R_trans; eassumption.
Qed.

Lemma sat_try_except {A} (Q : A -> Prop) body h :
  sat R Q body → (∀ e, sat R Q (h e)) → sat R Q (try_except body h).
Proof.
  intros Hm Hh w. unfold try_except. destruct (Hm w) as [H1 H2].
  destruct (body w) as [[a|e] w1]; cbn in *.
  - split; [exact H1|exact H2].
  - destruct (Hh e w1) as [H3 H4]. split; [|exact H4].
    eapply R_trans; eassumption.
Qed.

Lemma sat_weaken {A} (P Q : A -> Prop) m :
  sat R P m → (∀ a, P a → Q a) → sat R Q m.
Proof. intros Hm H w. destruct (Hm w) as [H1 H2]. split; [exact H1|]. auto. Qed.

End Sat.

Lemma sat_mono {A} (R R' : World -> World -> Prop) (Q : A -> Prop) m :
  (∀ w w', R w w' → R' w w') → sat R Q m → sat R' Q m.
Proof. intros H Hm w. destruct (Hm w) as [H1 H2]. split; [apply H, H1|exact H2]. Qed.

Section Primitives.
Context (E : Env).

Lemma mutagen_File_run p easy w :
  mutagen_File E p easy w =
  if fault E (clock w) (OpMutagenFile p easy)
  then (Raise (ExternalError (OpMutagenFile p easy)), tick w)
  else match fs w !! p with
       | Some f =>
           (Ok (match f_media f with
                | Some mi => Some (mkMObj p (mi_bitrate mi) (mi_tags mi))
                | None => None
                end), tick w)
       | None => (Raise FileNotFoundError, tick w)
       end.
Proof. unfold mutagen_File, tick. unfold_run. case_run. Qed.

Lemma obj_save_run o w :
  obj_save E (Bound (Some o)) w =
  if fault E (clock w) (OpSave (o_path o))
  then (Raise (ExternalError (OpSave (o_path o))), tick w)
  else match fs w !! o_path o with
       | Some f =>
           let m := <[o_path o := with_tags E (clock w) o f]> (fs w) in
           (Ok tt,
            mkWorld m (S (clock w)) (EFs (FsSaveTags (o_path o)) m :: log w))
       | None => (Raise FileNotFoundError, tick w)
       end.
Proof. unfold obj_save, tick, with_tags. unfold_run. case_run. Qed.

Lemma sat_call op : sat quiet (fun _ => True) (call E op).
Proof.
  intros w. unfold call. destruct (fault E (clock w) op); cbn; split; auto;
    apply (quiet_tick w).
Qed.

Lemma sat_print m :
  is_note (EPrint m) → sat quiet (fun _ => True) (print E m).
Proof.
  intros H w. rewrite print_run. split; [|auto].
  destruct (forallb _ _); [apply quiet_note, H|apply quiet_refl].
Qed.

Lemma sat_mutagen_File p easy :
  sat quiet (fun o => saves_to p (Bound o)) (mutagen_File E p easy).
Proof.
  intros w. rewrite mutagen_File_run.
  destruct (fault E (clock w) _); [split; [apply quiet_tick|discriminate]|].
  destruct (fs w !! p) as [f|]; [|split; [apply quiet_tick|discriminate]].
  split; [apply quiet_tick|]. cbn. intros o [= <-].
  destruct (f_media f); reflexivity.
Qed.

Lemma sat_obj_update t new original :
  saves_to t (Bound new) →
  sat quiet (fun o => saves_to t (Bound o)) (obj_update E new original).
Proof.
  intros Ht. destruct new as [n|]; [|apply sat_raise, quiet_refl].
  unfold obj_update. eapply sat_bind;
    [apply quiet_trans|apply sat_call|].
  intros _ _. apply sat_ret; [apply quiet_refl|exact Ht].
Qed.

Lemma sat_obj_setitem t v key value :
  saves_to t v → sat quiet (saves_to t) (obj_setitem E v key value).
Proof.
  intros Ht. destruct v as [|[o|]]; try (apply sat_raise, quiet_refl).
  unfold obj_setitem. eapply sat_bind;
    [apply quiet_trans|apply sat_call|].
  intros _ _. apply sat_ret; [apply quiet_refl|exact Ht].
Qed.

Lemma sat_obj_save t v :
  saves_to t v → sat (retag t) (fun _ => True) (obj_save E v).
Proof.
  intros Ht. destruct v as [|[o|]]; try (apply sat_raise, retag_refl).
  cbn in Ht. subst t. intros w. rewrite obj_save_run. split; [|auto].
  destruct (fault E (clock w) _); [apply quiet_retag, quiet_tick|].
  destruct (fs w !! o_path o) as [f|] eqn:Hf; [|apply quiet_retag, quiet_tick].
  cbn.
  assert (Hr : retagged (o_path o) (fs w)
                 (<[o_path o := with_tags E (clock w) o f]> (fs w))).
  { split.
    - intros q Hq. rewrite lookup_insert_ne; done.
    - rewrite Hf, lookup_insert_eq. repeat split. }
  split; [exact Hr|].
  eexists [_]. split; [reflexivity|]. constructor; [|constructor].
  split; [reflexivity|exact Hr].
Qed.

Lemma mt_send_slack_message_run message w :
  Mt.send_slack_message E message w =
  (Ok tt, mkWorld (fs w) (S (clock w))
            (EPrint (slack_report E (clock w))
             :: EPost (slack_webhook_url E) message :: log w)).
Proof.
  unfold Mt.send_slack_message, requests_post, slack_report.
  unfold_run.
  destruct (fault E (clock w) OpPost); [reflexivity|].
  destruct (post_status E (clock w) =? 200); reflexivity.
Qed.

Lemma slack_report_note n : is_note (EPrint (slack_report E n)).
Proof.
  unfold slack_report. destruct (fault E n OpPost); [exact I|].
  destruct (post_status E n =? 200); exact I.
Qed.

Lemma mt_send_slack_message_quiet message w :
  fst (Mt.send_slack_message E message w) = Ok tt
  ∧ quiet w (snd (Mt.send_slack_message E message w)).
Proof.
  rewrite mt_send_slack_message_run. split; [reflexivity|].
  split; [reflexivity|]. eexists [_; _]. split; [reflexivity|].
  repeat constructor. apply slack_report_note.
Qed.

Lemma sat_mt_send_slack_message message :
  sat quiet (fun _ => True) (Mt.send_slack_message E message).
Proof. intros w. split; [apply mt_send_slack_message_quiet|auto]. Qed.

Lemma sat_estimate_from_filename t p v :
  saves_to t v →
  sat (retag t) (fun _ => True) (Mt.estimate_from_filename E p v).
Proof.
  intros Ht. unfold Mt.estimate_from_filename.
  pose proof (retag_trans t) as Tr. pose proof (retag_refl t) as Rf.
  pose proof (fun A Q m => @sat_mono A quiet (retag t) Q m (quiet_retag t)) as Up.
  eapply sat_bind; [exact Tr|apply Up, sat_print; exact I|]. intros _ _.
  destruct (Py.split1 " - " _) as [[artist title]|].
  - eapply sat_bind; [exact Tr|apply Up, sat_obj_setitem, Ht|]. intros v1 H1.
    eapply sat_bind; [exact Tr|apply Up, sat_obj_setitem, H1|]. intros v2 H2.
    eapply sat_bind; [exact Tr|apply sat_obj_save, H2|]. intros _ _.
    eapply sat_bind; [exact Tr|apply Up, sat_print; exact I|]. intros _ _.
    apply Up, sat_mt_send_slack_message.
  - eapply sat_bind; [exact Tr|apply Up, sat_print; exact I|]. intros _ _.
    apply Up, sat_mt_send_slack_message.
Qed.

Lemma sat_copy_metadata p t :
  sat (retag t) (fun _ => True) (Mt.copy_metadata E p t).
Proof.
  unfold Mt.copy_metadata.
  pose proof (retag_trans t) as Tr. pose proof (retag_refl t) as Rf.
  pose proof (fun A Q m => @sat_mono A quiet (retag t) Q m (quiet_retag t)) as Up.
  eapply (sat_try_then _ Tr (fun x => saves_to t (Bound (snd x)))).
  - eapply sat_bind; [exact Tr|apply Up, sat_mutagen_File|]. intros o _.
    eapply sat_bind; [exact Tr|apply Up, sat_mutagen_File|]. intros n Hn.
    apply sat_ret; [exact Rf|exact Hn].
  - intros [o n] Hn. cbn in Hn.
    destruct (truth E o && truth E n); [|apply sat_ret; [exact Rf|exact I]].
    eapply (sat_try_then _ Tr).
    + apply Up, sat_obj_update, Hn.
    + intros n' Hn'. apply sat_try_except; [exact Tr|apply sat_obj_save, Hn'|].
      intros _. apply sat_estimate_from_filename, Hn'.
    + intros _. apply sat_estimate_from_filename, Hn.
  - intros _. apply sat_estimate_from_filename. exact I.
Qed.

End Primitives.

Lemma mt_convert_run E p w :
  ConvertRun E p w (fst (Mt.convert_to_mp3 E p w))
    (snd (Mt.convert_to_mp3 E p w)).
Proof.
  apply (skeleton_run E (Mt.copy_metadata E) (Mt.send_slack_message E)).
  - intros p' t w'. apply (sat_copy_metadata E p' t w').
  - apply mt_send_slack_message_quiet.
Qed.

(** ** The legacy script against the skeleton *)

Lemma bind_assoc_run {A B C} (m : M A) (k : A -> M B) (k' : B -> M C) w :
  ((m ≫= k) ≫= k') w = (m ≫= fun a => k a ≫= k') w.
Proof. rewrite !bind_run. destruct (m w) as [[a|e] w1]; reflexivity. Qed.

Lemma bind_ext_run {A B} (m : M A) (k1 k2 : A -> M B) w :
  (∀ a w', k1 a w' = k2 a w') → (m ≫= k1) w = (m ≫= k2) w.
Proof.
  intros H. rewrite !bind_run. destruct (m w) as [[a|e] w1]; [apply H|reflexivity].
Qed.

Lemma try_except_ext_run {A} (b1 b2 : M A) h w :
  b1 w = b2 w → try_except b1 h w = try_except b2 h w.
Proof. unfold try_except. intros ->. reflexivity. Qed.

Lemma legacy_convert_is_skeleton E p w :
  Legacy.convert_to_mp3 E p w =
  convert_skeleton E (legacy_metadata E) (Legacy.post_and_report E) p w.
Proof.
  unfold Legacy.convert_to_mp3, convert_skeleton, legacy_metadata.
  apply try_except_ext_run.
  do 7 (apply bind_ext_run; intros ? ?).
  do 3 (rewrite bind_assoc_run; apply bind_ext_run; intros ? ?).
  reflexivity.
Qed.

Section LegacyRuns.
Context (E : Env).

Lemma legacy_post_and_report_run message w :
  Legacy.post_and_report E message w =
  (Ok tt, mkWorld (fs w) (S (clock w))
            (EPrint (slack_report E (clock w))
             :: EPost (slack_webhook_url E) message :: log w)).
Proof. apply mt_send_slack_message_run. Qed.

Lemma legacy_post_and_report_quiet message w :
  fst (Legacy.post_and_report E message w) = Ok tt
  ∧ quiet w (snd (Legacy.post_and_report E message w)).
Proof. apply mt_send_slack_message_quiet. Qed.

Lemma sat_legacy_metadata p t :
  sat (retag t) (fun _ => True) (legacy_metadata E p t).
Proof.
  unfold legacy_metadata.
  pose proof (retag_trans t) as Tr. pose proof (retag_refl t) as Rf.
  pose proof (fun A Q m => @sat_mono A quiet (retag t) Q m (quiet_retag t)) as Up.
  eapply sat_bind; [exact Tr|apply Up, sat_mutagen_File|]. intros o _.
  eapply sat_bind; [exact Tr|apply Up, sat_mutagen_File|]. intros n Hn.
  eapply sat_bind; [exact Tr|apply Up, sat_obj_update, Hn|]. intros n' Hn'.
  apply sat_obj_save, Hn'.
Qed.

Lemma legacy_convert_run p w :
  ConvertRun E p w (fst (Legacy.convert_to_mp3 E p w))
    (snd (Legacy.convert_to_mp3 E p w)).
Proof.
  rewrite legacy_convert_is_skeleton.
  apply (skeleton_run E (legacy_metadata E) (Legacy.post_and_report E)).
  - intros p' t w'. apply (sat_legacy_metadata p' t w').
  - apply legacy_post_and_report_quiet.
Qed.

End LegacyRuns.

(** ** Both scripts *)

Lemma events_since_app w w' new :
  log w' = new ++ log w → events_since w w' = rev new.
Proof.
  intros H. unfold events_since. rewrite H, length_app.
  replace (length new + length (log w) - length (log w))%nat with (length new) by lia.
  rewrite take_app_length. reflexivity.
Qed.

Lemma convert_run s E p w :
  ConvertRun E p w (fst (convert_to_mp3_of s E p w))
    (snd (convert_to_mp3_of s E p w)).
Proof. destruct s; [apply mt_convert_run|apply legacy_convert_run]. Qed.

Lemma unreported_no_conversion np new :
  unreported new → reports_conversion np (rev new) = false.
Proof.
  intros H. apply Forall_rev in H. unfold reports_conversion.
  induction H as [|ev l Hev _ IH]; [reflexivity|].
  cbn. rewrite IH. destruct ev as [[]| |]; try reflexivity. discriminate.
Qed.

Lemma tally_cons r results c t :
  Mt.tally (r :: results) c t =
  Mt.tally results (c + (if 0 <? r then 1 else 0)) (t + Z.max 0 r).
Proof.
  cbn. destruct (0 <? r) eqn:Hr.
  - apply Z.ltb_lt in Hr. rewrite Z.max_r by lia. reflexivity.
  - apply Z.ltb_ge in Hr. rewrite Z.max_l by lia. rewrite !Z.add_0_r. reflexivity.
Qed.

Lemma tally_spec results c t :
  Mt.tally results c t = (c + count_positive results, t + sum_positive results).
Proof.
  revert c t. induction results as [|r rs IH]; intros c t.
  - cbn. rewrite !Z.add_0_r. reflexivity.
  - rewrite tally_cons, IH. unfold count_positive, sum_positive.
    cbn [map foldr]. rewrite filter_cons.
    destruct (0 <? r) eqn:Hr.
    + apply Z.ltb_lt in Hr. rewrite decide_True by exact Hr.
      cbn [length]. f_equal; lia.
    + apply Z.ltb_ge in Hr. rewrite decide_False by lia. f_equal; lia.
Qed.

(** ** The commit step and the value returned *)

(** C8. In every run of [convert_to_mp3], of either script and whatever
    calls fail, the file system is changed by operations on a fresh
    scratch file followed by a prefix of: move the scratch file to the new
    path, chmod the new path, chown the new path, remove the source.  The
    removal is there only when the new path differs from the source path,
    it comes after the move, the chmod and the chown, and nothing follows
    it.  Every file system in between holds the audio of the source at the
    source path or at the new path. *)
Theorem source_is_deleted_last s E p w :
  commit_discipline E p w (snd (convert_to_mp3_of s E p w)).
Proof.
  destruct (convert_run s E p w) as (new & pre & k & Hlog & Ho & _).
  unfold commit_discipline. rewrite (events_since_app _ _ _ Hlog).
  exists pre, k. exact Ho.
Qed.

(** C3, as the code has it.  A run of [convert_to_mp3] that reports the
    conversion returns the size of the source minus the size of the
    encoder's output, whatever its sign; in the tally of [process_directory]
    such a result counts as one file and adds to the total only when it is
    strictly positive, so that it adds [max 0] of itself. *)
Theorem converted_returns_size_difference s E p w :
  reports_conversion (new_path_of p)
    (events_since w (snd (convert_to_mp3_of s E p w))) = true →
  ∃ f, fs w !! p = Some f
       ∧ fst (convert_to_mp3_of s E p w)
         = Ok (f_size f - enc_size E (3 + clock w))
       ∧ ∀ results c t,
           Mt.tally ((f_size f - enc_size E (3 + clock w)) :: results) c t
           = Mt.tally results
               (c + (if 0 <? f_size f - enc_size E (3 + clock w)
                     then 1 else 0))
               (t + Z.max 0 (f_size f - enc_size E (3 + clock w))).
Proof.
  destruct (convert_run s E p w) as (new & pre & k & Hlog & _ & Hout).
  rewrite (events_since_app _ _ _ Hlog). intros Hrep.
  destruct Hout as [(_ & _ & f & Hf & Hr)|[Hu _]].
  - exists f. split; [exact Hf|]. split; [exact Hr|]. intros. apply tally_cons.
  - rewrite (unreported_no_conversion _ _ Hu) in Hrep. discriminate.
Qed.
(** C3, as stated, fails: a 100-byte FLAC file whose encoding takes 150
    bytes is converted and committed, and the value returned for it is
    [-50], not [max 0 (100 - 150)]. *)
Lemma converted_file_returns_negative_saving :
  fst (Mt.convert_to_mp3 (Studio.env Studio.no_faults 150 []) "/m/a.flac"
         Studio.one_flac) = Ok (-50)
  ∧ reports_conversion "/m/a.mp3"
      (events_since Studio.one_flac
         (snd (Mt.convert_to_mp3 (Studio.env Studio.no_faults 150 [])
                 "/m/a.flac" Studio.one_flac))) = true
  ∧ -50 ≠ Z.max 0 (100 - 150).
Proof. vm_compute. repeat split; discriminate. Qed.

(** The legacy script on a 100-byte FLAC file encoded in 40 bytes. *)
Lemma converted_returns_size_difference_witness :
  reports_conversion (new_path_of "/m/a.flac")
    (events_since Studio.one_flac
       (snd (convert_to_mp3_of CampsLegacy
               (Studio.env Studio.no_faults 40 []) "/m/a.flac"
               Studio.one_flac))) = true
  ∧ ∃ f, fs Studio.one_flac !! "/m/a.flac" = Some f
         ∧ fst (convert_to_mp3_of CampsLegacy
                  (Studio.env Studio.no_faults 40 []) "/m/a.flac"
                  Studio.one_flac)
           = Ok (f_size f
                 - enc_size (Studio.env Studio.no_faults 40 [])
                     (3 + clock Studio.one_flac))
         ∧ ∀ results c t,
             Mt.tally
               ((f_size f
                 - enc_size (Studio.env Studio.no_faults 40 [])
                     (3 + clock Studio.one_flac)) :: results) c t
             = Mt.tally results
                 (c + (if 0 <? f_size f
                                - enc_size (Studio.env Studio.no_faults 40 [])
                                    (3 + clock Studio.one_flac)
                       then 1 else 0))
                 (t + Z.max 0
                        (f_size f
                         - enc_size (Studio.env Studio.no_faults 40 [])
                             (3 + clock Studio.one_flac))).
Proof.
  split; [vm_compute; reflexivity|].
  apply (converted_returns_size_difference CampsLegacy
           (Studio.env Studio.no_faults 40 []) "/m/a.flac" Studio.one_flac).
  vm_compute. reflexivity.
Defined.

Lemma mt_send_slack_notification_run E c t w :
  Mt.send_slack_notification E c t w =
  (Ok tt, mkWorld (fs w) (S (clock w))
            (EPrint (slack_report E (clock w))
             :: EPost (slack_webhook_url E) (MAudioConversionCompleted c t)
             :: log w)).
Proof. apply mt_send_slack_message_run. Qed.

(** ** Notifications and unsupported files *)

(** C9. Whatever the webhook does, raise or answer with any status code,
    the sending functions of both scripts return normally: the file system
    is as it was, and the log gains the posted text and one printed line,
    which says whether the post raised, failed or succeeded. *)
Theorem notification_failure_is_only_logged E w :
  (∀ message,
     Mt.send_slack_message E message w
     = (Ok tt,
        mkWorld (fs w) (S (clock w))
          (EPrint (slack_report E (clock w))
           :: EPost (slack_webhook_url E) message :: log w)))
  ∧ (∀ converted_count total_space_saved,
       Mt.send_slack_notification E converted_count total_space_saved w
       = (Ok tt,
          mkWorld (fs w) (S (clock w))
            (EPrint (slack_report E (clock w))
             :: EPost (slack_webhook_url E)
                  (MAudioConversionCompleted converted_count
                     total_space_saved)
             :: log w)))
  ∧ (∀ converted_count total_space_saved,
       Legacy.send_slack_notification E converted_count total_space_saved w
       = (Ok tt,
          mkWorld (fs w) (S (clock w))
            (EPrint (slack_report E (clock w))
             :: EPost (slack_webhook_url E)
                  (MAudioConversionCompleted converted_count
                     total_space_saved)
             :: log w))).
Proof.
  split; [|split]; intros.
  - apply mt_send_slack_message_run.
  - apply mt_send_slack_notification_run.
  - apply legacy_post_and_report_run.
Qed.

(** C10. A path whose lowercased extension is not supported is left
    alone: [process_file] returns 0 and the world, log included, is the
    one it started from; the legacy loop passes its counters on untouched;
    and a result of 0 changes neither the count nor the total. *)
Theorem unsupported_extension_is_left_alone E file_path w :
  supported (Py.lower (snd (Py.splitext file_path))) = false →
  Mt.process_file E file_path w = (Ok 0, w)
  ∧ (∀ root acc,
       Legacy.process_entry E root file_path acc w = (Ok acc, w))
  ∧ ∀ results converted_count total_space_saved,
      Mt.tally (0 :: results) converted_count total_space_saved
      = Mt.tally results converted_count total_space_saved.
Proof.
  intros H. split; [|split].
  - unfold Mt.process_file. cbv zeta. rewrite H. reflexivity.
  - intros root [c t]. unfold Legacy.process_entry. cbv zeta. rewrite H.
    reflexivity.
  - intros. reflexivity.
Qed.

(** A cover image next to the music. *)
Lemma unsupported_extension_is_left_alone_witness :
  supported (Py.lower (snd (Py.splitext "/m/cover.jpg"))) = false
  ∧ (Mt.process_file (Studio.env Studio.no_faults 100 []) "/m/cover.jpg"
       Studio.cover = (Ok 0, Studio.cover)
     ∧ (∀ root acc,
          Legacy.process_entry (Studio.env Studio.no_faults 100 []) root
            "/m/cover.jpg" acc Studio.cover = (Ok acc, Studio.cover))
     ∧ ∀ results converted_count total_space_saved,
         Mt.tally (0 :: results) converted_count total_space_saved
         = Mt.tally results converted_count total_space_saved).
Proof.
  split; [reflexivity|].
  apply (unsupported_extension_is_left_alone
           (Studio.env Studio.no_faults 100 []) "/m/cover.jpg" Studio.cover).
  reflexivity.
Defined.

(** ** Files already at the target bitrate *)

Section Compliant.
Context (E : Env).

Lemma sat_get_mp3_bitrate p :
  sat quiet (fun _ => True) (Mt.get_mp3_bitrate E p).
Proof.
  unfold Mt.get_mp3_bitrate.
  apply sat_try_except; [apply quiet_trans| |].
  - eapply sat_bind; [apply quiet_trans|apply sat_mutagen_File|].
    intros [o|] _; [|apply sat_raise, quiet_refl].
    destruct (o_bitrate o); [apply sat_ret; [apply quiet_refl|exact I]|].
    apply sat_raise, quiet_refl.
  - intros _. eapply sat_bind; [apply quiet_trans|apply sat_print; exact I|].
    intros _ _. apply sat_ret; [apply quiet_refl|exact I].
Qed.

Lemma sat_first_value R (R_refl : ∀ w, R w w) o key :
  sat R (fun _ => True) (Mt.first_value o key).
Proof.
  unfold Mt.first_value. destruct o as [o|]; [|apply sat_raise, R_refl].
  destruct (default [""] (o_tags o !! key));
    [apply sat_raise, R_refl|apply sat_ret; [apply R_refl|exact I]].
Qed.

Lemma sat_estimate_missing_metadata p :
  sat (retag p) (fun _ => True) (Mt.estimate_missing_metadata E p).
Proof.
  unfold Mt.estimate_missing_metadata.
  pose proof (retag_trans p) as Tr. pose proof (retag_refl p) as Rf.
  pose proof (fun A Q m => @sat_mono A quiet (retag p) Q m (quiet_retag p)) as Up.
  eapply sat_bind; [exact Tr|apply Up, sat_mutagen_File|]. intros o Ho.
  eapply sat_bind; [exact Tr|apply sat_first_value, Rf|]. intros artist _.
  eapply sat_bind; [exact Tr|apply sat_first_value, Rf|]. intros title _.
  destruct (negb (Py.truthy artist) || negb (Py.truthy title));
    [|apply sat_ret; [exact Rf|exact I]].
  cbv zeta. destruct (Py.split1 " - " _) as [[ea et]|].
  - eapply (sat_bind _ Tr (saves_to p)).
    { destruct (negb (Py.truthy artist)).
      - apply Up, sat_obj_setitem, Ho.
      - apply sat_ret; [exact Rf|exact Ho]. }
    intros v1 H1.
    eapply (sat_bind _ Tr (saves_to p)).
    { destruct (negb (Py.truthy title)).
      - apply Up, sat_obj_setitem, H1.
      - apply sat_ret; [exact Rf|exact H1]. }
    intros v2 H2.
    eapply sat_bind; [exact Tr|apply sat_obj_save, H2|]. intros _ _.
    eapply sat_bind; [exact Tr|apply Up, sat_print; exact I|]. intros _ _.
    apply Up, sat_mt_send_slack_message.
  - eapply sat_bind; [exact Tr|apply Up, sat_print; exact I|]. intros _ _.
    apply Up, sat_mt_send_slack_message.
Qed.

Lemma sat_estimate_without_separator p :
  Py.split1 " - " (stem p) = None →
  sat quiet (fun _ => True) (Mt.estimate_missing_metadata E p).
Proof.
  intros Hs. unfold Mt.estimate_missing_metadata.
  pose proof quiet_trans as Tr. pose proof quiet_refl as Rf.
  eapply sat_bind; [exact Tr|apply sat_mutagen_File|]. intros o Ho.
  eapply sat_bind; [exact Tr|apply sat_first_value, Rf|]. intros artist _.
  eapply sat_bind; [exact Tr|apply sat_first_value, Rf|]. intros title _.
  destruct (negb (Py.truthy artist) || negb (Py.truthy title));
    [|apply sat_ret; [exact Rf|exact I]].
  cbv zeta. unfold stem in Hs. rewrite Hs.
  eapply sat_bind; [exact Tr|apply sat_print; exact I|]. intros _ _.
  apply sat_mt_send_slack_message.
Qed.

Lemma estimate_with_tags_is_quiet p w :
  has_artist_and_title (fs w) p →
  quiet w (snd (Mt.estimate_missing_metadata E p w)).
Proof.
  intros (f & mi & a & ar & ti & tr & Hf & Hmi & Ha & Hane & Hti & Htine).
  unfold Mt.estimate_missing_metadata.
  rewrite bind_run, mutagen_File_run, Hf, Hmi.
  destruct (fault E (clock w) _); [apply quiet_tick|].
  cbv beta iota. unfold Mt.first_value. cbn [o_tags].
  rewrite Ha, Hti.
  apply String.eqb_neq in Hane, Htine.
  cbv beta iota delta [default from_option id mret M_ret mbind M_bind Py.truthy].
  rewrite Hane, Htine. cbn [negb orb]. apply quiet_tick.
Qed.

End Compliant.

Lemma mt_compliant_run E p w :
  Py.lower (snd (Py.splitext p)) = ".mp3" →
  fst (Mt.get_mp3_bitrate E p w) = Ok (Some (desired_bitrate E)) →
  Mt.process_file E p w =
  (match fst (Mt.estimate_missing_metadata E p
                (snd (Mt.get_mp3_bitrate E p w))) with
   | Ok _ => Ok 0
   | Raise e => Raise e
   end,
   snd (Mt.estimate_missing_metadata E p (snd (Mt.get_mp3_bitrate E p w)))).
Proof.
  intros Hext Hbr. unfold Mt.process_file. cbv zeta. rewrite Hext.
  change (supported ".mp3") with true.
  change (".mp3" =? ".mp3")%string with true. cbv iota.
  rewrite !bind_run.
  destruct (Mt.get_mp3_bitrate E p w) as [r1 w1]. cbn [fst snd] in *.
  subst r1. rewrite !bind_run.
  destruct (Mt.estimate_missing_metadata E p w1) as [[[]|e] w2];
    cbn [fst snd]; [|reflexivity].
  unfold Mt.no_conversion_needed. rewrite Z.eqb_refl. reflexivity.
Qed.

Lemma legacy_compliant_run E root file acc w :
  Py.lower (snd (Py.splitext file)) = ".mp3" →
  fst (Legacy.get_mp3_bitrate E (Py.join root file) w)
  = Ok (Some (desired_bitrate E)) →
  Legacy.process_entry E root file acc w
  = (Ok acc, snd (Legacy.get_mp3_bitrate E (Py.join root file) w)).
Proof.
  intros Hext Hbr. destruct acc as [c t].
  unfold Legacy.process_entry. cbv zeta. rewrite Hext.
  change (supported ".mp3") with true.
  change (".mp3" =? ".mp3")%string with true. cbv iota.
  rewrite !bind_run.
  destruct (Legacy.get_mp3_bitrate E (Py.join root file) w) as [r1 w1].
  cbn [fst snd] in *. subst r1. rewrite Z.eqb_refl. reflexivity.
Qed.

(** C4, as the code has it.  For an [.mp3] file whose bitrate reads as
    the target, [process_file] of camps_mt.py never transcodes, moves,
    re-owns or removes anything: the only mutation it can make is a save
    of tags into that file, which leaves its audio, permission bits, owner
    and group as they were and touches no other file, and it returns 0 or
    raises.  It writes nothing at all when the file name has no separator
    or when the file already has an artist and a title.  The loop of
    camps_legacy.py changes no file and passes its counters on. *)
Theorem compliant_mp3_is_at_most_retagged E root file w :
  Py.lower (snd (Py.splitext (Py.join root file))) = ".mp3" →
  Py.lower (snd (Py.splitext file)) = ".mp3" →
  fst (Mt.get_mp3_bitrate E (Py.join root file) w)
  = Ok (Some (desired_bitrate E)) →
  retag (Py.join root file) w
    (snd (Mt.process_file E (Py.join root file) w))
  ∧ (fst (Mt.process_file E (Py.join root file) w) = Ok 0
     ∨ ∃ e, fst (Mt.process_file E (Py.join root file) w) = Raise e)
  ∧ (Py.split1 " - " (stem (Py.join root file)) = None
     ∨ has_artist_and_title (fs w) (Py.join root file) →
     quiet w (snd (Mt.process_file E (Py.join root file) w)))
  ∧ ∀ acc,
      fst (Legacy.process_entry E root file acc w) = Ok acc
      ∧ quiet w (snd (Legacy.process_entry E root file acc w)).
Proof.
  intros Hext Hfile Hbr. set (p := Py.join root file) in *.
  rewrite (mt_compliant_run E p w Hext Hbr). cbn [fst snd].
  destruct (sat_get_mp3_bitrate E p w) as [Hq _].
  set (w1 := snd (Mt.get_mp3_bitrate E p w)) in *.
  split; [|split; [|split]].
  - eapply retag_trans; [apply quiet_retag, Hq|].
    apply (sat_estimate_missing_metadata E p w1).
  - destruct (fst (Mt.estimate_missing_metadata E p w1)); eauto.
  - intros [Hs|Ht]; (eapply quiet_trans; [exact Hq|]).
    + apply (sat_estimate_without_separator E p Hs w1).
    + apply estimate_with_tags_is_quiet. destruct Hq as [-> _]. exact Ht.
  - intros acc. rewrite (legacy_compliant_run E root file acc w Hfile Hbr).
    split; [reflexivity|exact Hq].
Qed.

(** An MP3 file at 256 kbps with artist and title: nothing is written. *)
Lemma compliant_mp3_is_at_most_retagged_witness :
  Py.lower (snd (Py.splitext (Py.join "/m" "A - B.mp3"))) = ".mp3"
  ∧ Py.lower (snd (Py.splitext "A - B.mp3")) = ".mp3"
  ∧ fst (Mt.get_mp3_bitrate (Studio.env Studio.no_faults 100 [])
           (Py.join "/m" "A - B.mp3") Studio.tagged_mp3)
    = Ok (Some (desired_bitrate (Studio.env Studio.no_faults 100 [])))
  ∧ quiet Studio.tagged_mp3
      (snd (Mt.process_file (Studio.env Studio.no_faults 100 [])
              (Py.join "/m" "A - B.mp3") Studio.tagged_mp3)).
Proof.
  assert (H1 : Py.lower (snd (Py.splitext (Py.join "/m" "A - B.mp3")))
               = ".mp3") by reflexivity.
  assert (H2 : Py.lower (snd (Py.splitext "A - B.mp3")) = ".mp3")
    by reflexivity.
  assert (H3 : fst (Mt.get_mp3_bitrate (Studio.env Studio.no_faults 100 [])
                      (Py.join "/m" "A - B.mp3") Studio.tagged_mp3)
               = Ok (Some (desired_bitrate
                             (Studio.env Studio.no_faults 100 []))))
    by (vm_compute; reflexivity).
  split; [exact H1|]. split; [exact H2|]. split; [exact H3|].
  apply (compliant_mp3_is_at_most_retagged
           (Studio.env Studio.no_faults 100 []) "/m" "A - B.mp3"
           Studio.tagged_mp3 H1 H2 H3).
  right. exists (Studio.mp3 5000 256000 (Studio.tagged "A" "B")),
    (mkMediaInfo (Some 256000) (Studio.tagged "A" "B")), "A", [], "B", [].
  repeat split; try (vm_compute; reflexivity); discriminate.
Defined.

(** C4, as stated, fails in camps_mt.py: an [.mp3] file at the target
    bitrate, without tags and named "A - B.mp3", has its tags saved by
    [process_file], which returns 0; the file is no longer what it was. *)
Lemma compliant_mp3_is_rewritten :
  fst (Mt.get_mp3_bitrate (Studio.env Studio.no_faults 100 [])
         "/m/A - B.mp3" Studio.untagged_mp3)
  = Ok (Some (desired_bitrate (Studio.env Studio.no_faults 100 [])))
  ∧ fst (Mt.process_file (Studio.env Studio.no_faults 100 [])
           "/m/A - B.mp3" Studio.untagged_mp3) = Ok 0
  ∧ fs_ops (events_since Studio.untagged_mp3
              (snd (Mt.process_file (Studio.env Studio.no_faults 100 [])
                      "/m/A - B.mp3" Studio.untagged_mp3)))
    = [FsSaveTags "/m/A - B.mp3"]
  ∧ fs (snd (Mt.process_file (Studio.env Studio.no_faults 100 [])
               "/m/A - B.mp3" Studio.untagged_mp3)) !! "/m/A - B.mp3"
    ≠ fs Studio.untagged_mp3 !! "/m/A - B.mp3".
Proof.
  split; [vm_compute; reflexivity|]. split; [vm_compute; reflexivity|].
  split; [vm_compute; reflexivity|].
  intros H. apply (f_equal (fmap f_size)) in H. vm_compute in H. discriminate.
Qed.

(** ** Where the scripts part from the specification *)

(** C1. [process_file] of camps_mt.py raises on an [.mp3] file that
    mutagen does not recognise: the bitrate read is guarded, the tag read
    that follows is not.  [process_directory] then raises as well, and no
    summary line is printed.  The legacy loop, which has no second read,
    completes on the same tree and converts the FLAC file next to it. *)
Theorem unrecognised_mp3_aborts_the_batch :
  fst (Mt.get_mp3_bitrate (Studio.env Studio.no_faults 100 Studio.junk_listing)
         "/m/x.mp3" Studio.junk_mp3) = Ok None
  ∧ fst (Mt.process_file (Studio.env Studio.no_faults 100 Studio.junk_listing)
           "/m/x.mp3" Studio.junk_mp3) = Raise AttributeError
  ∧ fst (Mt.process_directory
           (Studio.env Studio.no_faults 100 Studio.junk_listing) "/m"
           Studio.junk_mp3) = Raise AttributeError
  ∧ reported_summary
      (log (snd (Mt.process_directory
                   (Studio.env Studio.no_faults 100 Studio.junk_listing)
                   "/m" Studio.junk_mp3))) = None
  ∧ fst (Legacy.process_directory
           (Studio.env Studio.no_faults 100 Studio.junk_listing) "/m"
           Studio.junk_mp3) = Ok tt
  ∧ reports_conversion "/m/y.mp3"
      (events_since Studio.junk_mp3
         (snd (Legacy.process_directory
                 (Studio.env Studio.no_faults 100 Studio.junk_listing) "/m"
                 Studio.junk_mp3))) = true.
Proof. vm_compute. repeat split. Qed.

(** C6. The recovery inside [convert_to_mp3] assigns artist and title
    without looking at what is there.  A FLAC file tagged "Old"/"Kept" and
    named "New - Name.flac", whose artifact fails its first save after the
    tags were merged, is committed with artist "New" and title "Name";
    without the failure it keeps "Old".  [process_file], on an [.mp3] file
    with artist "Old" and no title, fills in the title only. *)
Theorem recovery_overwrites_existing_tags :
  tag_of (fs Studio.renamed_flac) "/m/New - Name.flac" "artist"
  = Some ["Old"]
  ∧ tag_of (fs (snd (Mt.convert_to_mp3
                       (Studio.env Studio.first_save_fails 100 [])
                       "/m/New - Name.flac" Studio.renamed_flac)))
      "/m/New - Name.mp3" "artist" = Some ["New"]
  ∧ tag_of (fs (snd (Mt.convert_to_mp3
                       (Studio.env Studio.first_save_fails 100 [])
                       "/m/New - Name.flac" Studio.renamed_flac)))
      "/m/New - Name.mp3" "title" = Some ["Name"]
  ∧ reports_conversion "/m/New - Name.mp3"
      (events_since Studio.renamed_flac
         (snd (Mt.convert_to_mp3 (Studio.env Studio.first_save_fails 100 [])
                 "/m/New - Name.flac" Studio.renamed_flac))) = true
  ∧ tag_of (fs (snd (Mt.convert_to_mp3 (Studio.env Studio.no_faults 100 [])
                       "/m/New - Name.flac" Studio.renamed_flac)))
      "/m/New - Name.mp3" "artist" = Some ["Old"]
  ∧ tag_of (fs (snd (Mt.process_file (Studio.env Studio.no_faults 100 [])
                       "/m/New - Name.mp3" Studio.half_tagged_mp3)))
      "/m/New - Name.mp3" "artist" = Some ["Old"]
  ∧ tag_of (fs (snd (Mt.process_file (Studio.env Studio.no_faults 100 [])
                       "/m/New - Name.mp3" Studio.half_tagged_mp3)))
      "/m/New - Name.mp3" "title" = Some ["Name"].
Proof. vm_compute. repeat split. Qed.

(** C7. A FLAC file named "A - B.flac" transcodes, then mutagen raises
    on its tags.  The handler of the inner [try] assigns to
    [new_metadata], which is not bound yet; the exception leaves through
    the outer handler: the task returns 0 and reports an error, nothing is
    committed, the source stays and the scratch file is left behind.  The
    same failure on a name without the separator is only reported, and the
    file is converted. *)
Theorem unreadable_tags_fail_the_task :
  fst (Mt.convert_to_mp3
         (Studio.env (Studio.unreadable_tags "/m/A - B.flac") 100 [])
         "/m/A - B.flac" Studio.torn_flac) = Ok 0
  ∧ reports_conversion "/m/A - B.mp3"
      (events_since Studio.torn_flac
         (snd (Mt.convert_to_mp3
                 (Studio.env (Studio.unreadable_tags "/m/A - B.flac") 100 [])
                 "/m/A - B.flac" Studio.torn_flac))) = false
  ∧ fs_ops
      (events_since Studio.torn_flac
         (snd (Mt.convert_to_mp3
                 (Studio.env (Studio.unreadable_tags "/m/A - B.flac") 100 [])
                 "/m/A - B.flac" Studio.torn_flac)))
    = [FsMkTemp "/tmp/tmpk3v9.mp3"; FsExport "/tmp/tmpk3v9.mp3"]
  ∧ fs (snd (Mt.convert_to_mp3
               (Studio.env (Studio.unreadable_tags "/m/A - B.flac") 100 [])
               "/m/A - B.flac" Studio.torn_flac)) !! "/m/A - B.mp3" = None
  ∧ Mt.estimate_from_filename
      (Studio.env (Studio.unreadable_tags "/m/A - B.flac") 100 [])
      "/m/A - B.flac" Unbound Studio.torn_flac
    = (Raise UnboundLocalError,
       mkWorld (fs Studio.torn_flac) 0
         [EPrint (MSkippingMetadata "/m/A - B.flac")])
  ∧ fst (Mt.convert_to_mp3
           (Studio.env (Studio.unreadable_tags "/m/AB.flac") 100 [])
           "/m/AB.flac" Studio.torn_plain_flac) = Ok 8900
  ∧ reports_conversion "/m/AB.mp3"
      (events_since Studio.torn_plain_flac
         (snd (Mt.convert_to_mp3
                 (Studio.env (Studio.unreadable_tags "/m/AB.flac") 100 [])
                 "/m/AB.flac" Studio.torn_plain_flac))) = true.
Proof. vm_compute. repeat split. Qed.

(** ** [convert_to_mp3] on examples *)

(** X1. [convert_to_mp3] catches every exception raised in its body, in
    both scripts and whatever calls fail; what can still leave it is the
    exception of its own handler, whose first statement prints the source
    name.  So it returns an integer, or it raises [UnicodeEncodeError] and
    the source name is one that stdout cannot encode. *)
Lemma convert_to_mp3_returns_or_cannot_print s E p w :
  (∃ space_saved, fst (convert_to_mp3_of s E p w) = Ok space_saved)
  ∨ (fst (convert_to_mp3_of s E p w) = Raise UnicodeEncodeError
     ∧ stdout_encodes E p = false).
Proof.
  destruct (convert_run s E p w) as (new & pre & k & _ & _ & Hout).
  destruct Hout as [(_ & _ & f & _ & Hr)|[_ [Hr|Hr]]]; eauto.
Qed.

(** A complete conversion, step by step. *)
Example full_conversion_trace :
  fs_ops (events_since Studio.one_flac
            (snd (Mt.convert_to_mp3 (Studio.env Studio.no_faults 40 [])
                    "/m/a.flac" Studio.one_flac)))
  = [FsMkTemp "/tmp/tmpk3v9.mp3"; FsExport "/tmp/tmpk3v9.mp3";
     FsMove "/tmp/tmpk3v9.mp3" "/m/a.mp3"; FsChmod "/m/a.mp3" 420;
     FsChown "/m/a.mp3" 1000 1000; FsRemove "/m/a.flac"].
Proof. vm_compute. reflexivity. Qed.

(** A conversion whose chown fails: the source is still there. *)
Example failed_chown_keeps_the_source :
  fs_ops (events_since Studio.one_flac
            (snd (Mt.convert_to_mp3
                    (Studio.env (fun _ op => match op with
                                             | OpChown _ => true
                                             | _ => false
                                             end) 40 [])
                    "/m/a.flac" Studio.one_flac)))
  = [FsMkTemp "/tmp/tmpk3v9.mp3"; FsExport "/tmp/tmpk3v9.mp3";
     FsMove "/tmp/tmpk3v9.mp3" "/m/a.mp3"; FsChmod "/m/a.mp3" 420]
  ∧ is_Some (fs (snd (Mt.convert_to_mp3
                        (Studio.env (fun _ op => match op with
                                                 | OpChown _ => true
                                                 | _ => false
                                                 end) 40 [])
                        "/m/a.flac" Studio.one_flac)) !! "/m/a.flac").
Proof. vm_compute. split; [reflexivity|eexists; reflexivity]. Qed.

(** ** A task of camps_mt.py, as a whole *)

(** [process_file] either hands the file to [convert_to_mp3], or returns
    0, or raises; before that it has at most saved tags into the file. *)
Lemma mt_process_file_run E p w :
  ∃ w1, retag p w w1
        ∧ (Mt.process_file E p w = Mt.convert_to_mp3 E p w1
           ∨ (snd (Mt.process_file E p w) = w1
              ∧ (fst (Mt.process_file E p w) = Ok 0
                 ∨ ∃ e, fst (Mt.process_file E p w) = Raise e))).
Proof.
  unfold Mt.process_file. cbv zeta.
  destruct (supported _); [|exists w; split; [apply retag_refl|right; eauto]].
  destruct (String.eqb _ ".mp3").
  - rewrite !bind_run.
    destruct (sat_get_mp3_bitrate E p w) as [Hq _].
    destruct (Mt.get_mp3_bitrate E p w) as [[b|e] wa]; cbn [fst snd] in *.
    2:{ exists wa. split; [apply quiet_retag, Hq|right; eauto]. }
    rewrite !bind_run.
    destruct (sat_estimate_missing_metadata E p wa) as [Hr _].
    destruct (Mt.estimate_missing_metadata E p wa) as [[[]|e] wb];
      cbn [fst snd] in *; exists wb;
      (split; [eapply retag_trans; [apply quiet_retag, Hq|exact Hr]|]).
    + cbn. destruct (Mt.no_conversion_needed E b); [right; eauto|left; reflexivity].
    + right; eauto.
  - exists w. split; [apply retag_refl|left; reflexivity].
Qed.

Lemma reports_conversion_in np l :
  In (EPrint (MConverted np)) l → reports_conversion np (rev l) = true.
Proof.
  intros H. unfold reports_conversion. apply existsb_exists.
  exists (EPrint (MConverted np)). split; [apply in_rev; rewrite rev_involutive; exact H|].
  apply String.eqb_refl.
Qed.

(** X2. A task that returns anything but 0 has converted its file: the value
    counted by [process_directory] is the saving of a committed
    conversion. *)
Lemma nonzero_result_means_converted E p w space_saved :
  fst (Mt.process_file E p w) = Ok space_saved → space_saved ≠ 0 →
  reports_conversion (new_path_of p)
    (events_since w (snd (Mt.process_file E p w))) = true.
Proof.
  intros Hr Hnz.
  destruct (mt_process_file_run E p w) as (w1 & [_ (n1 & Hl1 & _)] & [Hc|[_ H0]]).
  - rewrite Hc in *.
    destruct (mt_convert_run E p w1) as (new & pre & k & Hlog & _ & Hout).
    destruct Hout as [(Hhd & _)|[_ [Hr0|[Hr0 _]]]];
      [|rewrite Hr0 in Hr; injection Hr as <-; congruence
       |rewrite Hr0 in Hr; discriminate].
    rewrite Hl1, app_assoc in Hlog.
    rewrite (events_since_app _ _ _ Hlog).
    apply reports_conversion_in. apply in_or_app. left.
    destruct new as [|ev new]; [discriminate|]. injection Hhd as ->. left. reflexivity.
  - destruct H0 as [H0|[e H0]]; rewrite H0 in Hr; [|discriminate].
    injection Hr as <-. congruence.
Qed.

(** The slow MP3 file of [Studio.slow_mp3] returns 4900 and is converted. *)
Lemma nonzero_result_means_converted_witness :
  fst (Mt.process_file (Studio.env Studio.no_faults 100 []) "/m/low.mp3"
         Studio.slow_mp3) = Ok 4900
  ∧ 4900 ≠ 0
  ∧ reports_conversion (new_path_of "/m/low.mp3")
      (events_since Studio.slow_mp3
         (snd (Mt.process_file (Studio.env Studio.no_faults 100 [])
                 "/m/low.mp3" Studio.slow_mp3))) = true.
Proof.
  assert (H : fst (Mt.process_file (Studio.env Studio.no_faults 100 [])
                     "/m/low.mp3" Studio.slow_mp3) = Ok 4900)
    by (vm_compute; reflexivity).
  assert (Hnz : 4900 ≠ 0) by discriminate.
  split; [exact H|]. split; [exact Hnz|].
  exact (nonzero_result_means_converted (Studio.env Studio.no_faults 100 [])
           "/m/low.mp3" Studio.slow_mp3 4900 H Hnz).
Defined.

(** ** The legacy loop as a tally *)

Lemma tally_app a b c t :
  Mt.tally (a ++ b) c t = Mt.tally b (fst (Mt.tally a c t)) (snd (Mt.tally a c t)).
Proof.
  revert c t. induction a as [|r a IH]; intros c t; [reflexivity|].
  cbn. destruct (0 <? r); apply IH.
Qed.

Section LegacyLoop.
Context (E : Env).

Lemma legacy_process_entry_as_tally root file c t w :
  Legacy.process_entry E root file (c, t) w =
  (r ← legacy_entry E root file; mret (Mt.tally (option_list r) c t)) w.
Proof.
  unfold Legacy.process_entry, legacy_entry. cbv zeta.
  destruct (supported _); [|reflexivity].
  rewrite bind_assoc_run. apply bind_ext_run. intros skip w1.
  destruct skip; [reflexivity|].
  rewrite bind_assoc_run. apply bind_ext_run. intros r w2.
  rewrite bind_run. unfold mret, M_ret.
  change (Mt.tally (option_list (Some r)) c t)
    with (if 0 <? r then (c + 1, t + r) else (c, t)).
  destruct (0 <? r); reflexivity.
Qed.

Lemma legacy_for_each_as_tally entries c t w :
  Legacy.for_each E entries (c, t) w =
  (rs ← legacy_space_saved E entries; mret (Mt.tally rs c t)) w.
Proof.
  revert c t w. induction entries as [|[root file] rest IH]; intros c t w;
    [reflexivity|].
  cbn [Legacy.for_each legacy_space_saved].
  rewrite bind_run, legacy_process_entry_as_tally, !bind_run.
  destruct (legacy_entry E root file w) as [[r|e] w1]; [|reflexivity].
  cbv beta iota. cbn [mret M_ret].
  destruct (Mt.tally (option_list r) c t) as [c1 t1] eqn:Ht.
  rewrite IH, !bind_run.
  destruct (legacy_space_saved E rest w1) as [[rs|e] w2]; [|reflexivity].
  cbn. rewrite tally_app, Ht. reflexivity.
Qed.

(** The summary step of the legacy [process_directory] changes no file:
    the file system it ends with is the one its loop left. *)
Lemma legacy_process_directory_fs d w :
  fs (snd (Legacy.process_directory E d w))
  = fs (snd (legacy_space_saved E (walk_files E d (fs w)) w)).
Proof.
  unfold Legacy.process_directory. rewrite bind_run. unfold get_fs at 1.
  cbv beta iota. rewrite bind_run, legacy_for_each_as_tally, bind_run.
  destruct (legacy_space_saved E _ w) as [[rs|e] w1]; [|reflexivity].
  cbn [fst snd mret M_ret]. rewrite tally_spec, !Z.add_0_l.
  rewrite bind_run.
  destruct (negb (count_positive rs =? 0)).
  - unfold Legacy.send_slack_notification.
    rewrite legacy_post_and_report_run. reflexivity.
  - reflexivity.
Qed.

End LegacyLoop.

(** ** The batch summary *)

(** C2.  The summary counts the results that are strictly positive, not
    the files that were converted.  A FLAC file of 100 bytes whose encoding
    takes 100 bytes is transcoded and committed, and the task reports
    "Converted and renamed"; the summary of the batch then says that no
    file was converted. *)
Lemma converted_file_is_not_counted :
  fst (Mt.process_directory
         (Studio.env Studio.no_faults 100 [("/m", ["a.flac"])])
         "/m" Studio.one_flac) = Ok tt
  ∧ converted_tasks
      (log (snd (Mt.process_directory
                   (Studio.env Studio.no_faults 100 [("/m", ["a.flac"])])
                   "/m" Studio.one_flac))) = 1
  ∧ reported_summary
      (log (snd (Mt.process_directory
                   (Studio.env Studio.no_faults 100 [("/m", ["a.flac"])])
                   "/m" Studio.one_flac))) = Some (0, 0)
  ∧ reported_summary
      (log (snd (Mt.process_directory
                   (Studio.env Studio.no_faults 40 [("/m", ["a.flac"])])
                   "/m" Studio.one_flac))) = Some (1, 60)
  ∧ converted_tasks
      (log (snd (Legacy.process_directory
                   (Studio.env Studio.no_faults 100 [("/m", ["a.flac"])])
                   "/m" Studio.one_flac))) = 1
  ∧ head (log (snd (Legacy.process_directory
                      (Studio.env Studio.no_faults 100 [("/m", ["a.flac"])])
                      "/m" Studio.one_flac)))
    = Some (EPrint (MConversionAndRenamingCompleted 0)).
Proof. vm_compute. repeat split; reflexivity. Qed.

(** ** The eligibility of an [.mp3] file *)

Lemma get_mp3_bitrate_run E p w :
  Mt.get_mp3_bitrate E p w =
  match (if fault E (clock w) (OpMutagenFile p false) then None
         else bitrate_of (fs w) p) with
  | Some b => (Ok (Some b), tick w)
  | None =>
      if stdout_encodes E p
      then (Ok None,
            mkWorld (fs w) (S (clock w)) (EPrint (MBitrateError p) :: log w))
      else (Raise UnicodeEncodeError, tick w)
  end.
Proof.
  assert (Hh : ∀ w1, (print E (MBitrateError p);; mret (@None Z)) w1
                     = if stdout_encodes E p
                       then (Ok None,
                             mkWorld (fs w1) (clock w1)
                               (EPrint (MBitrateError p) :: log w1))
                       else (Raise UnicodeEncodeError, w1)).
  { intros w1. rewrite bind_run, print_run. cbn [names_of forallb].
    rewrite andb_true_r. destruct (stdout_encodes E p); reflexivity. }
  unfold Mt.get_mp3_bitrate, bitrate_of.
  unfold try_except. rewrite bind_run, mutagen_File_run.
  destruct (fault E (clock w) _); [apply Hh|].
  destruct (fs w !! p) as [f|]; [|apply Hh].
  cbn [mbind option_bind].
  destruct (f_media f) as [mi|]; [|apply Hh].
  cbn [mbind option_bind o_bitrate].
  destruct (mi_bitrate mi); [reflexivity|apply Hh].
Qed.

Lemma no_conversion_needed_iff E bitrate :
  Mt.no_conversion_needed E bitrate = true
  ↔ ∃ b, bitrate = Some b
         ∧ (b = desired_bitrate E ∨ (b ≠ 0 ∧ b < desired_bitrate E)).
Proof.
  unfold Mt.no_conversion_needed. destruct bitrate as [b|].
  - rewrite orb_true_iff, andb_true_iff, negb_true_iff.
    rewrite Z.eqb_eq, Z.eqb_neq, Z.ltb_lt. split.
    + intros H. exists b. split; [reflexivity|exact H].
    + intros (b' & [= <-] & H). exact H.
  - split; [discriminate|]. intros (b & H & _). discriminate.
Qed.

(** C5, as the code has it.  For an [.mp3] file the bitrate read gives a
    number or no value; it raises only when the read fails and the error
    line cannot be printed.  When it returns, the file is skipped exactly
    when the read gave a number that is the target, or that is not 0 and
    is strictly below the target; in every other case (no value, a higher
    bitrate, or 0) it is handed to [convert_to_mp3].  In camps_mt.py this
    is what [process_file] does once its metadata check has returned; in
    camps_legacy.py it is what the loop does, which changes no file when
    it skips and raises, instead of passing its counters on, only when the
    "lower bitrate" line cannot be printed. *)
Theorem mp3_eligibility E root file w :
  Py.lower (snd (Py.splitext (Py.join root file))) = ".mp3" →
  Py.lower (snd (Py.splitext file)) = ".mp3" →
  (fst (Mt.get_mp3_bitrate E (Py.join root file) w) = Raise UnicodeEncodeError
   ∧ stdout_encodes E (Py.join root file) = false)
  ∨ ∃ bitrate,
      fst (Mt.get_mp3_bitrate E (Py.join root file) w) = Ok bitrate
      ∧ (Mt.no_conversion_needed E bitrate = true
         ↔ ∃ b, bitrate = Some b
                ∧ (b = desired_bitrate E ∨ (b ≠ 0 ∧ b < desired_bitrate E)))
      ∧ (∀ w2,
           Mt.estimate_missing_metadata E (Py.join root file)
             (snd (Mt.get_mp3_bitrate E (Py.join root file) w)) = (Ok tt, w2) →
           Mt.process_file E (Py.join root file) w
           = if Mt.no_conversion_needed E bitrate then (Ok 0, w2)
             else Mt.convert_to_mp3 E (Py.join root file) w2)
      ∧ ∀ converted_count total_space_saved,
          if Mt.no_conversion_needed E bitrate
          then quiet w (snd (Legacy.process_entry E root file
                               (converted_count, total_space_saved) w))
               ∧ (fst (Legacy.process_entry E root file
                         (converted_count, total_space_saved) w)
                  = Ok (converted_count, total_space_saved)
                  ∨ (fst (Legacy.process_entry E root file
                            (converted_count, total_space_saved) w)
                     = Raise UnicodeEncodeError
                     ∧ bitrate ≠ Some (desired_bitrate E)
                     ∧ stdout_encodes E file = false))
          else Legacy.process_entry E root file
                 (converted_count, total_space_saved) w
               = (space_saved ← Legacy.convert_to_mp3 E (Py.join root file);
                  mret (Mt.tally [space_saved] converted_count
                          total_space_saved))
                   (snd (Legacy.get_mp3_bitrate E (Py.join root file) w)).
Proof.
  intros Hext Hfile. set (p := Py.join root file) in *.
  destruct (sat_get_mp3_bitrate E p w) as [Hq _].
  destruct (Mt.get_mp3_bitrate E p w) as [[bitrate|e] w1] eqn:Hget;
    cbn [fst snd] in *.
  2:{ left. rewrite get_mp3_bitrate_run in Hget.
      destruct (if fault E (clock w) _ then None else _); [discriminate|].
      destruct (stdout_encodes E p); [discriminate|].
      injection Hget as <- _. split; reflexivity. }
  right. exists bitrate. split; [reflexivity|].
  split; [apply no_conversion_needed_iff|].
  split.
  - intros w2 Hest. unfold Mt.process_file. cbv zeta. rewrite Hext.
    change (supported ".mp3") with true.
    change (".mp3" =? ".mp3")%string with true. cbv iota.
    rewrite !bind_run, Hget. rewrite !bind_run, Hest. cbn [mret M_ret].
    destruct (Mt.no_conversion_needed E bitrate); reflexivity.
  - intros c t. unfold Legacy.process_entry. cbv zeta. rewrite Hfile.
    change (supported ".mp3") with true.
    change (".mp3" =? ".mp3")%string with true. cbv iota. fold p.
    rewrite !bind_run.
    change (Legacy.get_mp3_bitrate E p w) with (Mt.get_mp3_bitrate E p w).
    rewrite Hget. cbn [snd]. unfold Mt.no_conversion_needed.
    destruct bitrate as [b|]; cbv beta iota.
    + destruct (b =? desired_bitrate E) eqn:Hb; cbn [orb].
      { cbn [mret M_ret]. split; [exact Hq|left; reflexivity]. }
      destruct (negb (b =? 0) && (b <? desired_bitrate E)).
      * rewrite bind_run, print_run. cbn [names_of forallb].
        rewrite andb_true_r. destruct (stdout_encodes E file).
        -- cbn. split; [|left; reflexivity].
           eapply quiet_trans; [exact Hq|].
           apply (quiet_note w1 (EPrint (MLowerBitrate file b))). exact I.
        -- cbn. split; [exact Hq|]. right. split; [reflexivity|].
           split; [|reflexivity]. intros [= ->].
           rewrite Z.eqb_refl in Hb. discriminate.
      * cbn [mret M_ret]. cbv beta iota. apply bind_ext_run. intros r w2.
        unfold Mt.tally. destruct (0 <? r); reflexivity.
    + cbn [mret M_ret]. cbv beta iota. apply bind_ext_run. intros r w2.
      unfold Mt.tally. destruct (0 <? r); reflexivity.
Qed.

(** The tagged MP3 file at 256 kbps of [Studio.tagged_mp3]: the read gives
    256 and the file is skipped. *)
Lemma mp3_eligibility_witness :
  Py.lower (snd (Py.splitext (Py.join "/m" "A - B.mp3"))) = ".mp3"
  ∧ Py.lower (snd (Py.splitext "A - B.mp3")) = ".mp3"
  ∧ ∃ bitrate,
      fst (Mt.get_mp3_bitrate (Studio.env Studio.no_faults 100 [])
             (Py.join "/m" "A - B.mp3") Studio.tagged_mp3) = Ok bitrate
      ∧ (Mt.no_conversion_needed (Studio.env Studio.no_faults 100 []) bitrate
         = true
         ↔ ∃ b, bitrate = Some b
                ∧ (b = desired_bitrate (Studio.env Studio.no_faults 100 [])
                   ∨ (b ≠ 0
                      ∧ b < desired_bitrate
                              (Studio.env Studio.no_faults 100 [])))).
Proof.
  assert (H1 : Py.lower (snd (Py.splitext (Py.join "/m" "A - B.mp3")))
               = ".mp3") by reflexivity.
  assert (H2 : Py.lower (snd (Py.splitext "A - B.mp3")) = ".mp3")
    by reflexivity.
  split; [exact H1|]. split; [exact H2|].
  destruct (mp3_eligibility (Studio.env Studio.no_faults 100 []) "/m"
              "A - B.mp3" Studio.tagged_mp3 H1 H2)
    as [[Hraise _]|(bitrate & Hb & Hiff & _)].
  - vm_compute in Hraise. discriminate Hraise.
  - exists bitrate. split; [exact Hb|exact Hiff].
Defined.

(** C5, as stated, fails: an [.mp3] file whose bitrate reads as 0 kbps
    is strictly below the target of 256 kbps, and is converted all the
    same: [bitrate and bitrate < desired_bitrate] is false for 0.  Both
    scripts do so. *)
Lemma zero_bitrate_mp3_is_reencoded :
  fst (Mt.get_mp3_bitrate (Studio.env Studio.no_faults 100 [])
         "/m/low.mp3" Studio.slow_mp3) = Ok (Some 0)
  ∧ 0 < desired_bitrate (Studio.env Studio.no_faults 100 [])
  ∧ Mt.no_conversion_needed (Studio.env Studio.no_faults 100 []) (Some 0)
    = false
  ∧ fst (Mt.process_file (Studio.env Studio.no_faults 100 [])
           "/m/low.mp3" Studio.slow_mp3) = Ok 4900
  ∧ reports_conversion "/m/low.mp3"
      (events_since Studio.slow_mp3
         (snd (Mt.process_file (Studio.env Studio.no_faults 100 [])
                 "/m/low.mp3" Studio.slow_mp3))) = true
  ∧ fst (Legacy.process_entry (Studio.env Studio.no_faults 100 []) "/m"
           "low.mp3" (0, 0) Studio.slow_mp3) = Ok (1, 4900).
Proof. vm_compute. repeat split. Qed.

(** ** The file system after [convert_to_mp3] *)

Section Outcome.
Context (E : Env) (metadata : string -> string -> M unit) (report : Msg -> M unit).
Hypothesis metadata_retags : ∀ p t w, retag t w (snd (metadata p t w)).
Hypothesis report_quiet :
  ∀ m w, fst (report m w) = Ok tt ∧ quiet w (snd (report m w)).

Lemma outcome_exit p w wi new :
  log wi = new ++ log w → unreported new →
  (∀ q, q ≠ p → q ≠ new_path_of p → q ≠ tmp_name E (2 + clock w) →
        fs wi !! q = fs w !! q) →
  (stdout_encodes E (new_path_of p) = true →
   p ≠ new_path_of p → fs wi !! p = fs w !! p) →
  ConvertOutcome E p w
    (fst ((print E (MErrorConverting p);;
           report (MErrorConverting p);; mret 0) wi))
    (snd ((print E (MErrorConverting p);;
           report (MErrorConverting p);; mret 0) wi)).
Proof.
  intros Hlog Hu Hframe Hsrc.
  rewrite bind_run, print_run. cbn [names_of forallb]. rewrite andb_true_r.
  destruct (stdout_encodes E p) eqn:Henc.
  2:{ cbn [fst snd]. split; [exact Hframe|]. right. exists new.
      split; [exact Hlog|]. split; [exact Hu|].
      split; [right; split; [reflexivity|exact Henc]|exact Hsrc]. }
  set (w1 := mkWorld (fs wi) (clock wi) (EPrint (MErrorConverting p) :: log wi)).
  rewrite (bind_run (report _) _ w1).
  destruct (report_quiet (MErrorConverting p) w1) as [Hr [Hfs (notes & Hl & Hn)]].
  destruct (report (MErrorConverting p) w1) as [r w2]. cbn in Hr, Hl, Hfs. subst r.
  cbn. split; [intros q H1 H2 H3; rewrite Hfs; auto|].
  right. exists (notes ++ EPrint (MErrorConverting p) :: new).
  split; [|split; [|split; [left; reflexivity|rewrite Hfs; exact Hsrc]]].
  - rewrite Hl, Hlog, <- app_assoc. reflexivity.
  - apply Forall_app. split.
    + eapply Forall_impl; [exact Hn|]. apply note_unreported.
    + constructor; [reflexivity|exact Hu].
Qed.

Ltac log_prefix lst base :=
  lazymatch lst with
  | base => constr:(@nil Event)
  | ?a ++ base => constr:(a)
  | ?x :: ?r => let r' := log_prefix r base in constr:(x :: r')
  end.

Ltac leave_with_raw Post Hexit l HU HF HS :=
  cbv beta iota; unfold tick; cbn [fs clock log];
  lazymatch goal with
  | |- Post (_ (mkWorld ?m' ?c' ?lst)) =>
      let n := log_prefix lst l in
      exact (Hexit m' c' n HU HF HS)
  end.

Ltac leave_with Post Hexit l HU HF HS :=
  cbv beta iota; unfold tick; cbn [fs clock log];
  lazymatch goal with
  | |- Post (_ (mkWorld ?m' ?c' ?lst)) =>
      let n := log_prefix lst l in
      exact (Hexit m' c' n HU HF (fun _ => HS))
  end.

Lemma skeleton_outcome p w :
  ConvertOutcome E p w (fst (convert_skeleton E metadata report p w))
    (snd (convert_skeleton E metadata report p w)).
Proof.
  set (Post := fun x : Res Z * World => ConvertOutcome E p w (fst x) (snd x)).
  change (Post (convert_skeleton E metadata report p w)).
  set (m := fs w). set (c := clock w). set (l := log w) in *.
  set (np := new_path_of p).
  set (t := tmp_name E (S (S c))).
  remember (m !! p) as src eqn:Hsrc.
  assert (Hexit : ∀ m' c' new,
             unreported new →
             (∀ q, q ≠ p → q ≠ np → q ≠ t → m' !! q = m !! q) →
             (stdout_encodes E np = true → p ≠ np → m' !! p = src) →
             Post ((print E (MErrorConverting p);;
                    report (MErrorConverting p);; mret 0)
                     (mkWorld m' c' (new ++ l)))).
  { intros m' c' new Hu HF HS. unfold Post. rewrite Hsrc in HS.
    apply (outcome_exit p w _ new); [reflexivity|exact Hu|exact HF|exact HS]. }
  assert (HU0 : unreported []) by constructor.
  assert (HF0 : ∀ q, q ≠ p → q ≠ np → q ≠ t → m !! q = m !! q) by reflexivity.
  assert (HS0 : p ≠ np → fs w !! p = src) by (intros _; exact (eq_sym Hsrc)).
  unfold convert_skeleton. fold (new_path_of p). fold np.
  set (h := fun _ : Exn => _).
  (* AudioSegment.from_file *)
  rewrite try_except_bind, from_file_run. unfold tick; cbn [fs clock log].
  fold m c l.
  destruct (fault E c (OpFromFile p)); [leave_with Post Hexit l HU0 HF0 HS0|].
  destruct (m !! p) as [f|] eqn:Hp; [|leave_with Post Hexit l HU0 HF0 HS0].
  subst src.
  destruct (f_audio f) as [a|] eqn:Ha; [|leave_with Post Hexit l HU0 HF0 HS0].
  (* os.stat *)
  rewrite try_except_bind, os_stat_run. unfold tick; cbn [fs clock log].
  rewrite Hp.
  destruct (fault E (S c) (OpStat p)); [leave_with Post Hexit l HU0 HF0 HS0|].
  (* NamedTemporaryFile *)
  rewrite try_except_bind, NamedTemporaryFile_run. unfold tick; cbn [fs clock log].
  destruct (fault E (S (S c)) OpMkTemp); [leave_with Post Hexit l HU0 HF0 HS0|].
  fold t.
  destruct (m !! t) as [?|] eqn:Ht; [leave_with Post Hexit l HU0 HF0 HS0|].
  cbv beta iota zeta.
  assert (Htp : t ≠ p) by (intros Heq; rewrite Heq in Ht; congruence).
  set (m1 := <[t:=empty_file E]> m).
  assert (HF1 : ∀ q, q ≠ p → q ≠ np → q ≠ t → m1 !! q = m !! q).
  { intros q _ _ Hq. unfold m1. rewrite lookup_insert_ne; done. }
  assert (HS1 : p ≠ np → m1 !! p = Some f).
  { intros _. unfold m1. rewrite lookup_insert_ne; done. }
  assert (HU1 : unreported [EFs (FsMkTemp t) m1]) by (repeat constructor).
  (* audio.export *)
  rewrite try_except_bind, audio_export_run. unfold tick; cbn [fs clock log].
  destruct (fault E (S (S (S c))) (OpExport t)); [leave_with Post Hexit l HU1 HF1 HS1|].
  cbv beta iota zeta.
  set (g := encoded E (S (S (S c))) a (m1 !! t)).
  set (m2 := <[t:=g]> m1).
  assert (H2p : m2 !! p = Some f).
  { unfold m2, m1. rewrite !lookup_insert_ne by done. exact Hp. }
  assert (H2t : m2 !! t = Some g) by (unfold m2; apply lookup_insert_eq).
  assert (HF2 : ∀ q, q ≠ p → q ≠ np → q ≠ t → m2 !! q = m !! q).
  { intros q _ _ Hq. unfold m2, m1. rewrite !lookup_insert_ne; done. }
  assert (HS2 : p ≠ np → m2 !! p = Some f) by (intros _; congruence).
  assert (HU2 : unreported [EFs (FsExport t) m2; EFs (FsMkTemp t) m1])
    by (repeat constructor).
  (* os.stat, getsize, getsize *)
  rewrite try_except_bind, os_stat_run. unfold tick; cbn [fs clock log].
  rewrite H2p.
  destruct (fault E _ (OpStat p)); [leave_with Post Hexit l HU2 HF2 HS2|].
  cbv beta iota zeta.
  rewrite try_except_bind, getsize_run. unfold tick; cbn [fs clock log].
  rewrite H2p.
  destruct (fault E _ (OpGetSize p)); [leave_with Post Hexit l HU2 HF2 HS2|].
  cbv beta iota zeta.
  rewrite try_except_bind, getsize_run. unfold tick; cbn [fs clock log].
  rewrite H2t.
  destruct (fault E _ (OpGetSize t)); [leave_with Post Hexit l HU2 HF2 HS2|].
  cbv beta iota zeta. cbn [st_mode st_uid st_gid].
  (* the metadata block *)
  rewrite try_except_bind.
  match goal with |- context [metadata p t ?w7] =>
    pose proof (metadata_retags p t w7) as Hm;
    destruct (metadata p t w7) as [r8 [m8 c8 l8]]
  end.
  destruct Hm as [[Hout Hat] (newm & Hl8 & Hnewm)]. cbn [snd fs clock log] in *.
  rewrite H2t in Hat.
  change (l8 = newm ++ ([EFs (FsExport t) m2; EFs (FsMkTemp t) m1] ++ l)) in Hl8.
  rewrite app_assoc in Hl8. subst l8.
  assert (H8p : m8 !! p = Some f) by (rewrite Hout; done).
  assert (HF8 : ∀ q, q ≠ p → q ≠ np → q ≠ t → m8 !! q = m !! q).
  { intros q H1 H2 H3. rewrite Hout by done. apply HF2; done. }
  assert (HS8 : p ≠ np → m8 !! p = Some f) by (intros _; congruence).
  assert (HU8 : unreported (newm ++ [EFs (FsExport t) m2; EFs (FsMkTemp t) m1])).
  { apply Forall_app. split; [|exact HU2].
    eapply Forall_impl; [exact Hnewm|]. intros [[]| |]; cbn; try reflexivity; tauto. }
  destruct r8 as [[]|e8]; [|leave_with Post Hexit l HU8 HF8 HS8].
  (* shutil.move *)
  rewrite try_except_bind, shutil_move_run. unfold tick; cbn [fs clock log].
  destruct (fault E c8 (OpMove t np)); [leave_with Post Hexit l HU8 HF8 HS8|].
  destruct (m8 !! t) as [g8|] eqn:H8t; [|leave_with Post Hexit l HU8 HF8 HS8].
  destruct Hat as (Hg1 & Hg2 & Hg3 & Hg4). cbn [encoded f_audio] in Hg4.
  cbv beta iota zeta.
  set (m9 := <[np:=g8]> (delete t m8)).
  assert (H9 : m9 !! np = Some g8) by apply lookup_insert_eq.
  assert (HF9 : ∀ m' x, m' = <[np:=x]> m9 ∨ m' = m9 →
                ∀ q, q ≠ p → q ≠ np → q ≠ t → m' !! q = m !! q).
  { intros m' x Hm' q H1 H2 H3.
    assert (m9 !! q = m !! q).
    { unfold m9. rewrite lookup_insert_ne, lookup_delete_ne by done.
      apply HF8; done. }
    destruct Hm' as [->| ->]; [rewrite lookup_insert_ne by done|]; assumption. }
  assert (HS9 : ∀ m' x, m' = <[np:=x]> m9 ∨ m' = m9 →
                p ≠ np → m' !! p = Some f).
  { intros m' x Hm' Hne.
    assert (m9 !! p = Some f).
    { unfold m9. rewrite lookup_insert_ne, lookup_delete_ne by done.
      congruence. }
    destruct Hm' as [->| ->]; [rewrite lookup_insert_ne by done|]; assumption. }
  assert (HUc : ∀ op after new, unreported new → unreported (EFs op after :: new)).
  { intros. constructor; [reflexivity|assumption]. }
  pose proof (HUc (FsMove t np) m9 _ HU8) as HU9.
  (* os.chmod *)
  rewrite try_except_bind, os_chmod_run. unfold tick; cbn [fs clock log].
  rewrite H9.
  destruct (fault E _ (OpChmod np));
    [leave_with Post Hexit l HU9 (HF9 m9 g8 (or_intror eq_refl))
       (HS9 m9 g8 (or_intror eq_refl))|].
  cbv beta iota zeta.
  set (g10 := with_mode (f_mode f) g8).
  set (m10 := <[np:=g10]> m9).
  assert (H10 : m10 !! np = Some g10) by apply lookup_insert_eq.
  pose proof (HUc (FsChmod np (f_mode f)) m10 _ HU9) as HU10.
  (* os.chown *)
  rewrite try_except_bind, os_chown_run. unfold tick; cbn [fs clock log].
  rewrite H10.
  destruct (fault E _ (OpChown np));
    [leave_with Post Hexit l HU10 (HF9 m10 g10 (or_introl eq_refl))
       (HS9 m10 g10 (or_introl eq_refl))|].
  cbv beta iota zeta.
  set (g11 := with_owner (f_uid f) (f_gid f) g10).
  set (m11 := <[np:=g11]> m10).
  assert (H11 : m11 !! np = Some g11) by apply lookup_insert_eq.
  pose proof (HUc (FsChown np (f_uid f) (f_gid f)) m11 _ HU10) as HU11.
  assert (HF11 : ∀ q, q ≠ p → q ≠ np → q ≠ t → m11 !! q = m !! q).
  { intros q H1 H2 H3. unfold m11, m10, m9.
    rewrite !lookup_insert_ne, lookup_delete_ne by done. apply HF8; done. }
  assert (HS11 : p ≠ np → m11 !! p = Some f).
  { intros Hne. unfold m11, m10, m9.
    rewrite !lookup_insert_ne, lookup_delete_ne by done. exact H8p. }
  assert (HT11 : t ≠ np → m11 !! t = None).
  { intros Hne. unfold m11, m10, m9.
    rewrite !lookup_insert_ne by done. apply lookup_delete_eq. }
  assert (Hsame : same_but_tags f g11).
  { repeat split. cbn. rewrite Hg4. cbn. symmetry. exact Ha. }
  (* os.remove, unless the source already has the new name *)
  rewrite try_except_bind.
  destruct (String.eqb p np) eqn:Hpn.
  - cbv beta iota delta [mret M_ret].
    rewrite try_except_bind, print_run. cbn [names_of forallb fs clock log].
    rewrite andb_true_r.
    destruct (stdout_encodes E np) eqn:Hnp;
      [|leave_with Post Hexit l HU11 HF11
          HS11].
    unfold try_except. cbv beta iota delta [mret M_ret].
    unfold Post, ConvertOutcome. cbn [fst snd fs clock log]. fold np.
    apply String.eqb_eq in Hpn.
    split; [exact HF11|]. left.
    exists (EFs (FsChown np (f_uid f) (f_gid f)) m11
            :: EFs (FsChmod np (f_mode f)) m10 :: EFs (FsMove t np) m9
            :: newm ++ [EFs (FsExport t) m2; EFs (FsMkTemp t) m1]), f, g11.
    split; [reflexivity|]. split; [exact HU11|]. split; [exact Hp|].
    split; [exact H11|]. split; [reflexivity|]. split; [exact Hsame|].
    split; [intros Hne; contradiction|exact HT11].
  - rewrite os_remove_run. unfold tick; cbn [fs clock log].
    destruct (fault E _ (OpRemove p));
      [leave_with Post Hexit l HU11 HF11 HS11|].
    assert (Hne : p ≠ np) by (apply String.eqb_neq; exact Hpn).
    rewrite (HS11 Hne).
    cbv beta iota zeta.
    set (m12 := delete p m11).
    assert (HF12 : ∀ q, q ≠ p → q ≠ np → q ≠ t → m12 !! q = m !! q).
    { intros q H1 H2 H3. unfold m12. rewrite lookup_delete_ne by done.
      apply HF11; done. }
    rewrite try_except_bind, print_run. cbn [names_of forallb fs clock log].
    rewrite andb_true_r.
    destruct (stdout_encodes E np) eqn:Hnp.
    2:{ assert (HS12 : false = true → p ≠ np → m12 !! p = Some f)
          by discriminate.
        pose proof (HUc (FsRemove p) m12 _ HU11) as HU12.
        leave_with_raw Post Hexit l HU12 HF12 HS12. }
    unfold try_except. cbv beta iota delta [mret M_ret].
    unfold Post, ConvertOutcome. cbn [fst snd fs clock log]. fold np.
    split; [exact HF12|].
    left.
    exists (EFs (FsRemove p) m12
            :: EFs (FsChown np (f_uid f) (f_gid f)) m11
            :: EFs (FsChmod np (f_mode f)) m10 :: EFs (FsMove t np) m9
            :: newm ++ [EFs (FsExport t) m2; EFs (FsMkTemp t) m1]), f, g11.
    split; [reflexivity|]. split; [apply HUc, HU11|]. split; [exact Hp|].
    split; [unfold m12; rewrite lookup_delete_ne by done; exact H11|].
    split; [reflexivity|]. split; [exact Hsame|].
    split; [intros _; apply lookup_delete_eq|].
    intros Htn. unfold m12. rewrite lookup_delete_ne by done. apply HT11, Htn.
Qed.

End Outcome.

Lemma convert_outcome s E p w :
  ConvertOutcome E p w (fst (convert_to_mp3_of s E p w))
    (snd (convert_to_mp3_of s E p w)).
Proof.
  destruct s; cbn [convert_to_mp3_of].
  - apply (skeleton_outcome E (Mt.copy_metadata E) (Mt.send_slack_message E)).
    + intros p' t w'. apply (sat_copy_metadata E p' t w').
    + apply mt_send_slack_message_quiet.
  - rewrite legacy_convert_is_skeleton.
    apply (skeleton_outcome E (legacy_metadata E) (Legacy.post_and_report E)).
    + intros p' t w'. apply (sat_legacy_metadata E p' t w').
    + apply legacy_post_and_report_quiet.
Qed.

(** X3. A conversion that is reported has replaced the source: the new
    path holds a file with the audio, the permission bits, the owner and
    the group the source had; the source path is gone unless it is the new
    path; and the scratch file is gone.  Both scripts, whatever calls
    fail. *)
Theorem reported_conversion_replaces_the_source s E p w :
  reports_conversion (new_path_of p)
    (events_since w (snd (convert_to_mp3_of s E p w))) = true →
  ∃ f g,
    fs w !! p = Some f
    ∧ fs (snd (convert_to_mp3_of s E p w)) !! new_path_of p = Some g
    ∧ f_audio g = f_audio f ∧ f_mode g = f_mode f
    ∧ f_uid g = f_uid f ∧ f_gid g = f_gid f
    ∧ (p ≠ new_path_of p →
       fs (snd (convert_to_mp3_of s E p w)) !! p = None)
    ∧ (tmp_name E (2 + clock w) ≠ new_path_of p →
       fs (snd (convert_to_mp3_of s E p w)) !! tmp_name E (2 + clock w)
       = None).
Proof.
  intros Hrep.
  destruct (convert_outcome s E p w) as [_ [Hok|Hfail]].
  - destruct Hok as (new & f & g & _ & _ & Hf & Hg & _ & (A & B & C & D) & Hp & Ht).
    exists f, g. repeat split; assumption.
  - destruct Hfail as (new & Hlog & Hu & _).
    rewrite (events_since_app _ _ _ Hlog) in Hrep.
    rewrite (unreported_no_conversion _ _ Hu) in Hrep. discriminate.
Qed.

(** The legacy script on a 100-byte FLAC file. *)
Lemma reported_conversion_replaces_the_source_witness :
  reports_conversion (new_path_of "/m/a.flac")
    (events_since Studio.one_flac
       (snd (convert_to_mp3_of CampsLegacy
               (Studio.env Studio.no_faults 40 []) "/m/a.flac"
               Studio.one_flac))) = true
  ∧ ∃ f g,
      fs Studio.one_flac !! "/m/a.flac" = Some f
      ∧ fs (snd (convert_to_mp3_of CampsLegacy
                   (Studio.env Studio.no_faults 40 []) "/m/a.flac"
                   Studio.one_flac)) !! new_path_of "/m/a.flac" = Some g
      ∧ f_audio g = f_audio f ∧ f_mode g = f_mode f
      ∧ f_uid g = f_uid f ∧ f_gid g = f_gid f.
Proof.
  assert (H : reports_conversion (new_path_of "/m/a.flac")
                (events_since Studio.one_flac
                   (snd (convert_to_mp3_of CampsLegacy
                           (Studio.env Studio.no_faults 40 []) "/m/a.flac"
                           Studio.one_flac))) = true)
    by (vm_compute; reflexivity).
  split; [exact H|].
  destruct (reported_conversion_replaces_the_source CampsLegacy
              (Studio.env Studio.no_faults 40 []) "/m/a.flac"
              Studio.one_flac H)
    as (f & g & Hf & Hg & A & B & C & D & _).
  exists f, g. repeat split; assumption.
Defined.

(** X4. A run of [convert_to_mp3] that does not report a conversion, on
    a stdout that can print the new path, returns 0, or raises because its
    error line cannot be printed; and when the new path is not the source
    path it leaves the source file exactly as it was: contents, tags,
    permission bits and ownership.  Both scripts, whatever calls fail.
    (The report of line 103 comes after the removal of line 101: were the
    new path not printable, the source would be gone with nothing
    reported.) *)
Theorem unreported_conversion_spares_the_source s E p w :
  reports_conversion (new_path_of p)
    (events_since w (snd (convert_to_mp3_of s E p w))) = false →
  stdout_encodes E (new_path_of p) = true →
  (fst (convert_to_mp3_of s E p w) = Ok 0
   ∨ (fst (convert_to_mp3_of s E p w) = Raise UnicodeEncodeError
      ∧ stdout_encodes E p = false))
  ∧ (p ≠ new_path_of p →
     fs (snd (convert_to_mp3_of s E p w)) !! p = fs w !! p).
Proof.
  intros Hrep Henc.
  destruct (convert_outcome s E p w) as [_ [Hok|Hfail]].
  - destruct Hok as (new & f & g & Hlog & _).
    change (log (snd (convert_to_mp3_of s E p w))
            = (EPrint (MConverted (new_path_of p)) :: new) ++ log w) in Hlog.
    rewrite (events_since_app _ _ _ Hlog) in Hrep.
    rewrite reports_conversion_in in Hrep; [discriminate|]. left. reflexivity.
  - destruct Hfail as (new & _ & _ & Hr & Hsrc). split; [exact Hr|].
    apply Hsrc, Henc.
Qed.

(** The FLAC file whose tags cannot be read, under the name "A - B.flac". *)
Lemma unreported_conversion_spares_the_source_witness :
  reports_conversion (new_path_of "/m/A - B.flac")
    (events_since Studio.torn_flac
       (snd (convert_to_mp3_of CampsMt
               (Studio.env (Studio.unreadable_tags "/m/A - B.flac") 100 [])
               "/m/A - B.flac" Studio.torn_flac))) = false
  ∧ stdout_encodes
      (Studio.env (Studio.unreadable_tags "/m/A - B.flac") 100 [])
      (new_path_of "/m/A - B.flac") = true
  ∧ fs (snd (convert_to_mp3_of CampsMt
               (Studio.env (Studio.unreadable_tags "/m/A - B.flac") 100 [])
               "/m/A - B.flac" Studio.torn_flac)) !! "/m/A - B.flac"
    = fs Studio.torn_flac !! "/m/A - B.flac".
Proof.
  assert (H1 : reports_conversion (new_path_of "/m/A - B.flac")
                 (events_since Studio.torn_flac
                    (snd (convert_to_mp3_of CampsMt
                            (Studio.env
                               (Studio.unreadable_tags "/m/A - B.flac") 100 [])
                            "/m/A - B.flac" Studio.torn_flac))) = false)
    by (vm_compute; reflexivity).
  assert (H2 : stdout_encodes
                 (Studio.env (Studio.unreadable_tags "/m/A - B.flac") 100 [])
                 (new_path_of "/m/A - B.flac") = true) by reflexivity.
  assert (H3 : "/m/A - B.flac" ≠ new_path_of "/m/A - B.flac")
    by (vm_compute; discriminate).
  split; [exact H1|]. split; [exact H2|].
  exact (proj2 (unreported_conversion_spares_the_source CampsMt
                  (Studio.env (Studio.unreadable_tags "/m/A - B.flac") 100 [])
                  "/m/A - B.flac" Studio.torn_flac H1 H2) H3).
Defined.

(** X5. [convert_to_mp3] touches three paths at most: the source, the
    new path and its scratch file.  Every other file is as it was, in both
    scripts, whether the conversion succeeds or fails. *)
Theorem convert_to_mp3_touches_three_paths s E p w q :
  q ≠ p → q ≠ new_path_of p → q ≠ tmp_name E (2 + clock w) →
  fs (snd (convert_to_mp3_of s E p w)) !! q = fs w !! q.
Proof.
  intros H1 H2 H3. destruct (convert_outcome s E p w) as [Hframe _].
  apply Hframe; assumption.
Qed.

(** The unrecognised file next to the FLAC file of [Studio.junk_mp3]. *)
Lemma convert_to_mp3_touches_three_paths_witness :
  "/m/x.mp3" ≠ "/m/y.flac"
  ∧ "/m/x.mp3" ≠ new_path_of "/m/y.flac"
  ∧ "/m/x.mp3"
    ≠ tmp_name (Studio.env Studio.no_faults 100 []) (2 + clock Studio.junk_mp3)
  ∧ fs (snd (convert_to_mp3_of CampsMt (Studio.env Studio.no_faults 100 [])
               "/m/y.flac" Studio.junk_mp3)) !! "/m/x.mp3"
    = fs Studio.junk_mp3 !! "/m/x.mp3".
Proof.
  assert (H1 : "/m/x.mp3" ≠ "/m/y.flac") by discriminate.
  assert (H2 : "/m/x.mp3" ≠ new_path_of "/m/y.flac")
    by (vm_compute; discriminate).
  assert (H3 : "/m/x.mp3"
               ≠ tmp_name (Studio.env Studio.no_faults 100 [])
                   (2 + clock Studio.junk_mp3))
    by (vm_compute; discriminate).
  split; [exact H1|]. split; [exact H2|]. split; [exact H3|].
  exact (convert_to_mp3_touches_three_paths CampsMt
           (Studio.env Studio.no_faults 100 []) "/m/y.flac" Studio.junk_mp3
           "/m/x.mp3" H1 H2 H3).
Defined.

(** ** The bitrate test and the tally *)

(** X6. [get_mp3_bitrate] changes no file, and is the same function in
    both scripts.  It gives [info.bitrate / 1000], truncated, when mutagen
    reads the file and its info has a bitrate, and prints nothing then.
    In every other case (the read raises, the file is missing, mutagen
    does not recognise it, the info has no bitrate) its handler prints one
    error line and gives no value; when stdout cannot encode the file name
    that print raises instead, and [get_mp3_bitrate] raises with it. *)
Theorem get_mp3_bitrate_reads_or_reports E p w :
  Legacy.get_mp3_bitrate E p w = Mt.get_mp3_bitrate E p w
  ∧ fs (snd (Mt.get_mp3_bitrate E p w)) = fs w
  ∧ ((∃ b, fault E (clock w) (OpMutagenFile p false) = false
           ∧ bitrate_of (fs w) p = Some b
           ∧ fst (Mt.get_mp3_bitrate E p w) = Ok (Some b)
           ∧ log (snd (Mt.get_mp3_bitrate E p w)) = log w)
     ∨ ((fault E (clock w) (OpMutagenFile p false) = true
         ∨ bitrate_of (fs w) p = None)
        ∧ if stdout_encodes E p
          then fst (Mt.get_mp3_bitrate E p w) = Ok None
               ∧ log (snd (Mt.get_mp3_bitrate E p w))
                 = EPrint (MBitrateError p) :: log w
          else fst (Mt.get_mp3_bitrate E p w) = Raise UnicodeEncodeError
               ∧ log (snd (Mt.get_mp3_bitrate E p w)) = log w)).
Proof.
  split; [reflexivity|]. rewrite get_mp3_bitrate_run.
  destruct (fault E (clock w) _).
  - destruct (stdout_encodes E p) eqn:Henc; (split; [reflexivity|]); right;
      (split; [left; reflexivity|]); rewrite ?Henc; split; reflexivity.
  - destruct (bitrate_of (fs w) p) as [b|].
    + split; [reflexivity|]. left. exists b. auto.
    + destruct (stdout_encodes E p) eqn:Henc; (split; [reflexivity|]); right;
        (split; [right; reflexivity|]); rewrite ?Henc; split; reflexivity.
Qed.

(** X7. With a positive target, an [.mp3] file whose [info.bitrate] is
    [br] bits per second passes the skip test exactly when
    [1000 <= br < (target + 1) * 1000]: the test is on whole kbps, so a
    file up to 999 bits per second above the target is skipped and a file
    below 1000 bits per second is converted.  (A negative [br] of 1000 or
    more in size passes as well.) *)
Theorem skip_range_in_bits_per_second E br :
  0 < desired_bitrate E →
  Mt.no_conversion_needed E (Some (kbps br)) = true
  ↔ (1000 <= br < (desired_bitrate E + 1) * 1000 ∨ br <= -1000).
Proof.
  intros Hd. rewrite no_conversion_needed_iff. unfold kbps.
  pose proof (Z.quot_rem' br 1000) as Hqr.
  assert (Hr : (0 <= br → 0 <= Z.rem br 1000 < 1000)
               ∧ (br <= 0 → -1000 < Z.rem br 1000 <= 0)).
  { split; intros H.
    - apply Z.rem_bound_pos; lia.
    - apply (Z.rem_bound_pos_neg br 1000); lia. }
  destruct Hr as [Hpos Hneg].
  split.
  - intros (b & [= <-] & H). lia.
  - intros H. exists (br ÷ 1000). split; [reflexivity|]. lia.
Qed.

Lemma skip_range_in_bits_per_second_witness :
  0 < desired_bitrate (Studio.env Studio.no_faults 100 [])
  ∧ (Mt.no_conversion_needed (Studio.env Studio.no_faults 100 [])
       (Some (kbps 256999)) = true
     ↔ (1000 <= 256999
          < (desired_bitrate (Studio.env Studio.no_faults 100 []) + 1) * 1000
        ∨ 256999 <= -1000)).
Proof.
  assert (H : 0 < desired_bitrate (Studio.env Studio.no_faults 100 []))
    by reflexivity.
  split; [exact H|].
  exact (skip_range_in_bits_per_second (Studio.env Studio.no_faults 100 [])
           256999 H).
Defined.

Lemma count_positive_cons r rs :
  count_positive (r :: rs) = (if 0 <? r then 1 else 0) + count_positive rs.
Proof.
  unfold count_positive. rewrite filter_cons.
  destruct (0 <? r) eqn:Hr.
  - apply Z.ltb_lt in Hr. rewrite decide_True by exact Hr.
    cbv iota. cbn [length]. rewrite Nat2Z.inj_succ. symmetry. apply Z.add_1_l.
  - apply Z.ltb_ge in Hr. rewrite decide_False by lia. cbv iota. reflexivity.
Qed.

Lemma sum_positive_cons r rs :
  sum_positive (r :: rs) = Z.max 0 r + sum_positive rs.
Proof. reflexivity. Qed.

Lemma count_sum_bounds rs :
  0 <= count_positive rs <= Z.of_nat (length rs)
  ∧ count_positive rs <= sum_positive rs.
Proof.
  induction rs as [|r rs IH].
  - change (count_positive []) with 0. cbn. lia.
  - rewrite count_positive_cons, sum_positive_cons. cbn [length].
    destruct (0 <? r) eqn:Hr;
      [apply Z.ltb_lt in Hr|apply Z.ltb_ge in Hr]; lia.
Qed.

Lemma sum_positive_zero rs :
  count_positive rs = 0 → sum_positive rs = 0.
Proof.
  induction rs as [|r rs IH]; [reflexivity|].
  rewrite count_positive_cons, sum_positive_cons.
  pose proof (count_sum_bounds rs) as Hb.
  destruct (0 <? r) eqn:Hr;
    [apply Z.ltb_lt in Hr|apply Z.ltb_ge in Hr]; intros H0; [lia|].
  rewrite IH by lia. lia.
Qed.

(** X8. The tally of [process_directory] over any list of results: the
    count grows by at most one per result, the total grows by at least the
    growth of the count, and the count stays as it was exactly when the
    total does.  So a summary never reports converted files with no space
    saved, nor space saved with no converted file. *)
Theorem tally_counts_and_total_agree results c t :
  c <= fst (Mt.tally results c t) <= c + Z.of_nat (length results)
  ∧ fst (Mt.tally results c t) - c <= snd (Mt.tally results c t) - t
  ∧ (fst (Mt.tally results c t) = c ↔ snd (Mt.tally results c t) = t).
Proof.
  rewrite tally_spec. cbn [fst snd].
  pose proof (count_sum_bounds results) as [H1 H2].
  pose proof (sum_positive_zero results).
  repeat split; lia.
Qed.

(** X9. The summary does not depend on the order of the results: two
    lists of results that are permutations of each other give the same
    count and the same total. *)
Theorem tally_ignores_order results results' c t :
  results ≡ₚ results' →
  Mt.tally results c t = Mt.tally results' c t.
Proof.
  intros H. revert c t.
  induction H as [|x l l' _ IH|x y l|l l' l'' _ IH1 _ IH2]; intros c t.
  - reflexivity.
  - rewrite !(tally_cons x). apply IH.
  - rewrite !tally_cons. f_equal; lia.
  - rewrite IH1. apply IH2.
Qed.

Lemma tally_ignores_order_witness :
  [5; -3; 7] ≡ₚ [7; 5; -3]
  ∧ Mt.tally [5; -3; 7] 0 0 = Mt.tally [7; 5; -3] 0 0.
Proof.
  assert (H : [5; -3; 7] ≡ₚ [7; 5; -3]).
  { apply (Permutation_cons_app [7] [-3] 5).
    apply (Permutation_cons_app [7] [] (-3)). reflexivity. }
  split; [exact H|].
  exact (tally_ignores_order [5; -3; 7] [7; 5; -3] 0 0 H).
Defined.

(** ** A source that does not decode *)

(** X10. When the source cannot be decoded (the decoder raises, the file
    is missing, or no decoder accepts it), [convert_to_mp3] does nothing
    to the file system, not even create its scratch file.  On a stdout
    that can print the source name it prints the error, posts it to the
    webhook, and returns 0; otherwise the handler's print raises, nothing
    is printed or posted, and [convert_to_mp3] raises.  Both scripts. *)
Theorem undecodable_source_is_left_alone s E p w :
  fault E (clock w) (OpFromFile p) = true ∨ (fs w !! p ≫= f_audio) = None →
  convert_to_mp3_of s E p w
  = if stdout_encodes E p
    then (Ok 0,
          mkWorld (fs w) (2 + clock w)
            (EPrint (slack_report E (S (clock w)))
             :: EPost (slack_webhook_url E) (MErrorConverting p)
             :: EPrint (MErrorConverting p) :: log w))
    else (Raise UnicodeEncodeError, mkWorld (fs w) (1 + clock w) (log w)).
Proof.
  intros H.
  assert (Hdec : ∃ e, AudioSegment_from_file E p w = (Raise e, tick w)).
  { rewrite from_file_run. destruct H as [->|H]; [eauto|].
    destruct (fault E (clock w) _); [eauto|].
    destruct (fs w !! p) as [f|]; [|eauto]. cbn in H. rewrite H. eauto. }
  destruct Hdec as [e He].
  destruct s; cbn [convert_to_mp3_of];
    [unfold Mt.convert_to_mp3|unfold Legacy.convert_to_mp3];
    rewrite try_except_bind, He, bind_run, print_run;
    cbn [names_of forallb]; rewrite andb_true_r;
    (destruct (stdout_encodes E p); [|reflexivity]);
    cbv beta iota; rewrite bind_run;
    [rewrite mt_send_slack_message_run|rewrite legacy_post_and_report_run];
    reflexivity.
Qed.

(** A cover image handed to [convert_to_mp3]. *)
Lemma undecodable_source_is_left_alone_witness :
  (fault (Studio.env Studio.no_faults 100 []) (clock Studio.cover)
     (OpFromFile "/m/cover.jpg") = true
   ∨ (fs Studio.cover !! "/m/cover.jpg" ≫= f_audio) = None)
  ∧ fs (snd (convert_to_mp3_of CampsLegacy
               (Studio.env Studio.no_faults 100 []) "/m/cover.jpg"
               Studio.cover)) = fs Studio.cover.
Proof.
  assert (H : fault (Studio.env Studio.no_faults 100 []) (clock Studio.cover)
                (OpFromFile "/m/cover.jpg") = true
              ∨ (fs Studio.cover !! "/m/cover.jpg" ≫= f_audio) = None)
    by (right; vm_compute; reflexivity).
  split; [exact H|].
  rewrite (undecodable_source_is_left_alone CampsLegacy
             (Studio.env Studio.no_faults 100 []) "/m/cover.jpg"
             Studio.cover H).
  reflexivity.
Defined.

(** ** The batch of camps_mt.py *)

Lemma mt_process_file_cases E p w :
  (∃ r, fst (Mt.process_file E p w) = Ok r)
  ∨ (Py.lower (snd (Py.splitext p)) = ".mp3"
     ∧ ∃ e, Mt.estimate_missing_metadata E p (snd (Mt.get_mp3_bitrate E p w))
            = (Raise e, snd (Mt.process_file E p w))
            ∧ fst (Mt.process_file E p w) = Raise e)
  ∨ (fst (Mt.process_file E p w) = Raise UnicodeEncodeError
     ∧ stdout_encodes E p = false).
Proof.
  assert (Hconv : ∀ w1,
            (∃ r, fst (Mt.convert_to_mp3 E p w1) = Ok r)
            ∨ (fst (Mt.convert_to_mp3 E p w1) = Raise UnicodeEncodeError
               ∧ stdout_encodes E p = false)).
  { intros w1. destruct (mt_convert_run E p w1) as (new & pre & k & _ & _ & Hout).
    destruct Hout as [(_ & _ & f & _ & Hr)|[_ [Hr|Hr]]]; eauto. }
  unfold Mt.process_file. cbv zeta.
  destruct (supported _); [|left; eexists; reflexivity].
  destruct (String.eqb_spec (Py.lower (snd (Py.splitext p))) ".mp3") as [Hx|Hx].
  - rewrite !bind_run.
    destruct (Mt.get_mp3_bitrate E p w) as [[b|e0] w1] eqn:Hget.
    2:{ right. right. rewrite get_mp3_bitrate_run in Hget.
        destruct (if fault E (clock w) _ then None else _); [discriminate|].
        destruct (stdout_encodes E p); [discriminate|].
        injection Hget as <- _. split; reflexivity. }
    cbn [snd]. rewrite !bind_run.
    destruct (Mt.estimate_missing_metadata E p w1) as [[[]|e] w2].
    + cbn [mret M_ret]. cbv beta iota.
      destruct (Mt.no_conversion_needed E b); [left; eexists; reflexivity|].
      destruct (Hconv w2) as [Hr|Hr]; [left; exact Hr|right; right; exact Hr].
    + right. left. split; [exact Hx|]. exists e. split; reflexivity.
  - cbn [mret M_ret]. rewrite bind_run. cbv beta iota.
    destruct (Hconv w) as [Hr|Hr]; [left; exact Hr|right; right; exact Hr].
Qed.

(** X11. A task of camps_mt.py raises in two ways only.  One is the
    metadata check that [process_file] runs on an [.mp3] file, after the
    bitrate read and outside any [try]: then the extension is [.mp3] up to
    case and the exception is the one the tag read or the tag update of
    lines 122-149 raised.  The other is the print of a handler
    ([get_mp3_bitrate], [convert_to_mp3]) on a file name that stdout
    cannot encode: then the exception is [UnicodeEncodeError]. *)
Theorem task_raises_in_the_metadata_check_or_a_print E p w e :
  fst (Mt.process_file E p w) = Raise e →
  (Py.lower (snd (Py.splitext p)) = ".mp3"
   ∧ fst (Mt.estimate_missing_metadata E p (snd (Mt.get_mp3_bitrate E p w)))
     = Raise e)
  ∨ (e = UnicodeEncodeError ∧ stdout_encodes E p = false).
Proof.
  intros H.
  destruct (mt_process_file_cases E p w)
    as [[r Hr]|[(Hx & e' & He & Hf)|[Hr Henc]]].
  - rewrite Hr in H. discriminate.
  - left. split; [exact Hx|]. rewrite He. cbn [fst]. congruence.
  - right. split; [congruence|exact Henc].
Qed.

(** The unrecognised file of [Studio.junk_mp3]. *)
Lemma task_raises_in_the_metadata_check_or_a_print_witness :
  fst (Mt.process_file (Studio.env Studio.no_faults 100 []) "/m/x.mp3"
         Studio.junk_mp3) = Raise AttributeError
  ∧ ((Py.lower (snd (Py.splitext "/m/x.mp3")) = ".mp3"
      ∧ fst (Mt.estimate_missing_metadata (Studio.env Studio.no_faults 100 [])
               "/m/x.mp3"
               (snd (Mt.get_mp3_bitrate (Studio.env Studio.no_faults 100 [])
                       "/m/x.mp3" Studio.junk_mp3)))
        = Raise AttributeError)
     ∨ (AttributeError = UnicodeEncodeError
        ∧ stdout_encodes (Studio.env Studio.no_faults 100 []) "/m/x.mp3"
          = false)).
Proof.
  assert (H : fst (Mt.process_file (Studio.env Studio.no_faults 100 [])
                     "/m/x.mp3" Studio.junk_mp3) = Raise AttributeError)
    by (vm_compute; reflexivity).
  split; [exact H|].
  exact (task_raises_in_the_metadata_check_or_a_print
           (Studio.env Studio.no_faults 100 []) "/m/x.mp3" Studio.junk_mp3
           AttributeError H).
Defined.

(** On a stdout with the ASCII codec, a FLAC file with an accent in its
    name is converted and committed, the source is removed, and then the
    report of line 103 raises, and so does the error line of the handler:
    the task raises, with nothing reported. *)
Example unprintable_name_escapes_the_handler :
  fst (Mt.process_file (Studio.ascii_env Studio.no_faults 40 [])
         Studio.accented_name Studio.accented_flac)
  = Raise UnicodeEncodeError
  ∧ fs (snd (Mt.process_file (Studio.ascii_env Studio.no_faults 40 [])
               Studio.accented_name Studio.accented_flac))
      !! Studio.accented_name = None
  ∧ (f_audio
       <$> fs (snd (Mt.process_file (Studio.ascii_env Studio.no_faults 40 [])
                      Studio.accented_name Studio.accented_flac))
             !! new_path_of Studio.accented_name) = Some (Some 1%nat)
  ∧ reports_conversion (new_path_of Studio.accented_name)
      (events_since Studio.accented_flac
         (snd (Mt.process_file (Studio.ascii_env Studio.no_faults 40 [])
                 Studio.accented_name Studio.accented_flac))) = false.
Proof. vm_compute. repeat split; reflexivity. Qed.

Lemma mt_executor_map_returns E files w :
  Forall (fun p => Py.lower (snd (Py.splitext p)) ≠ ".mp3"
                   ∧ stdout_encodes E p = true) files →
  ∃ results, fst (Mt.executor_map E files w) = Ok results
             ∧ length results = length files.
Proof.
  intros H. revert w. induction H as [|p files [Hp Henc] _ IH]; intros w.
  - exists []. split; reflexivity.
  - cbn [Mt.executor_map]. rewrite bind_run.
    destruct (mt_process_file_cases E p w) as [[r Hr]|[[Hx _]|[_ Hn]]];
      [|contradiction|congruence].
    destruct (Mt.process_file E p w) as [r1 w1]. cbn in Hr. subst r1.
    rewrite bind_run. destruct (IH w1) as (rs & Hrs & Hlen).
    destruct (Mt.executor_map E files w1) as [r2 w2]. cbn in Hrs. subst r2.
    exists (r :: rs). split; [reflexivity|]. cbn. rewrite Hlen. reflexivity.
Qed.

Lemma mt_process_directory_run E d w :
  Mt.process_directory E d w =
  match Mt.executor_map E
          (map (fun rf => Py.join (fst rf) (snd rf))
               (walk_files E d (fs w))) w with
  | (Ok results, w1) =>
      let c := count_positive results in
      let t := sum_positive results in
      (Ok tt,
       mkWorld (fs w1) (if 0 <? c then S (clock w1) else clock w1)
         (EPrint (MConversionCompleted c t)
          :: (if 0 <? c
              then [EPrint (slack_report E (clock w1));
                    EPost (slack_webhook_url E)
                      (MAudioConversionCompleted c t)]
              else [])
          ++ log w1))
  | (Raise e, w1) => (Raise e, w1)
  end.
Proof.
  unfold Mt.process_directory. rewrite bind_run. unfold get_fs at 1.
  cbv beta iota. rewrite !bind_run.
  destruct (Mt.executor_map E _ w) as [[results|e] w1]; [|reflexivity].
  rewrite tally_spec, !Z.add_0_l. cbv zeta. rewrite !bind_run.
  destruct (0 <? count_positive results).
  - rewrite mt_send_slack_notification_run. reflexivity.
  - reflexivity.
Qed.

(** X12. A tree in which no file has the extension [.mp3] (in any
    case), and whose file names stdout can encode, cannot make camps_mt.py
    fail: every task returns, one result per file, and [process_directory]
    returns and prints its summary. *)
Theorem batch_without_mp3_completes E d w :
  Forall (fun rf =>
            Py.lower (snd (Py.splitext (Py.join (fst rf) (snd rf)))) ≠ ".mp3"
            ∧ stdout_encodes E (Py.join (fst rf) (snd rf)) = true)
    (walk_files E d (fs w)) →
  ∃ results,
    fst (Mt.executor_map E
           (map (fun rf => Py.join (fst rf) (snd rf))
                (walk_files E d (fs w))) w) = Ok results
    ∧ length results = length (walk_files E d (fs w))
    ∧ fst (Mt.process_directory E d w) = Ok tt
    ∧ head (log (snd (Mt.process_directory E d w)))
      = Some (EPrint (MConversionCompleted (count_positive results)
                        (sum_positive results))).
Proof.
  intros H.
  destruct (mt_executor_map_returns E
              (map (fun rf => Py.join (fst rf) (snd rf))
                   (walk_files E d (fs w))) w) as (rs & Hrs & Hlen).
  { apply Forall_map. exact H. }
  exists rs. split; [exact Hrs|]. rewrite length_map in Hlen.
  split; [exact Hlen|]. rewrite mt_process_directory_run.
  destruct (Mt.executor_map E _ w) as [r1 w1]. cbn in Hrs. subst r1.
  split; reflexivity.
Qed.

(** A FLAC file and a cover image. *)
Lemma batch_without_mp3_completes_witness :
  Forall (fun rf =>
            Py.lower (snd (Py.splitext (Py.join (fst rf) (snd rf)))) ≠ ".mp3"
            ∧ stdout_encodes
                (Studio.env Studio.no_faults 40
                   [("/m", ["a.flac"; "cover.jpg"])])
                (Py.join (fst rf) (snd rf)) = true)
    (walk_files (Studio.env Studio.no_faults 40
                   [("/m", ["a.flac"; "cover.jpg"])]) "/m"
       (fs Studio.one_flac))
  ∧ fst (Mt.process_directory
           (Studio.env Studio.no_faults 40 [("/m", ["a.flac"; "cover.jpg"])])
           "/m" Studio.one_flac) = Ok tt.
Proof.
  assert (H : Forall (fun rf =>
                        Py.lower (snd (Py.splitext
                                         (Py.join (fst rf) (snd rf))))
                        ≠ ".mp3"
                        ∧ stdout_encodes
                            (Studio.env Studio.no_faults 40
                               [("/m", ["a.flac"; "cover.jpg"])])
                            (Py.join (fst rf) (snd rf)) = true)
                (walk_files (Studio.env Studio.no_faults 40
                               [("/m", ["a.flac"; "cover.jpg"])]) "/m"
                   (fs Studio.one_flac)))
    by (repeat constructor; vm_compute; discriminate).
  split; [exact H|].
  destruct (batch_without_mp3_completes
              (Studio.env Studio.no_faults 40 [("/m", ["a.flac"; "cover.jpg"])])
              "/m" Studio.one_flac H) as (rs & _ & _ & Hok & _).
  exact Hok.
Defined.

(** X13. When every task of camps_mt.py has returned, the summary step
    changes no file, prints the final line with the count and the total,
    and posts the summary to the webhook (once, before the final line)
    exactly when some space was saved, that is when the total is
    positive. *)
Theorem summary_is_posted_when_space_was_saved E d w results w1 :
  Mt.executor_map E
    (map (fun rf => Py.join (fst rf) (snd rf)) (walk_files E d (fs w))) w
  = (Ok results, w1) →
  fs (snd (Mt.process_directory E d w)) = fs w1
  ∧ log (snd (Mt.process_directory E d w))
    = EPrint (MConversionCompleted (count_positive results)
                (sum_positive results))
      :: (if 0 <? sum_positive results
          then [EPrint (slack_report E (clock w1));
                EPost (slack_webhook_url E)
                  (MAudioConversionCompleted (count_positive results)
                     (sum_positive results))]
          else [])
      ++ log w1.
Proof.
  intros H. rewrite mt_process_directory_run, H. cbv zeta. cbn [fst snd fs log].
  split; [reflexivity|].
  assert (Heq : (0 <? count_positive results) = (0 <? sum_positive results)).
  { pose proof (count_sum_bounds results) as [H1 H2].
    pose proof (sum_positive_zero results) as H3.
    destruct (0 <? count_positive results) eqn:Hc;
      [apply Z.ltb_lt in Hc|apply Z.ltb_ge in Hc]; symmetry;
      [apply Z.ltb_lt|apply Z.ltb_ge]; lia. }
  rewrite Heq. reflexivity.
Qed.

(** One FLAC file of 100 bytes that encodes to 40. *)
Lemma summary_is_posted_when_space_was_saved_witness :
  Mt.executor_map (Studio.env Studio.no_faults 40 [("/m", ["a.flac"])])
    (map (fun rf => Py.join (fst rf) (snd rf))
         (walk_files (Studio.env Studio.no_faults 40 [("/m", ["a.flac"])])
            "/m" (fs Studio.one_flac))) Studio.one_flac
  = (Ok [60],
     snd (Mt.convert_to_mp3 (Studio.env Studio.no_faults 40 [("/m", ["a.flac"])])
            "/m/a.flac" Studio.one_flac))
  ∧ fs (snd (Mt.process_directory
               (Studio.env Studio.no_faults 40 [("/m", ["a.flac"])]) "/m"
               Studio.one_flac))
    = fs (snd (Mt.convert_to_mp3
                 (Studio.env Studio.no_faults 40 [("/m", ["a.flac"])])
                 "/m/a.flac" Studio.one_flac)).
Proof.
  assert (H : Mt.executor_map
                (Studio.env Studio.no_faults 40 [("/m", ["a.flac"])])
                (map (fun rf => Py.join (fst rf) (snd rf))
                     (walk_files
                        (Studio.env Studio.no_faults 40 [("/m", ["a.flac"])])
                        "/m" (fs Studio.one_flac))) Studio.one_flac
              = (Ok [60],
                 snd (Mt.convert_to_mp3
                        (Studio.env Studio.no_faults 40 [("/m", ["a.flac"])])
                        "/m/a.flac" Studio.one_flac)))
    by (vm_compute; reflexivity).
  split; [exact H|].
  exact (proj1 (summary_is_posted_when_space_was_saved
                  (Studio.env Studio.no_faults 40 [("/m", ["a.flac"])]) "/m"
                  Studio.one_flac [60] _ H)).
Defined.

(** ** The metadata check of [process_file] *)

(** X14. The metadata check of [process_file] (lines 122-149) rewrites
    a tag only where it found nothing: every field other than artist and
    title is left as it was, and so is an artist or a title whose first
    value is not empty.  This holds whatever the check does next, return
    or raise. *)
Theorem metadata_check_keeps_filled_fields E p w key :
  (key = "artist" ∨ key = "title" →
   ∃ v vs, tag_of (fs w) p key = Some (v :: vs) ∧ v ≠ "") →
  tag_of (fs (snd (Mt.estimate_missing_metadata E p w))) p key
  = tag_of (fs w) p key.
Proof.
  intros Hkey. unfold Mt.estimate_missing_metadata.
  rewrite bind_run, mutagen_File_run.
  destruct (fault E (clock w) _); [reflexivity|].
  destruct (fs w !! p) as [f|] eqn:Hf; [|reflexivity].
  destruct (f_media f) as [mi|] eqn:Hm; [|reflexivity].
  assert (Htag : ∀ k, tag_of (fs w) p k = mi_tags mi !! k).
  { intros k. unfold tag_of. rewrite Hf. cbn. rewrite Hm. reflexivity. }
  rewrite bind_run. unfold Mt.first_value at 1. cbn [o_tags].
  destruct (default [""] (mi_tags mi !! "artist")) as [|artist ar] eqn:Ha;
    [reflexivity|].
  cbn [mret M_ret]. cbv beta iota.
  rewrite bind_run. unfold Mt.first_value at 1. cbn [o_tags].
  destruct (default [""] (mi_tags mi !! "title")) as [|title tr] eqn:Ht;
    [reflexivity|].
  cbn [mret M_ret]. cbv beta iota.
  assert (Hart : key = "artist" → Py.truthy artist = true).
  { intros ->. destruct Hkey as (v & vs & Hv & Hne); [left; reflexivity|].
    rewrite Htag in Hv. rewrite Hv in Ha. cbn in Ha. injection Ha as <- _.
    unfold Py.truthy. apply negb_true_iff, String.eqb_neq, Hne. }
  assert (Htit : key = "title" → Py.truthy title = true).
  { intros ->. destruct Hkey as (v & vs & Hv & Hne); [right; reflexivity|].
    rewrite Htag in Hv. rewrite Hv in Ht. cbn in Ht. injection Ht as <- _.
    unfold Py.truthy. apply negb_true_iff, String.eqb_neq, Hne. }
  destruct (negb (Py.truthy artist) || negb (Py.truthy title)) eqn:Hneed;
    [|reflexivity].
  cbv zeta.
  destruct (Py.split1 " - " _) as [[ea et]|].
  2:{ rewrite bind_run, print_run. destruct (forallb _ _); [|reflexivity].
      cbv beta iota. rewrite mt_send_slack_message_run. reflexivity. }
  assert (Hstep : ∀ (v : Var (option MObj)) w1,
            fs w1 = fs w →
            (∀ o1, v = Bound (Some o1) →
                   o_path o1 = p ∧ o_tags o1 !! key = mi_tags mi !! key) →
            tag_of (fs (snd ((obj_save E v;;
                              print E (MEstimated p ea et);;
                              Mt.send_slack_message E (MEstimated p ea et))
                               w1))) p key
            = tag_of (fs w) p key).
  { intros v w1 Hfs Hv. rewrite bind_run.
    destruct v as [|[o1|]];
      [unfold obj_save, raise; cbn [snd]; rewrite Hfs; reflexivity|
      |unfold obj_save, raise; cbn [snd]; rewrite Hfs; reflexivity].
    destruct (Hv o1 eq_refl) as [Hp Hk].
    rewrite obj_save_run, Hp, Hfs, Hf.
    destruct (fault E (clock w1) _);
      [unfold tick; cbn [snd fs]; rewrite Hfs; reflexivity|].
    cbv zeta beta iota. rewrite bind_run, print_run.
    destruct (forallb _ _);
      [cbv beta iota; rewrite mt_send_slack_message_run|];
      cbn [snd fs]; unfold tag_of at 1; rewrite lookup_insert_eq; cbn;
      rewrite Hk; symmetry; apply Htag. }
  assert (Hset : ∀ (o1 : MObj) k v w1,
            obj_setitem E (Bound (Some o1)) k v w1
            = if fault E (clock w1) (OpSetItem (o_path o1) k)
              then (Raise (ExternalError (OpSetItem (o_path o1) k)), tick w1)
              else (Ok (Bound (Some (mkMObj (o_path o1) (o_bitrate o1)
                                       (<[k := [v]]> (o_tags o1))))),
                    tick w1)).
  { intros o1 k v w1. unfold obj_setitem, tick. unfold_run.
    destruct (fault E (clock w1) _); reflexivity. }
  rewrite bind_run.
  destruct (negb (Py.truthy artist)) eqn:Hna.
  - rewrite Hset.
    destruct (fault E _ _); [reflexivity|]. cbv beta iota.
    rewrite bind_run.
    destruct (negb (Py.truthy title)) eqn:Hnt.
    + rewrite Hset. cbn [o_path o_tags o_bitrate].
      destruct (fault E _ _); [reflexivity|]. cbv beta iota.
      apply Hstep; [reflexivity|]. intros o1 [= <-]. cbn [o_path o_tags].
      split; [reflexivity|].
      rewrite !lookup_insert_ne; [reflexivity| |].
      * intros <-. rewrite Hart in Hna by reflexivity. discriminate.
      * intros <-. rewrite Htit in Hnt by reflexivity. discriminate.
    + cbn [mret M_ret]. cbv beta iota.
      apply Hstep; [reflexivity|]. intros o1 [= <-]. cbn [o_path o_tags].
      split; [reflexivity|].
      rewrite lookup_insert_ne; [reflexivity|].
      intros <-. rewrite Hart in Hna by reflexivity. discriminate.
  - cbn [mret M_ret]. cbv beta iota. rewrite bind_run.
    destruct (negb (Py.truthy title)) eqn:Hnt.
    + rewrite Hset. cbn [o_path o_tags o_bitrate].
      destruct (fault E _ _); [reflexivity|]. cbv beta iota.
      apply Hstep; [reflexivity|]. intros o1 [= <-]. cbn [o_path o_tags].
      split; [reflexivity|].
      rewrite lookup_insert_ne; [reflexivity|].
      intros <-. rewrite Htit in Hnt by reflexivity. discriminate.
    + discriminate.
Qed.

(** The artist "Old" of [Studio.half_tagged_mp3], whose title is
    missing. *)
Lemma metadata_check_keeps_filled_fields_witness :
  ("artist" = "artist" ∨ "artist" = "title" →
   ∃ v vs, tag_of (fs Studio.half_tagged_mp3) "/m/New - Name.mp3" "artist"
           = Some (v :: vs) ∧ v ≠ "")
  ∧ tag_of (fs (snd (Mt.estimate_missing_metadata
                       (Studio.env Studio.no_faults 100 [])
                       "/m/New - Name.mp3" Studio.half_tagged_mp3)))
      "/m/New - Name.mp3" "artist"
    = tag_of (fs Studio.half_tagged_mp3) "/m/New - Name.mp3" "artist".
Proof.
  assert (H : "artist" = "artist" ∨ "artist" = "title" →
              ∃ v vs, tag_of (fs Studio.half_tagged_mp3) "/m/New - Name.mp3"
                        "artist" = Some (v :: vs) ∧ v ≠ "").
  { intros _. exists "Old", []. split; [vm_compute; reflexivity|discriminate]. }
  split; [exact H|].
  exact (metadata_check_keeps_filled_fields
           (Studio.env Studio.no_faults 100 []) "/m/New - Name.mp3"
           Studio.half_tagged_mp3 "artist" H).
Defined.
(** ** Paths and names *)

Lemma append_nil s : "" +:+ s = s.
Proof. reflexivity. Qed.

Lemma append_cons c a b : String c a +:+ b = String c (a +:+ b).
Proof. reflexivity. Qed.

Lemma append_empty_r s : s +:+ "" = s.
Proof.
  induction s as [|c s IH]; [reflexivity|]. rewrite append_cons, IH.
  reflexivity.
Qed.

Lemma append_assoc a b c : (a +:+ b) +:+ c = a +:+ (b +:+ c).
Proof.
  induction a as [|x a IH]; [reflexivity|]. rewrite !append_cons, IH.
  reflexivity.
Qed.

Lemma append_length a b :
  String.length (a +:+ b) = (String.length a + String.length b)%nat.
Proof.
  induction a as [|x a IH]; [reflexivity|]. rewrite append_cons.
  cbn [String.length]. rewrite IH. reflexivity.
Qed.

Lemma append_cancel_l a x y : a +:+ x = a +:+ y → x = y.
Proof.
  induction a as [|c a IH]; [auto|]. rewrite !append_cons.
  intros [= H]. apply IH, H.
Qed.

Lemma take_drop n s : Py.take n s +:+ Py.drop n s = s.
Proof.
  revert s. induction n as [|n IH]; intros [|c s]; cbn [Py.take Py.drop];
    try reflexivity.
  rewrite append_cons, IH. reflexivity.
Qed.

Lemma take_length n s :
  (n <= String.length s)%nat → String.length (Py.take n s) = n.
Proof.
  revert s. induction n as [|n IH]; intros [|c s]; cbn; intros H;
    try reflexivity; try lia.
  f_equal. apply IH. lia.
Qed.

Lemma take_append a b : Py.take (String.length a) (a +:+ b) = a.
Proof.
  induction a as [|c a IH]; [reflexivity|].
  rewrite append_cons. cbn [String.length Py.take]. rewrite IH. reflexivity.
Qed.

Lemma drop_append a b : Py.drop (String.length a) (a +:+ b) = b.
Proof.
  induction a as [|c a IH]; [reflexivity|].
  rewrite append_cons. cbn [String.length Py.drop]. exact IH.
Qed.

Lemma drop_append_le n a b :
  (n <= String.length a)%nat → Py.drop n (a +:+ b) = Py.drop n a +:+ b.
Proof.
  revert a. induction n as [|n IH]; intros [|c a]; cbn [String.length];
    intros H; try reflexivity; try lia.
  rewrite append_cons. cbn [Py.drop]. apply IH. lia.
Qed.

Lemma drop_length n s :
  String.length (Py.drop n s) = (String.length s - n)%nat.
Proof.
  revert s. induction n as [|n IH]; intros [|c s]; cbn; try reflexivity; try lia.
  apply IH.
Qed.

Lemma has_non_dot_append a b n :
  (n <= String.length a)%nat →
  Py.has_non_dot (a +:+ b) n = Py.has_non_dot a n.
Proof.
  revert a. induction n as [|n IH]; intros [|c a]; cbn [String.length];
    intros H; try lia.
  - destruct b; reflexivity.
  - reflexivity.
  - rewrite append_cons. cbn [Py.has_non_dot].
    destruct (Ascii.eqb c "."); [apply IH; lia|reflexivity].
Qed.

Lemma rfind_from_spec c s i last :
  -1 <= Py.rfind c s < Z.of_nat (String.length s)
  ∧ Py.rfind_from c s i last
    = if Py.rfind c s =? -1 then last else i + Py.rfind c s.
Proof.
  revert i last. induction s as [|d s IH]; intros i last.
  - cbn. split; [lia|reflexivity].
  - unfold Py.rfind. cbn [Py.rfind_from String.length].
    destruct (IH (i + 1) (if Ascii.eqb c d then i else last)) as [Hb ->].
    destruct (IH (0 + 1) (if Ascii.eqb c d then 0 else -1)) as [_ ->].
    destruct (Py.rfind c s =? -1) eqn:Hn.
    + destruct (Ascii.eqb c d); cbn [Z.eqb]; split; try lia; try reflexivity.
    + apply Z.eqb_neq in Hn.
      assert (H1 : (0 + 1 + Py.rfind c s =? -1) = false) by (apply Z.eqb_neq; lia).
      rewrite H1. split; lia.
Qed.

Lemma rfind_bounds c s : -1 <= Py.rfind c s < Z.of_nat (String.length s).
Proof. apply (rfind_from_spec c s 0 0). Qed.

Lemma rfind_from_append c a b i last :
  Py.rfind_from c (a +:+ b) i last
  = Py.rfind_from c b (i + Z.of_nat (String.length a)) (Py.rfind_from c a i last).
Proof.
  revert i last. induction a as [|d a IH]; intros i last.
  - rewrite append_nil. cbn. rewrite Z.add_0_r. reflexivity.
  - rewrite append_cons. cbn [Py.rfind_from String.length]. rewrite IH.
    f_equal. lia.
Qed.

Lemma rfind_append c a b :
  Py.rfind c (a +:+ b)
  = if Py.rfind c b =? -1 then Py.rfind c a
    else Z.of_nat (String.length a) + Py.rfind c b.
Proof.
  unfold Py.rfind at 1. rewrite rfind_from_append.
  destruct (rfind_from_spec c b (0 + Z.of_nat (String.length a))
              (Py.rfind_from c a 0 (-1))) as [_ ->].
  reflexivity.
Qed.

Lemma splitext_append p : fst (Py.splitext p) +:+ snd (Py.splitext p) = p.
Proof.
  unfold Py.splitext. cbv zeta.
  destruct (_ && _); cbn [fst snd]; [apply take_drop|apply append_empty_r].
Qed.

Lemma drop_append_add n a b :
  Py.drop (String.length a + n) (a +:+ b) = Py.drop n b.
Proof.
  induction a as [|c a IH]; [reflexivity|].
  rewrite append_cons. cbn [String.length Nat.add Py.drop]. exact IH.
Qed.

(** [splitext] of a name put together from a root and an extension. *)
Lemma splitext_of_parts root ext :
  Py.rfind "/" ext = -1 → Py.rfind "." ext = 0 →
  Py.splitext (root +:+ ext)
  = if Py.has_non_dot (Py.drop (Z.to_nat (Py.rfind "/" root + 1)) root)
         (Z.to_nat (Z.of_nat (String.length root) - (Py.rfind "/" root + 1)))
    then (root, ext) else (root +:+ ext, "").
Proof.
  intros Hsep Hdot. unfold Py.splitext. cbv zeta.
  rewrite !rfind_append, Hsep, Hdot. cbn [Z.eqb Pos.eqb]. rewrite Z.add_0_r.
  pose proof (rfind_bounds "/" root) as Hb.
  assert (Hlt : (Py.rfind "/" root <? Z.of_nat (String.length root)) = true)
    by (apply Z.ltb_lt; lia).
  rewrite Hlt. cbn [andb].
  rewrite drop_append_le by lia.
  rewrite has_non_dot_append by (rewrite drop_length; lia).
  rewrite Nat2Z.id, take_append, drop_append. reflexivity.
Qed.

(** A name with an extension, taken apart. *)
Lemma splitext_parts p :
  snd (Py.splitext p) ≠ "" →
  Py.rfind "/" (snd (Py.splitext p)) = -1
  ∧ Py.rfind "." (snd (Py.splitext p)) = 0.
Proof.
  pose proof (splitext_append p) as Happ. revert Happ.
  unfold Py.splitext. cbv zeta.
  destruct (_ && _) eqn:Hc; cbn [fst snd]; [|contradiction]. intros Happ _.
  apply andb_true_iff in Hc as [Hlt _]. apply Z.ltb_lt in Hlt.
  set (dot := Py.rfind "." p) in *. set (sep := Py.rfind "/" p) in *.
  set (root := Py.take (Z.to_nat dot) p) in *.
  set (ext := Py.drop (Z.to_nat dot) p) in *.
  pose proof (rfind_bounds "." p) as Hbd. fold dot in Hbd.
  pose proof (rfind_bounds "/" p) as Hbs. fold sep in Hbs.
  assert (Hlen : Z.of_nat (String.length root) = dot).
  { unfold root. rewrite take_length by lia. lia. }
  pose proof (rfind_bounds "/" root) as Hr1.
  pose proof (rfind_bounds "." root) as Hr2.
  pose proof (rfind_bounds "/" ext) as He1.
  pose proof (rfind_bounds "." ext) as He2.
  assert (Hs : sep = Py.rfind "/" (root +:+ ext)) by (rewrite Happ; reflexivity).
  assert (Hd : dot = Py.rfind "." (root +:+ ext)) by (rewrite Happ; reflexivity).
  rewrite rfind_append in Hs, Hd.
  split.
  - destruct (Py.rfind "/" ext =? -1) eqn:H1; [apply Z.eqb_eq, H1|].
    apply Z.eqb_neq in H1. lia.
  - destruct (Py.rfind "." ext =? -1) eqn:H1; [lia|].
    apply Z.eqb_neq in H1. lia.
Qed.

Lemma splitext_new_path p :
  snd (Py.splitext p) ≠ "" →
  Py.splitext (new_path_of p) = (fst (Py.splitext p), ".mp3").
Proof.
  intros Hne. destruct (splitext_parts p Hne) as [Hs Hd].
  pose proof (splitext_of_parts (fst (Py.splitext p)) (snd (Py.splitext p))
                Hs Hd) as Hp.
  rewrite splitext_append in Hp.
  unfold new_path_of.
  rewrite (splitext_of_parts (fst (Py.splitext p)) ".mp3")
    by reflexivity.
  destruct (Py.has_non_dot _ _); [reflexivity|].
  rewrite Hp in Hne. cbn [snd] in Hne. contradiction.
Qed.

(** X15. The name [convert_to_mp3] writes to.  For a path with an
    extension, the new path has the same root and the extension [.mp3]:
    it is a supported name, and converting it again would write to the
    same path. *)
Theorem new_path_is_an_mp3_name p :
  snd (Py.splitext p) ≠ "" →
  Py.splitext (new_path_of p) = (fst (Py.splitext p), ".mp3")
  ∧ supported (Py.lower (snd (Py.splitext (new_path_of p)))) = true
  ∧ new_path_of (new_path_of p) = new_path_of p.
Proof.
  intros Hne. pose proof (splitext_new_path p Hne) as H.
  split; [exact H|]. split; [rewrite H; reflexivity|].
  change (new_path_of (new_path_of p))
    with (fst (Py.splitext (new_path_of p)) +:+ ".mp3").
  rewrite H. reflexivity.
Qed.

Lemma new_path_is_an_mp3_name_witness :
  snd (Py.splitext "/m/a.b/Song.FLAC") ≠ ""
  ∧ Py.splitext (new_path_of "/m/a.b/Song.FLAC") = ("/m/a.b/Song", ".mp3").
Proof.
  assert (H : snd (Py.splitext "/m/a.b/Song.FLAC") ≠ "")
    by (vm_compute; discriminate).
  split; [exact H|].
  exact (proj1 (new_path_is_an_mp3_name "/m/a.b/Song.FLAC" H)).
Defined.

(** X16. The source is its own new path exactly when its extension is
    [.mp3], letter for letter: only then does [convert_to_mp3] skip the
    removal of line 101.  A file named [x.MP3] is supported, is written to
    [x.mp3], and is removed. *)
Theorem source_is_the_new_path_iff p :
  p = new_path_of p ↔ snd (Py.splitext p) = ".mp3".
Proof.
  unfold new_path_of. split.
  - intros H. pose proof (splitext_append p) as Happ.
    rewrite H in Happ at 3. apply append_cancel_l in Happ. exact Happ.
  - intros H. rewrite <- H. symmetry. apply splitext_append.
Qed.

(** ** Artist and title from a name *)

Lemma startswith_append sep s :
  Py.startswith sep s = true →
  s = sep +:+ Py.drop (String.length sep) s.
Proof.
  revert s. induction sep as [|a sep IH]; intros s; [reflexivity|].
  destruct s as [|b s]; cbn [Py.startswith]; [discriminate|].
  intros H. apply andb_true_iff in H as [Hab Hs].
  apply Ascii.eqb_eq in Hab. subst b.
  rewrite append_cons. cbn [String.length Py.drop]. f_equal. apply IH, Hs.
Qed.

Lemma startswith_take sep s n :
  Py.startswith sep (Py.take n s) = true → Py.startswith sep s = true.
Proof.
  revert s n. induction sep as [|a sep IH]; intros s n; [reflexivity|].
  destruct n as [|n], s as [|b s]; cbn [Py.take Py.startswith];
    try discriminate.
  intros H. apply andb_true_iff in H as [Hab Hs].
  rewrite Hab. cbn [andb]. exact (IH s n Hs).
Qed.

Lemma find_first sep s i :
  Py.find sep s = Some i →
  s = Py.take i s +:+ sep +:+ Py.drop (i + String.length sep) s
  ∧ (sep ≠ "" → Py.find sep (Py.take i s) = None).
Proof.
  revert i. induction s as [|c s IH]; intros i.
  - cbn [Py.find]. destruct (Py.startswith sep "") eqn:Hst; [|discriminate].
    intros [= <-]. split.
    + rewrite append_nil. apply (startswith_append sep "" Hst).
    + intros Hne. destruct sep; [contradiction|discriminate].
  - cbn [Py.find]. destruct (Py.startswith sep (String c s)) eqn:Hst.
    + intros [= <-]. split.
      * cbn [Py.take Nat.add]. rewrite append_nil.
        apply (startswith_append sep _ Hst).
      * intros Hne. cbn [Py.take Py.find].
        destruct sep; [contradiction|reflexivity].
    + destruct (Py.find sep s) as [j|] eqn:Hj; [|discriminate].
      intros [= <-]. destruct (IH j eq_refl) as [Hs Hnone].
      split.
      * cbn [Py.take Nat.add Py.drop]. rewrite append_cons. f_equal. exact Hs.
      * intros Hne. cbn [Py.take Py.find]. rewrite (Hnone Hne).
        destruct (Py.startswith sep (String c (Py.take j s))) eqn:Hst';
          [|reflexivity].
        apply (startswith_take sep (String c s) (S j)) in Hst'.
        rewrite Hst in Hst'. discriminate.
Qed.

(** X17. The split that estimates artist and title from a name
    ([name.split(sep, 1)], with [sep] the separator [" - "]): the two
    parts, with the separator between them, are the name, and the first
    part holds no separator.  So the artist is the text before the first
    separator, and a second separator stays in the title. *)
Theorem split_is_at_the_first_separator sep name artist title :
  Py.split1 sep name = Some (artist, title) →
  name = artist +:+ sep +:+ title
  ∧ (sep ≠ "" → Py.contains sep artist = false).
Proof.
  unfold Py.split1, Py.contains.
  destruct (Py.find sep name) as [i|] eqn:Hi; [|discriminate].
  intros [= <- <-]. destruct (find_first sep name i Hi) as [Hs Hnone].
  split; [exact Hs|]. intros Hne. rewrite (Hnone Hne). reflexivity.
Qed.

Lemma split_is_at_the_first_separator_witness :
  Py.split1 " - " (stem "/m/A - B - C.flac") = Some ("A", "B - C")
  ∧ stem "/m/A - B - C.flac" = "A" +:+ " - " +:+ "B - C".
Proof.
  assert (H : Py.split1 " - " (stem "/m/A - B - C.flac") = Some ("A", "B - C"))
    by reflexivity.
  split; [exact H|].
  exact (proj1 (split_is_at_the_first_separator " - "
                  (stem "/m/A - B - C.flac") "A" "B - C" H)).
Defined.

(** ** The paths of a walk *)

Lemma startswith_sep_rfind b :
  Py.startswith "/" b = true → Py.rfind "/" b ≠ -1.
Proof.
  destruct b as [|c b]; cbn [Py.startswith]; [discriminate|].
  rewrite andb_true_r. intros H. unfold Py.rfind. cbn [Py.rfind_from].
  rewrite H. destruct (rfind_from_spec "/" b (0 + 1) 0) as [Hb ->].
  destruct (Py.rfind "/" b =? -1); lia.
Qed.

Lemma ends_with_sep_rfind a :
  Py.ends_with_sep a = true →
  Py.rfind "/" a = Z.of_nat (String.length a) - 1.
Proof.
  induction a as [|c a IH]; [discriminate|].
  destruct a as [|d a].
  - cbn [Py.ends_with_sep]. intros H. apply Ascii.eqb_eq in H. subst c.
    reflexivity.
  - intros H. change (Py.ends_with_sep (String d a) = true) in H.
    specialize (IH H).
    change (Py.rfind "/" (String c (String d a)))
      with (Py.rfind_from "/" (String d a) (0 + 1)
              (if Ascii.eqb "/" c then 0 else -1)).
    destruct (rfind_from_spec "/" (String d a) (0 + 1)
                (if Ascii.eqb "/" c then 0 else -1)) as [Hb ->].
    rewrite IH. cbn [String.length] in *.
    destruct (_ =? -1) eqn:Hn; [apply Z.eqb_eq in Hn|]; lia.
Qed.

Lemma join_prefix root file :
  Py.rfind "/" file = -1 →
  ∃ pre, Py.join root file = pre +:+ file
         ∧ Py.rfind "/" pre = Z.of_nat (String.length pre) - 1.
Proof.
  intros Hf. unfold Py.join.
  destruct (Py.startswith "/" file) eqn:Hst;
    [apply startswith_sep_rfind in Hst; contradiction|].
  destruct (String.eqb_spec root "") as [->|Hne].
  - exists "". split; reflexivity.
  - cbn [orb]. destruct (Py.ends_with_sep root) eqn:He.
    + exists root. split; [reflexivity|apply ends_with_sep_rfind, He].
    + exists (root +:+ "/"). split; [symmetry; apply append_assoc|].
      rewrite rfind_append, append_length.
      change (Py.rfind "/" "/") with 0. cbn [Z.eqb String.length]. lia.
Qed.

(** X18. The two scripts look at the same extension.  For a file name
    as a walk yields it (no [/] in it), the extension of the joined path,
    which camps_mt.py tests, is the extension of the bare name, which
    camps_legacy.py tests; and the base name of the joined path, from
    which artist and title are estimated, is the name itself. *)
Theorem walked_name_keeps_its_extension root file :
  Py.rfind "/" file = -1 →
  snd (Py.splitext (Py.join root file)) = snd (Py.splitext file)
  ∧ Py.basename (Py.join root file) = file.
Proof.
  intros Hf. destruct (join_prefix root file Hf) as (pre & -> & Hpre).
  pose proof (rfind_bounds "." pre) as Hbp.
  pose proof (rfind_bounds "." file) as Hbf.
  assert (Hsep : Py.rfind "/" (pre +:+ file) = Z.of_nat (String.length pre) - 1).
  { rewrite rfind_append, Hf. exact Hpre. }
  split.
  2:{ unfold Py.basename. rewrite Hsep.
      replace (Z.to_nat (Z.of_nat (String.length pre) - 1 + 1))
        with (String.length pre) by lia.
      apply drop_append. }
  unfold Py.splitext. cbv zeta. rewrite Hsep, Hf, (rfind_append "." pre file).
  destruct (Py.rfind "." file =? -1) eqn:Hd.
  - apply Z.eqb_eq in Hd. rewrite Hd.
    assert (H1 : (Z.of_nat (String.length pre) - 1 <? Py.rfind "." pre) = false)
      by (apply Z.ltb_ge; lia).
    rewrite H1. reflexivity.
  - apply Z.eqb_neq in Hd.
    assert (H1 : (Z.of_nat (String.length pre) - 1
                  <? Z.of_nat (String.length pre) + Py.rfind "." file) = true)
      by (apply Z.ltb_lt; lia).
    assert (H2 : (-1 <? Py.rfind "." file) = true) by (apply Z.ltb_lt; lia).
    rewrite H1, H2. cbn [andb].
    replace (Z.to_nat (Z.of_nat (String.length pre) - 1 + 1))
      with (String.length pre) by lia.
    replace (Z.to_nat (Z.of_nat (String.length pre) + Py.rfind "." file
                       - (Z.of_nat (String.length pre) - 1 + 1)))
      with (Z.to_nat (Py.rfind "." file)) by lia.
    replace (Z.to_nat (Py.rfind "." file - (-1 + 1)))
      with (Z.to_nat (Py.rfind "." file)) by lia.
    replace (Z.to_nat (Z.of_nat (String.length pre) + Py.rfind "." file))
      with (String.length pre + Z.to_nat (Py.rfind "." file))%nat by lia.
    rewrite drop_append. change (Z.to_nat (-1 + 1)) with 0%nat.
    cbn [Py.drop].
    destruct (Py.has_non_dot file _); cbn [snd]; [|reflexivity].
    apply drop_append_add.
Qed.

Lemma walked_name_keeps_its_extension_witness :
  Py.rfind "/" "Song.FLAC" = -1
  ∧ snd (Py.splitext (Py.join "/m/a.b" "Song.FLAC"))
    = snd (Py.splitext "Song.FLAC")
  ∧ Py.basename (Py.join "/m/a.b" "Song.FLAC") = "Song.FLAC".
Proof.
  assert (H : Py.rfind "/" "Song.FLAC" = -1) by reflexivity.
  split; [exact H|].
  exact (walked_name_keeps_its_extension "/m/a.b" "Song.FLAC" H).
Defined.

(** ** Files a batch leaves alone *)

Section Scratch.
Context (E : Env) (metadata : string -> string -> M unit) (report : Msg -> M unit).
Hypothesis report_quiet :
  ∀ m w, fst (report m w) = Ok tt ∧ quiet w (snd (report m w)).

(** [NamedTemporaryFile] creates its file exclusively: when the name is
    taken the conversion stops before its first write. *)
Lemma skeleton_scratch_taken p w :
  is_Some (fs w !! tmp_name E (2 + clock w)) →
  fs (snd (convert_skeleton E metadata report p w)) = fs w.
Proof.
  intros Htaken.
  assert (Hh : ∀ wi,
            fs (snd ((print E (MErrorConverting p);;
                      report (MErrorConverting p);; mret 0) wi)) = fs wi).
  { intros wi. rewrite bind_run, print_run.
    destruct (forallb _ _); [|reflexivity]. cbv beta iota.
    rewrite bind_run.
    match goal with |- context [report ?m ?w1] =>
      destruct (report_quiet m w1) as [Hr [Hfs _]];
      destruct (report m w1) as [r w2]
    end.
    cbn in Hr, Hfs. subst r. cbn. exact Hfs. }
  unfold convert_skeleton.
  rewrite try_except_bind, from_file_run.
  destruct (fault E (clock w) _); [rewrite Hh; reflexivity|].
  destruct (fs w !! p) as [f|] eqn:Hp; [|rewrite Hh; reflexivity].
  destruct (f_audio f); [|rewrite Hh; reflexivity].
  rewrite try_except_bind, os_stat_run. unfold tick; cbn [fs clock log].
  rewrite Hp.
  destruct (fault E (S (clock w)) _); [rewrite Hh; reflexivity|].
  rewrite try_except_bind, NamedTemporaryFile_run.
  unfold tick; cbn [fs clock log].
  destruct (fault E (S (S (clock w))) _); [rewrite Hh; reflexivity|].
  change (S (S (clock w))) with (2 + clock w)%nat.
  destruct (fs w !! tmp_name E (2 + clock w)); [rewrite Hh; reflexivity|].
  destruct Htaken as [? [=]].
Qed.

End Scratch.

Lemma convert_keeps_other_files s E p w q f :
  q ≠ p → q ≠ new_path_of p → fs w !! q = Some f →
  fs (snd (convert_to_mp3_of s E p w)) !! q = Some f.
Proof.
  intros H1 H2 Hq.
  destruct (decide (q = tmp_name E (2 + clock w))) as [->|H3].
  - assert (Hfs : fs (snd (convert_to_mp3_of s E p w)) = fs w).
    { destruct s; cbn [convert_to_mp3_of].
      - apply (skeleton_scratch_taken E (Mt.copy_metadata E)
                 (Mt.send_slack_message E));
          [apply mt_send_slack_message_quiet|eauto].
      - rewrite legacy_convert_is_skeleton.
        apply (skeleton_scratch_taken E (legacy_metadata E)
                 (Legacy.post_and_report E));
          [apply legacy_post_and_report_quiet|eauto]. }
    rewrite Hfs. exact Hq.
  - destruct (convert_outcome s E p w) as [Hframe _].
    rewrite Hframe by assumption. exact Hq.
Qed.

Lemma claims_path_false rf q :
  claims_path rf q = false →
  (supported (Py.lower (snd (Py.splitext (Py.join (fst rf) (snd rf))))) = true
   ∨ supported (Py.lower (snd (Py.splitext (snd rf)))) = true) →
  q ≠ Py.join (fst rf) (snd rf) ∧ q ≠ new_path_of (Py.join (fst rf) (snd rf)).
Proof.
  unfold claims_path. cbv zeta. intros H Hs.
  apply andb_false_iff in H as [H|H].
  - apply orb_false_iff in H as [Ha Hb]. destruct Hs; congruence.
  - apply orb_false_iff in H as [Ha Hb].
    apply String.eqb_neq in Ha, Hb. split; assumption.
Qed.

Lemma mt_task_keeps_other_files E p w q f :
  (supported (Py.lower (snd (Py.splitext p))) = true →
   q ≠ p ∧ q ≠ new_path_of p) →
  fs w !! q = Some f →
  fs (snd (Mt.process_file E p w)) !! q = Some f.
Proof.
  intros Hq Hf.
  destruct (supported (Py.lower (snd (Py.splitext p)))) eqn:Hs.
  2:{ unfold Mt.process_file. cbv zeta. rewrite Hs. exact Hf. }
  destruct (Hq eq_refl) as [H1 H2].
  destruct (mt_process_file_run E p w) as (w1 & [[Hout _] _] & Hrun).
  assert (Hf1 : fs w1 !! q = Some f) by (rewrite Hout by exact H1; exact Hf).
  destruct Hrun as [->|[-> _]]; [|exact Hf1].
  apply (convert_keeps_other_files CampsMt); assumption.
Qed.

Lemma mt_tasks_keep_other_files E files w q f :
  Forall (fun p => supported (Py.lower (snd (Py.splitext p))) = true →
                   q ≠ p ∧ q ≠ new_path_of p) files →
  fs w !! q = Some f →
  fs (snd (Mt.executor_map E files w)) !! q = Some f.
Proof.
  intros H. revert w. induction H as [|p files Hp _ IH]; intros w Hf;
    [exact Hf|].
  cbn [Mt.executor_map]. rewrite bind_run.
  pose proof (mt_task_keeps_other_files E p w q f Hp Hf) as H1.
  destruct (Mt.process_file E p w) as [[r|e] w1]; cbn [snd] in H1;
    [|exact H1].
  rewrite bind_run. specialize (IH w1 H1).
  destruct (Mt.executor_map E files w1) as [[rs|e] w2]; exact IH.
Qed.

Lemma legacy_entry_keeps_other_files E root file w q f :
  (supported (Py.lower (snd (Py.splitext file))) = true →
   q ≠ Py.join root file ∧ q ≠ new_path_of (Py.join root file)) →
  fs w !! q = Some f →
  fs (snd (legacy_entry E root file w)) !! q = Some f.
Proof.
  intros Hq Hf. unfold legacy_entry. cbv zeta.
  destruct (supported _); [|exact Hf].
  destruct (Hq eq_refl) as [H1 H2].
  rewrite bind_run.
  assert (Hskip : ∀ (k : bool -> M (option Z)),
            (∀ b w1, fs w1 !! q = Some f → fs (snd (k b w1)) !! q = Some f) →
            fs (snd (match
                 (if String.eqb (Py.lower (snd (Py.splitext file))) ".mp3"
                  then bitrate ← Legacy.get_mp3_bitrate E (Py.join root file);
                       match bitrate with
                       | Some b =>
                           if b =? desired_bitrate E then mret true
                           else if negb (b =? 0) && (b <? desired_bitrate E)
                                then print E (MLowerBitrate file b);; mret true
                                else mret false
                       | None => mret false
                       end
                  else mret false) w
               with
               | (Ok a, w') => k a w'
               | (Raise e, w') => (Raise e, w')
               end)) !! q = Some f).
  { intros k Hk. destruct (String.eqb _ ".mp3"); [|apply Hk, Hf].
    rewrite bind_run.
    change (Legacy.get_mp3_bitrate E (Py.join root file) w)
      with (Mt.get_mp3_bitrate E (Py.join root file) w).
    rewrite get_mp3_bitrate_run.
    destruct (if fault E (clock w) _ then None else _) as [b|].
    2:{ destruct (stdout_encodes E _); [apply Hk, Hf|exact Hf]. }
    cbv beta iota.
    destruct (b =? desired_bitrate E); [apply Hk, Hf|].
    destruct (negb (b =? 0) && (b <? desired_bitrate E)); [|apply Hk, Hf].
    rewrite bind_run, print_run.
    destruct (forallb _ _); [apply Hk, Hf|exact Hf]. }
  apply Hskip. intros [] w1 Hf1; [exact Hf1|].
  rewrite bind_run.
  pose proof (convert_keeps_other_files CampsLegacy E (Py.join root file) w1
                q f H1 H2 Hf1) as Hc.
  cbn [convert_to_mp3_of] in Hc.
  destruct (Legacy.convert_to_mp3 E _ w1) as [[r|e] w2]; exact Hc.
Qed.

Lemma legacy_entries_keep_other_files E entries w q f :
  Forall (fun rf => supported (Py.lower (snd (Py.splitext (snd rf)))) = true →
                    q ≠ Py.join (fst rf) (snd rf)
                    ∧ q ≠ new_path_of (Py.join (fst rf) (snd rf))) entries →
  fs w !! q = Some f →
  fs (snd (legacy_space_saved E entries w)) !! q = Some f.
Proof.
  intros H. revert w. induction H as [|[root file] rest Hp _ IH]; intros w Hf;
    [exact Hf|].
  cbn [legacy_space_saved]. rewrite bind_run.
  pose proof (legacy_entry_keeps_other_files E root file w q f Hp Hf) as H1.
  destruct (legacy_entry E root file w) as [[r|e] w1]; cbn [snd] in H1;
    [|exact H1].
  rewrite bind_run. specialize (IH w1 H1).
  destruct (legacy_space_saved E rest w1) as [[rs|e] w2]; exact IH.
Qed.

(** X19. A batch leaves alone every file it has no claim to.  A file
    that exists when the run starts, and that is neither the path of a
    walked file the script takes for supported nor the new path of such a
    file, is there when the run ends, with the same contents, tags,
    permission bits and ownership; in both scripts, whatever calls fail,
    and also when camps_mt.py aborts.  The scratch file cannot hurt it:
    it is created exclusively. *)
Theorem unclaimed_file_survives_the_batch E d w q f :
  fs w !! q = Some f →
  existsb (fun rf => claims_path rf q) (walk_files E d (fs w)) = false →
  fs (snd (Mt.process_directory E d w)) !! q = Some f
  ∧ fs (snd (Legacy.process_directory E d w)) !! q = Some f.
Proof.
  intros Hf Hc.
  assert (Hall : Forall (fun rf => claims_path rf q = false)
                   (walk_files E d (fs w))).
  { apply Forall_forall. intros rf Hin.
    destruct (claims_path rf q) eqn:Hrf; [|reflexivity].
    assert (existsb (fun rf => claims_path rf q) (walk_files E d (fs w)) = true).
    { apply existsb_exists. exists rf. split; [|exact Hrf].
      apply list_elem_of_In, Hin. }
    congruence. }
  split.
  - rewrite mt_process_directory_run.
    pose proof (mt_tasks_keep_other_files E
                  (map (fun rf => Py.join (fst rf) (snd rf))
                       (walk_files E d (fs w))) w q f) as H.
    destruct (Mt.executor_map E _ w) as [[rs|e] w1]; cbn [snd fs] in *;
      apply H; try exact Hf;
      (apply Forall_map; eapply Forall_impl; [exact Hall|]; intros rf Hrf Hs;
       apply (claims_path_false rf q Hrf); left; exact Hs).
  - rewrite legacy_process_directory_fs.
    apply legacy_entries_keep_other_files; [|exact Hf].
    eapply Forall_impl; [exact Hall|]. intros rf Hrf Hs.
    apply (claims_path_false rf q Hrf). right. exact Hs.
Qed.

(** A cover image next to a FLAC file that is converted. *)
Lemma unclaimed_file_survives_the_batch_witness :
  fs (Studio.world {[ "/m/a.flac" := Studio.flac 100 ∅;
                      "/m/cover.jpg" := mkFile 700 420 1000 1000 None None ]})
    !! "/m/cover.jpg" = Some (mkFile 700 420 1000 1000 None None)
  ∧ existsb (fun rf => claims_path rf "/m/cover.jpg")
      (walk_files (Studio.env Studio.no_faults 40
                     [("/m", ["a.flac"; "cover.jpg"])]) "/m"
         (fs (Studio.world
                {[ "/m/a.flac" := Studio.flac 100 ∅;
                   "/m/cover.jpg" := mkFile 700 420 1000 1000 None None ]})))
    = false
  ∧ fs (snd (Legacy.process_directory
               (Studio.env Studio.no_faults 40
                  [("/m", ["a.flac"; "cover.jpg"])]) "/m"
               (Studio.world
                  {[ "/m/a.flac" := Studio.flac 100 ∅;
                     "/m/cover.jpg" := mkFile 700 420 1000 1000 None None ]})))
      !! "/m/cover.jpg" = Some (mkFile 700 420 1000 1000 None None).
Proof.
  assert (H1 : fs (Studio.world
                     {[ "/m/a.flac" := Studio.flac 100 ∅;
                        "/m/cover.jpg" := mkFile 700 420 1000 1000 None None ]})
                 !! "/m/cover.jpg"
               = Some (mkFile 700 420 1000 1000 None None))
    by (vm_compute; reflexivity).
  assert (H2 : existsb (fun rf => claims_path rf "/m/cover.jpg")
                 (walk_files (Studio.env Studio.no_faults 40
                                [("/m", ["a.flac"; "cover.jpg"])]) "/m"
                    (fs (Studio.world
                           {[ "/m/a.flac" := Studio.flac 100 ∅;
                              "/m/cover.jpg" :=
                                mkFile 700 420 1000 1000 None None ]})))
               = false)
    by (vm_compute; reflexivity).
  split; [exact H1|]. split; [exact H2|].
  exact (proj2 (unclaimed_file_survives_the_batch
                  (Studio.env Studio.no_faults 40
                     [("/m", ["a.flac"; "cover.jpg"])]) "/m"
                  (Studio.world
                     {[ "/m/a.flac" := Studio.flac 100 ∅;
                        "/m/cover.jpg" := mkFile 700 420 1000 1000 None None ]})
                  "/m/cover.jpg" (mkFile 700 420 1000 1000 None None) H1 H2)).
Defined.

(** ** A conversion in which no call fails *)

Section FaultFree.
Context (E : Env).
Hypothesis no_fault : ∀ n op, fault E n op = false.

Lemma legacy_metadata_fault_free p t w f mi g mg :
  fs w !! p = Some f → f_media f = Some mi →
  fs w !! t = Some g → f_media g = Some mg →
  ∃ w' n,
    legacy_metadata E p t w = (Ok tt, w')
    ∧ fs w' = <[t := with_tags E n
                       (mkMObj t (mi_bitrate mg) (mi_tags mi ∪ mi_tags mg)) g]>
                (fs w).
Proof.
  intros Hp Hmi Ht Hmg. unfold legacy_metadata.
  rewrite bind_run, mutagen_File_run, no_fault, Hp, Hmi.
  rewrite bind_run, mutagen_File_run, no_fault. unfold tick; cbn [fs clock log].
  rewrite Ht, Hmg.
  rewrite bind_run. unfold obj_update. rewrite bind_run. unfold call at 1.
  cbn [fs clock log o_path]. rewrite no_fault. cbn [mret M_ret o_tags o_bitrate].
  rewrite obj_save_run, no_fault. cbn [fs clock log o_path]. rewrite Ht.
  cbv zeta. eexists _, _. split; reflexivity.
Qed.

Lemma mt_copy_metadata_fault_free p t w f mi g mg :
  fs w !! p = Some f → f_media f = Some mi →
  fs w !! t = Some g → f_media g = Some mg →
  tags_truth E (mi_tags mi) = true → tags_truth E (mi_tags mg) = true →
  ∃ w' n,
    Mt.copy_metadata E p t w = (Ok tt, w')
    ∧ fs w' = <[t := with_tags E n
                       (mkMObj t (mi_bitrate mg) (mi_tags mi ∪ mi_tags mg)) g]>
                (fs w).
Proof.
  intros Hp Hmi Ht Hmg Htp Htg. unfold Mt.copy_metadata, try_then.
  rewrite bind_run, mutagen_File_run, no_fault, Hp, Hmi.
  rewrite bind_run, mutagen_File_run, no_fault. unfold tick; cbn [fs clock log].
  rewrite Ht, Hmg. cbn [mret M_ret]. cbv beta iota.
  unfold truth. cbn [o_tags]. rewrite Htp, Htg. cbn [andb].
  unfold obj_update. rewrite bind_run. unfold call at 1.
  cbn [fs clock log o_path]. rewrite no_fault. cbn [mret M_ret o_tags o_bitrate].
  unfold try_except. rewrite obj_save_run, no_fault.
  cbn [fs clock log o_path]. rewrite Ht.
  cbv zeta. eexists _, _. split; reflexivity.
Qed.

Lemma skeleton_fault_free metadata report p w f a :
  (∀ m wi, fs (snd (report m wi)) = fs wi) →
  fs w !! p = Some f → f_audio f = Some a →
  fs w !! tmp_name E (2 + clock w) = None →
  (∀ w7,
     fs w7 = <[tmp_name E (2 + clock w) :=
                 encoded E (3 + clock w) a (Some (empty_file E))]>
               (<[tmp_name E (2 + clock w) := empty_file E]> (fs w)) →
     ∃ w8 g8,
       metadata p (tmp_name E (2 + clock w)) w7 = (Ok tt, w8)
       ∧ fs w8 = <[tmp_name E (2 + clock w) := g8]> (fs w7)) →
  ∃ w8 g8 w7,
    fs w7 = <[tmp_name E (2 + clock w) :=
                encoded E (3 + clock w) a (Some (empty_file E))]>
              (<[tmp_name E (2 + clock w) := empty_file E]> (fs w))
    ∧ metadata p (tmp_name E (2 + clock w)) w7 = (Ok tt, w8)
    ∧ fs w8 = <[tmp_name E (2 + clock w) := g8]> (fs w7)
    ∧ fs (snd (convert_skeleton E metadata report p w)) !! new_path_of p
      = Some (with_owner (f_uid f) (f_gid f) (with_mode (f_mode f) g8)).
Proof.
  intros Hrep Hp Ha Ht Hmeta.
  set (t := tmp_name E (2 + clock w)) in *.
  assert (Htp : t ≠ p) by (intros Heq; rewrite Heq in Ht; congruence).
  unfold convert_skeleton. fold (new_path_of p). set (np := new_path_of p).
  set (h := fun _ : Exn => _).
  assert (Hh : ∀ e wi, fs (snd (h e wi)) = fs wi).
  { intros e wi. unfold h. rewrite bind_run, print_run.
    destruct (forallb _ _); [|reflexivity]. cbv beta iota.
    rewrite bind_run.
    match goal with |- context [report ?m ?w1] =>
      pose proof (Hrep m w1) as Hfs; destruct (report m w1) as [[[]|e1] w2]
    end; exact Hfs. }
  rewrite try_except_bind, from_file_run, no_fault, Hp, Ha.
  rewrite try_except_bind, os_stat_run, no_fault. unfold tick; cbn [fs clock log].
  rewrite Hp.
  rewrite try_except_bind, NamedTemporaryFile_run, no_fault.
  cbn [fs clock log]. change (tmp_name E (S (S (clock w)))) with t.
  rewrite Ht. cbv beta iota zeta.
  rewrite try_except_bind, audio_export_run, no_fault. cbn [fs clock log].
  rewrite lookup_insert_eq. cbv beta iota zeta.
  set (m1 := <[t := empty_file E]> (fs w)).
  set (g := encoded E (S (S (S (clock w)))) a (Some (empty_file E))).
  set (m2 := <[t := g]> m1).
  assert (H2p : m2 !! p = Some f).
  { unfold m2, m1. rewrite !lookup_insert_ne by done. exact Hp. }
  assert (H2t : m2 !! t = Some g) by apply lookup_insert_eq.
  rewrite try_except_bind, os_stat_run, no_fault. cbn [fs clock log].
  rewrite H2p.
  rewrite try_except_bind, getsize_run, no_fault. unfold tick; cbn [fs clock log].
  rewrite H2p.
  rewrite try_except_bind, getsize_run, no_fault. unfold tick; cbn [fs clock log].
  rewrite H2t. cbn [st_mode st_uid st_gid].
  rewrite try_except_bind.
  match goal with
  | |- context [metadata p t ?w0] =>
      destruct (Hmeta w0 eq_refl) as (w8 & g8 & Hrun & Hfs8);
      exists w8, g8, w0
  end.
  split; [reflexivity|]. split; [exact Hrun|]. split; [exact Hfs8|].
  rewrite Hrun. cbv beta iota. cbn [fs] in Hfs8. fold m1 g m2 in Hfs8.
  assert (H8t : fs w8 !! t = Some g8) by (rewrite Hfs8; apply lookup_insert_eq).
  assert (H8p : fs w8 !! p = Some f).
  { rewrite Hfs8, lookup_insert_ne by done. exact H2p. }
  rewrite try_except_bind, shutil_move_run, no_fault, H8t. cbv beta iota zeta.
  rewrite try_except_bind, os_chmod_run, no_fault. cbn [fs clock log].
  rewrite lookup_insert_eq. cbv beta iota zeta.
  rewrite try_except_bind, os_chown_run, no_fault. cbn [fs clock log].
  rewrite lookup_insert_eq. cbv beta iota zeta.
  rewrite try_except_bind.
  destruct (String.eqb p np) eqn:Hpn.
  - cbv beta iota delta [mret M_ret].
    rewrite try_except_bind, print_run.
    destruct (forallb _ _); [|rewrite Hh; apply lookup_insert_eq].
    unfold try_except. cbv beta iota delta [mret M_ret]. cbn [snd fs].
    apply lookup_insert_eq.
  - apply String.eqb_neq in Hpn.
    rewrite os_remove_run, no_fault. cbn [fs clock log].
    rewrite !lookup_insert_ne, lookup_delete_ne, H8p by done. cbv beta iota zeta.
    rewrite try_except_bind, print_run.
    destruct (forallb _ _);
      [unfold try_except; cbv beta iota delta [mret M_ret]|rewrite Hh];
      cbn [snd fs]; rewrite lookup_delete_ne by done; apply lookup_insert_eq.
Qed.

End FaultFree.

(** X20. Preserving metadata.  When no call fails, the source is a
    file mutagen reads, and (in camps_mt.py) both tag sets are truthy, the
    file [convert_to_mp3] leaves at the new path carries every tag of the
    source with the source's values, and the encoder's own tags for the
    fields the source does not have. *)
Theorem fault_free_conversion_carries_the_tags s E p w f a mi key :
  (∀ n op, fault E n op = false) →
  fs w !! p = Some f → f_audio f = Some a → f_media f = Some mi →
  fs w !! tmp_name E (2 + clock w) = None →
  (s = CampsMt →
   tags_truth E (mi_tags mi) = true
   ∧ tags_truth E (enc_tags E (3 + clock w)) = true) →
  tag_of (fs (snd (convert_to_mp3_of s E p w))) (new_path_of p) key
  = match mi_tags mi !! key with
    | Some values => Some values
    | None => enc_tags E (3 + clock w) !! key
    end.
Proof.
  intros Hnf Hp Ha Hmi Ht Htruth.
  set (t := tmp_name E (2 + clock w)) in *.
  assert (Htp : t ≠ p) by (intros Heq; rewrite Heq in Ht; congruence).
  assert (Hmeta : ∀ metadata,
            (∀ w7 g mg, fs w7 !! p = Some f → fs w7 !! t = Some g →
                        f_media g = Some mg →
                        mi_tags mg = enc_tags E (3 + clock w) →
               ∃ w' n,
                 metadata p t w7 = (Ok tt, w')
                 ∧ fs w' = <[t := with_tags E n
                                    (mkMObj t (mi_bitrate mg)
                                       (mi_tags mi ∪ mi_tags mg)) g]>
                             (fs w7)) →
            ∀ report,
            (∀ m wi, fs (snd (report m wi)) = fs wi) →
            tag_of (fs (snd (convert_skeleton E metadata report p w)))
              (new_path_of p) key
            = (mi_tags mi ∪ enc_tags E (3 + clock w)) !! key).
  { intros metadata Hm report Hrep.
    destruct (skeleton_fault_free E Hnf metadata report p w f a Hrep Hp Ha Ht)
      as (w8 & g8 & w7 & Hfs7 & Hrun & Hfs8 & Hnp).
    - intros w7 Hfs7.
      destruct (Hm w7 (encoded E (3 + clock w) a (Some (empty_file E)))
                  (mkMediaInfo (Some (desired_bitrate E * 1000))
                     (enc_tags E (3 + clock w))))
        as (w' & n & Hrun & Hfs').
      + rewrite Hfs7. fold t. rewrite !lookup_insert_ne by done. exact Hp.
      + rewrite Hfs7. apply lookup_insert_eq.
      + reflexivity.
      + reflexivity.
      + eexists _, _. split; [exact Hrun|exact Hfs'].
    - fold t in Hfs7, Hrun, Hfs8.
      destruct (Hm w7 (encoded E (3 + clock w) a (Some (empty_file E)))
                  (mkMediaInfo (Some (desired_bitrate E * 1000))
                     (enc_tags E (3 + clock w))))
        as (w' & n & Hrun' & Hfs').
      + rewrite Hfs7. rewrite !lookup_insert_ne by done. exact Hp.
      + rewrite Hfs7. apply lookup_insert_eq.
      + reflexivity.
      + reflexivity.
      + rewrite Hrun in Hrun'. injection Hrun' as <-.
        assert (Hg8 : Some g8 = fs w8 !! t)
          by (rewrite Hfs8, lookup_insert_eq; reflexivity).
        rewrite Hfs', lookup_insert_eq in Hg8. injection Hg8 as ->.
        unfold tag_of. rewrite Hnp. reflexivity. }
  assert (Hgoal : tag_of (fs (snd (convert_to_mp3_of s E p w)))
                    (new_path_of p) key
                  = (mi_tags mi ∪ enc_tags E (3 + clock w)) !! key).
  { destruct s; cbn [convert_to_mp3_of].
    - destruct (Htruth eq_refl) as [Htp1 Htp2].
      apply (Hmeta (Mt.copy_metadata E));
        [|intros m wi; apply (mt_send_slack_message_quiet E m wi)].
      intros w7 g mg H7p H7t Hmg Htags.
      apply (mt_copy_metadata_fault_free E Hnf p t w7 f mi g mg);
        try assumption. rewrite Htags. exact Htp2.
    - rewrite legacy_convert_is_skeleton.
      apply (Hmeta (legacy_metadata E));
        [|intros m wi; apply (legacy_post_and_report_quiet E m wi)].
      intros w7 g mg H7p H7t Hmg Htags.
      apply (legacy_metadata_fault_free E Hnf p t w7 f mi g mg); assumption. }
  rewrite Hgoal, lookup_union.
  destruct (mi_tags mi !! key), (enc_tags E (3 + clock w) !! key); reflexivity.
Qed.

(** The tagged FLAC file of [Studio.renamed_flac] keeps its artist. *)
Lemma fault_free_conversion_carries_the_tags_witness :
  (∀ n op, fault (Studio.env Studio.no_faults 100 []) n op = false)
  ∧ fs Studio.renamed_flac !! "/m/New - Name.flac"
    = Some (Studio.flac 9000 (Studio.tagged "Old" "Kept"))
  ∧ tag_of (fs (snd (convert_to_mp3_of CampsMt
                       (Studio.env Studio.no_faults 100 [])
                       "/m/New - Name.flac" Studio.renamed_flac)))
      (new_path_of "/m/New - Name.flac") "artist"
    = match Studio.tagged "Old" "Kept" !! "artist" with
      | Some values => Some values
      | None =>
          enc_tags (Studio.env Studio.no_faults 100 [])
            (3 + clock Studio.renamed_flac) !! "artist"
      end.
Proof.
  assert (H1 : ∀ n op, fault (Studio.env Studio.no_faults 100 []) n op = false)
    by reflexivity.
  assert (H2 : fs Studio.renamed_flac !! "/m/New - Name.flac"
               = Some (Studio.flac 9000 (Studio.tagged "Old" "Kept")))
    by (vm_compute; reflexivity).
  assert (H3 : fs Studio.renamed_flac
                 !! tmp_name (Studio.env Studio.no_faults 100 [])
                      (2 + clock Studio.renamed_flac) = None)
    by (vm_compute; reflexivity).
  assert (H4 : CampsMt = CampsMt →
               tags_truth (Studio.env Studio.no_faults 100 [])
                 (mi_tags (mkMediaInfo (Some 900000)
                             (Studio.tagged "Old" "Kept"))) = true
               ∧ tags_truth (Studio.env Studio.no_faults 100 [])
                   (enc_tags (Studio.env Studio.no_faults 100 [])
                      (3 + clock Studio.renamed_flac)) = true)
    by (intros _; split; vm_compute; reflexivity).
  split; [exact H1|]. split; [exact H2|].
  exact (fault_free_conversion_carries_the_tags CampsMt
           (Studio.env Studio.no_faults 100 []) "/m/New - Name.flac"
           Studio.renamed_flac (Studio.flac 9000 (Studio.tagged "Old" "Kept"))
           1%nat (mkMediaInfo (Some 900000) (Studio.tagged "Old" "Kept"))
           "artist" H1 H2 eq_refl eq_refl H3 H4).
Defined.
